(** * ETL_AIR_QUALITY_API/transform.py: the transform step of the air-quality ETL

    A shallow embedding of [transform.py] (flattening of raw JSON payloads,
    hourly aggregation, multi-file merge and the derived metrics) and the
    properties of it that the specification states.

    Conventions.
    - Python [float] is IEEE-754 binary64: [spec_float] of the Standard
      Library with precision 53 and maximal exponent 1024 (module [F64]).
    - A Python call that may raise returns [result]; [Raise e] is the
      exception escaping the function.
    - [pyval] is plain Python data, exactly the range of [json.load];
      [cell] adds the pandas scalars a frame can hold.
    - String parsers of the runtime and of pandas ([float(str)],
      [pd.to_numeric], [pd.to_datetime]) are not code of this repository:
      they are the fields of the class [Runtime].  Universal statements hold
      for every runtime; concrete scenarios run on [iso_runtime]. *)

From Stdlib Require Import ZArith List String Ascii Bool Lia.
From Stdlib Require Import Floats.SpecFloat.
Import ListNotations.
Local Open Scope Z_scope.
Local Open Scope string_scope.
Local Open Scope list_scope.

(* ===================================================================== *)
(** ** binary64 *)

Module F64.
Definition t := spec_float.
Definition prec : Z := 53.
Definition emax : Z := 1024.

(** [float(n)] for an integer: round to nearest even. *)
Definition of_Z (z : Z) : t := binary_normalize prec emax z 0 false.
Definition add : t -> t -> t := SFadd prec emax.
Definition mul : t -> t -> t := SFmul prec emax.
Definition sub : t -> t -> t := SFsub prec emax.
Definition div : t -> t -> t := SFdiv prec emax.
Definition leb : t -> t -> bool := SFleb.
Definition ltb : t -> t -> bool := SFltb.
Definition eqb : t -> t -> bool := SFeqb.
Definition nan : t := S754_nan.
Definition zero : t := S754_zero false.

Definition is_nan (x : t) : bool :=
  match x with S754_nan => true | _ => false end.
Definition is_inf (x : t) : bool :=
  match x with S754_infinity _ => true | _ => false end.

(** The literal [n/10], e.g. [50.1]: both operands are exact and the
    quotient is correctly rounded, so this is the double nearest to the
    decimal. *)
Definition tenths (n : Z) : t := div (of_Z n) (of_Z 10).

(** Sign test used for the severity bound: zero of either sign, a
    positive finite number or plus infinity. *)
Definition nonneg (x : t) : bool :=
  match x with
  | S754_zero _ => true
  | S754_infinity s => negb s
  | S754_finite s _ _ => negb s
  | S754_nan => false
  end.

(** A rounded result carries the sign it was given. *)
Definition signed_as (sx : bool) (r : t) : Prop :=
  match r with
  | S754_zero s' | S754_infinity s' | S754_finite s' _ _ => s' = sx
  | S754_nan => False
  end.

(** [lo < x <= hi]. *)
Definition in_band (lo hi x : t) : bool := andb (ltb lo x) (leb x hi).
End F64.

Definition float : Type := F64.t.

Declare Scope f64_scope.
Delimit Scope f64_scope with f64.
Infix "+" := F64.add : f64_scope.
Infix "*" := F64.mul : f64_scope.
Infix "<=?" := F64.leb : f64_scope.
Infix "<?" := F64.ltb : f64_scope.

(* ===================================================================== *)
(** ** Exceptions *)

Inductive exn :=
| AttributeError | TypeError | ValueError | KeyError | IndexError
| OverflowError | JSONDecodeError.

Inductive result (A : Type) :=
| Ok (a : A)
| Raise (e : exn).
Arguments Ok {A} a.
Arguments Raise {A} e.

Definition bind {A B} (m : result A) (k : A -> result B) : result B :=
  match m with
  | Ok a => k a
  | Raise e => Raise e
  end.

Notation "x <- m ;; k" := (bind m (fun x => k))
  (at level 61, m at next level, right associativity).

(** [for x in xs: ...] with a body that may raise; results in order. *)
Fixpoint for_each {A B} (f : A -> result B) (xs : list A) : result (list B) :=
  match xs with
  | [] => Ok []
  | x :: xs' => y <- f x ;; ys <- for_each f xs' ;; Ok (y :: ys)
  end.

(* ===================================================================== *)
(** ** Python data *)

#[warnings="-register-all"]
Inductive pyval :=
| VNone
| VBool (b : bool)
| VInt (z : Z)
| VFloat (f : float)
| VStr (s : string)
| VList (l : list pyval)
| VDict (d : list (string * pyval)).

Definition dict := list (string * pyval).

(** A pandas timestamp: [ns] nanoseconds since the epoch (on the UTC time
    line when [tz] is set, wall clock otherwise); [tz] is the offset from
    UTC in seconds, [None] for a tz-naive value. *)
Record Timestamp := { ns : Z; tz : option Z }.

Inductive cell :=
| Obj (v : pyval)
| Time (t : Timestamp)
| NaT
| NA.

(** [d.get(k)] / [k in d] on association lists: the first binding wins. *)
Fixpoint lookup {A} (k : string) (d : list (string * A)) : option A :=
  match d with
  | [] => None
  | (k', v) :: d' => if String.eqb k k' then Some v else lookup k d'
  end.

Definition has_key {A} (k : string) (d : list (string * A)) : bool :=
  match lookup k d with Some _ => true | None => false end.

(** [d[k] = v]: overwrite in place, or append a new key. *)
Fixpoint set_item {A} (k : string) (v : A) (d : list (string * A))
  : list (string * A) :=
  match d with
  | [] => [(k, v)]
  | (k', v') :: d' =>
      if String.eqb k k' then (k', v) :: d' else (k', v') :: set_item k v d'
  end.

Definition get (d : dict) (k : string) : pyval :=
  match lookup k d with Some v => v | None => VNone end.

(** [bool(x)]. *)
Definition truthy (v : pyval) : bool :=
  match v with
  | VNone => false
  | VBool b => b
  | VInt z => negb (Z.eqb z 0)
  | VFloat f => negb (F64.eqb f F64.zero)
  | VStr s => negb (String.eqb s "")
  | VList l => match l with [] => false | _ => true end
  | VDict d => match d with [] => false | _ => true end
  end.

(** [a or b] returns one of its operands. *)
Definition py_or (a b : pyval) : pyval := if truthy a then a else b.

(** [obj.get]: only a dict has the attribute. *)
Definition as_dict (v : pyval) : result dict :=
  match v with
  | VDict d => Ok d
  | _ => Raise AttributeError
  end.

Definition is_str (v : pyval) : bool :=
  match v with VStr _ => true | _ => false end.

(* ===================================================================== *)
(** ** The runtime's parsers *)

Class Runtime := {
  (** [float(s)] for a [str]: [None] when it raises [ValueError]. *)
  float_of_str : string -> option float;
  (** An element of [pd.to_numeric(col, errors="coerce")] that is a [str]. *)
  to_numeric_str : string -> option float;
  (** The date parser of [pd.to_datetime] on one string. *)
  datetime_of_str : string -> option Timestamp;
  (** [pd.to_datetime(t)] for a float, list or dict. *)
  to_datetime_other : pyval -> result cell;
  (** An element [x] of [pd.to_datetime(col, errors="coerce", utc=True)]
      before the conversion to UTC; pandas may read [x] with the format it
      guessed from the whole column [col]. *)
  to_datetime_in : list pyval -> pyval -> option Timestamp;
  (** [str(x)] for [x] that is not a [str], as [astype(str)] applies it. *)
  str_of : pyval -> string
}.

Section Derived.
Context {RT : Runtime}.

(** [float(x)]. *)
Definition py_float (x : cell) : result float :=
  match x with
  | Obj (VFloat f) => Ok f
  | Obj (VInt z) =>
      if F64.is_inf (F64.of_Z z) then Raise OverflowError
      else Ok (F64.of_Z z)
  | Obj (VBool b) => Ok (F64.of_Z (if b then 1 else 0))
  | Obj (VStr s) =>
      match float_of_str s with
      | Some f => Ok f
      | None => Raise ValueError
      end
  | _ => Raise TypeError
  end.

Definition is_None (x : cell) : bool :=
  match x with Obj VNone => true | _ => false end.

(** [calculate_aqi(pm2_5)]: [None] is Python's [None]. *)
Definition calculate_aqi (pm2_5 : cell) : option string :=
  if is_None pm2_5 then None
  else
    match py_float pm2_5 with
    | Raise _ => None
    | Ok pm =>
        if (pm <=? F64.of_Z 50)%f64 then Some "Good"
        else if (pm <=? F64.of_Z 100)%f64 then Some "Moderate"
        else if (pm <=? F64.of_Z 200)%f64 then Some "Unhealthy"
        else if (pm <=? F64.of_Z 300)%f64 then Some "Very Unhealthy"
        else Some "Hazardous"
    end.

(** A row handed to [calculate_severity]: a dict or a pandas Series, read
    with [row.get(key, 0)]. *)
Definition row := list (string * cell).

Definition row_get (r : row) (k : string) (default : cell) : cell :=
  match lookup k r with Some v => v | None => default end.

(** The inner [s(x)] of [calculate_severity]. *)
Definition s (x : cell) : float :=
  if is_None x then F64.zero
  else
    match py_float x with
    | Ok f => f
    | Raise _ => F64.zero
    end.

Definition calculate_severity (r : row) : float :=
  let g k := s (row_get r k (Obj (VInt 0))) in
  (g "pm2_5" * F64.of_Z 5 +
   g "pm10" * F64.of_Z 3 +
   g "nitrogen_dioxide" * F64.of_Z 4 +
   g "sulphur_dioxide" * F64.of_Z 4 +
   g "carbon_monoxide" * F64.of_Z 2 +
   g "ozone" * F64.of_Z 3)%f64.

Definition calculate_risk (severity : cell) : option string :=
  match py_float severity with
  | Raise _ => None
  | Ok sev =>
      if (F64.of_Z 400 <? sev)%f64 then Some "High Risk"
      else if (F64.of_Z 200 <? sev)%f64 then Some "Moderate Risk"
      else Some "Low Risk"
  end.

(** The columns [calculate_severity] reads. *)
Definition SEVERITY_KEYS : list string :=
  ["pm2_5"; "pm10"; "nitrogen_dioxide"; "sulphur_dioxide"; "carbon_monoxide";
   "ozone"].

End Derived.

(* ===================================================================== *)
(** ** Strings: the [str] methods the transform uses (ASCII) *)

Definition is_upper (c : ascii) : bool :=
  let n := nat_of_ascii c in andb (Nat.leb 65 n) (Nat.leb n 90).
Definition is_lower (c : ascii) : bool :=
  let n := nat_of_ascii c in andb (Nat.leb 97 n) (Nat.leb n 122).
Definition to_lower (c : ascii) : ascii :=
  if is_upper c then ascii_of_nat (nat_of_ascii c + 32) else c.
Definition to_upper (c : ascii) : ascii :=
  if is_lower c then ascii_of_nat (nat_of_ascii c - 32) else c.

(** [str.isspace] on one character: space, [\t], [\n], [\v], [\f], [\r] and
    the separators [\x1c]..[\x1f]. *)
Definition is_space (c : ascii) : bool :=
  let n := nat_of_ascii c in
  orb (Nat.eqb n 32)
      (orb (andb (Nat.leb 9 n) (Nat.leb n 13))
           (andb (Nat.leb 28 n) (Nat.leb n 31))).

(** [s.lower()]. *)
Fixpoint lower (s : string) : string :=
  match s with
  | EmptyString => EmptyString
  | String c s' => String (to_lower c) (lower s')
  end.

Fixpoint lstrip (s : string) : string :=
  match s with
  | EmptyString => EmptyString
  | String c s' => if is_space c then lstrip s' else s
  end.

Fixpoint rev_string (acc s : string) : string :=
  match s with
  | EmptyString => acc
  | String c s' => rev_string (String c acc) s'
  end.

(** [s.strip()]. *)
Definition strip (s : string) : string :=
  rev_string "" (lstrip (rev_string "" (lstrip s))).

(** [s.replace(a, b)] for one-character [a] and [b]. *)
Fixpoint replace_char (a b : ascii) (s : string) : string :=
  match s with
  | EmptyString => EmptyString
  | String c s' =>
      String (if Ascii.eqb c a then b else c) (replace_char a b s')
  end.

(** [s.title()]: a cased character is upper-cased after an uncased one (or
    at the start) and lower-cased after a cased one.  The cased characters
    are the ASCII letters: on strings with other letters Python's result
    differs. *)
Fixpoint title_from (prev_cased : bool) (s : string) : string :=
  match s with
  | EmptyString => EmptyString
  | String c s' =>
      if orb (is_upper c) (is_lower c)
      then String (if prev_cased then to_lower c else to_upper c)
                  (title_from true s')
      else String c (title_from false s')
  end.
Definition title (s : string) : string := title_from false s.

(** [s.split(sep)] for a non-empty [sep]: cut at each occurrence, left to
    right, occurrences not overlapping.  [skip] counts the characters of
    an occurrence still to drop; [cur] is the current piece, reversed. *)
Fixpoint split_from (sep : string) (skip : nat) (cur : string) (s : string)
  : list string :=
  match s with
  | EmptyString => [rev_string "" cur]
  | String c s' =>
      match skip with
      | S k => split_from sep k cur s'
      | O =>
          if String.prefix sep s
          then rev_string "" cur
                 :: split_from sep (String.length sep - 1) "" s'
          else split_from sep 0 (String c cur) s'
      end
  end.
Definition split (sep s : string) : list string := split_from sep 0 "" s.

(** [str(x)] where the result is fixed by the language; other values go
    through the runtime. *)
Fixpoint digits_of_pos (fuel : nat) (n : Z) (acc : string) : string :=
  match fuel with
  | O => acc
  | S fuel' =>
      let acc' := String (ascii_of_nat (48 + Z.to_nat (n mod 10))) acc in
      if Z.ltb n 10 then acc' else digits_of_pos fuel' (n / 10) acc'
  end.
Definition str_of_Z (z : Z) : string :=
  let d := digits_of_pos (S (Z.to_nat (Z.log2 (Z.abs z)))) (Z.abs z) "" in
  if Z.ltb z 0 then String "-" d else d.

(* ===================================================================== *)
(** ** Module constants *)

Definition POLLUTANT_MAPPING : list (string * string) :=
  [("pm10", "pm10"); ("pm25", "pm2_5"); ("pm2_5", "pm2_5");
   ("co", "carbon_monoxide"); ("no2", "nitrogen_dioxide");
   ("so2", "sulphur_dioxide"); ("o3", "ozone"); ("uv_index", "uv_index");
   ("uvi", "uv_index"); ("uv", "uv_index")].

Definition POLLUTANT_COLS : list string :=
  ["pm10"; "pm2_5"; "carbon_monoxide"; "nitrogen_dioxide"; "sulphur_dioxide";
   "ozone"; "uv_index"].

(** [["city", "time"] + POLLUTANT_COLS]. *)
Definition CANONICAL_COLS : list string := ["city"; "time"] ++ POLLUTANT_COLS.

(* ===================================================================== *)
(** ** Attribute access and subscripts *)

Definition is_dict (v : pyval) : bool :=
  match v with VDict _ => true | _ => false end.
Definition is_list (v : pyval) : bool :=
  match v with VList _ => true | _ => false end.

(** [obj.get(k)]. *)
Definition attr_get (obj : pyval) (k : string) : result pyval :=
  d <- as_dict obj ;; Ok (get d k).

(** [obj[k]] for a string [k]. *)
Definition subscript (obj : pyval) (k : string) : result pyval :=
  match obj with
  | VDict d =>
      match lookup k d with
      | Some v => Ok v
      | None => Raise KeyError
      end
  | _ => Raise TypeError
  end.

(** [obj[0]]. *)
Definition subscript_0 (obj : pyval) : result pyval :=
  match obj with
  | VList (x :: _) => Ok x
  | VList [] => Raise IndexError
  | VStr (String c _) => Ok (VStr (String c ""))
  | VStr EmptyString => Raise IndexError
  | VDict _ => Raise KeyError
  | _ => Raise TypeError
  end.

(** [for x in obj]: the items a loop visits. *)
Fixpoint chars (s : string) : list pyval :=
  match s with
  | EmptyString => []
  | String c s' => VStr (String c "") :: chars s'
  end.

Definition py_iter (obj : pyval) : result (list pyval) :=
  match obj with
  | VList l => Ok l
  | VDict d => Ok (map (fun kv => VStr (fst kv)) d)
  | VStr s => Ok (chars s)
  | _ => Raise TypeError
  end.

(* ===================================================================== *)
(** ** City resolution *)

(** [pathlib.Path]: only [stem], the file name without its suffix, is
    read. *)
Record Path := { stem : string }.

(** A function body that may [return] early: [Some v] is [return v],
    [None] falls through to the next statement. *)
Definition or_next (m : result (option pyval)) (k : result (option pyval))
  : result (option pyval) :=
  r <- m ;;
  match r with
  | Some v => Ok (Some v)
  | None => k
  end.

(** [if d.get(k): return d.get(k)]. *)
Definition return_if_set (obj : pyval) (k : string) : result (option pyval) :=
  c <- attr_get obj k ;;
  if truthy c then (v <- attr_get obj k ;; Ok (Some v)) else Ok None.

(** The block shared by the v2 ([results], [location]) and v3
    ([locations], [name]) cases of [_infer_city_from_payload]. *)
Definition first_entry_city (payload : pyval) (list_key alt_key : string)
  : result (option pyval) :=
  entries <- attr_get payload list_key ;;
  if andb (is_list entries) (truthy entries) then
    first <- subscript_0 entries ;;
    if is_dict first then
      or_next (return_if_set first "city")
              (or_next (return_if_set first alt_key) (Ok None))
    else Ok None
  else Ok None.

Definition _infer_city_from_payload (payload : pyval) : result pyval :=
  if negb (is_dict payload) then Ok VNone
  else
    r <- or_next (return_if_set payload "city")
        (or_next
           (m <- attr_get payload "meta" ;;
            if truthy m then
              pm <- subscript payload "meta" ;;
              if is_dict pm then return_if_set pm "city" else Ok None
            else Ok None)
        (or_next (first_entry_city payload "results" "location")
        (or_next (first_entry_city payload "locations" "name")
                 (Ok None)))) ;;
    match r with
    | Some v => Ok v
    | None => Ok VNone
    end.

Definition _infer_city_from_filename (path : Path) : option string :=
  let name := stem path in
  let parts := split "_raw_" name in
  let part0 := hd "" parts in
  if andb (negb (Nat.eqb (List.length parts) 0)) (negb (String.eqb part0 ""))
  then Some (title (replace_char "_" " " part0))
  else
    let token := hd "" (split "_" name) in
    if negb (String.eqb token "")
    then Some (title (replace_char "_" " " token))
    else None.

Definition of_optional (o : option string) : pyval :=
  match o with
  | Some s => VStr s
  | None => VNone
  end.

(** Line 150 of [flatten_city_json]:
    [city_name or _infer_city_from_payload(payload)
       or _infer_city_from_filename(p) or "Unknown"];
    each operand is evaluated only when those before it are falsy. *)
Definition resolve_city (city_name : option string) (payload : pyval)
  (p : Path) : result pyval :=
  if truthy (of_optional city_name) then Ok (of_optional city_name)
  else
    c1 <- _infer_city_from_payload payload ;;
    if truthy c1 then Ok c1
    else
      let c2 := of_optional (_infer_city_from_filename p) in
      if truthy c2 then Ok c2 else Ok (VStr "Unknown").

(** The candidates as the specification lists them, in order: top-level
    [city], [meta.city], the first [results] entry's [city] and
    [location], the first [locations] entry's [city] and [name].  A
    candidate that does not exist is [None]. *)
Definition first_entry (payload : dict) (list_key : string) : dict :=
  match get payload list_key with
  | VList (VDict d :: _) => d
  | _ => []
  end.

Definition payload_candidates (payload : pyval) : list pyval :=
  match payload with
  | VDict d =>
      [get d "city";
       match get d "meta" with VDict m => get m "city" | _ => VNone end;
       get (first_entry d "results") "city";
       get (first_entry d "results") "location";
       get (first_entry d "locations") "city";
       get (first_entry d "locations") "name"]
  | _ => []
  end.

Definition filename_candidate (p : Path) : pyval :=
  let part0 := hd "" (split "_raw_" (stem p)) in
  if String.eqb part0 "" then VNone
  else VStr (title (replace_char "_" " " part0)).

(** First match wins: the first truthy candidate, else [fallback]. *)
Fixpoint first_truthy (cands : list pyval) (fallback : pyval) : pyval :=
  match cands with
  | [] => fallback
  | c :: cands' => if truthy c then c else first_truthy cands' fallback
  end.

Definition city_precedence (city_name : option string) (payload : pyval)
  (p : Path) : pyval :=
  first_truthy
    ([of_optional city_name] ++ payload_candidates payload
       ++ [filename_candidate p])
    (VStr "Unknown").

(* ===================================================================== *)
(** ** Timestamps *)

Definition NS_PER_SECOND : Z := 1000000000.
Definition NS_PER_HOUR : Z := 3600 * NS_PER_SECOND.

Definition offset_ns (t : Timestamp) : Z :=
  match tz t with
  | Some o => o * NS_PER_SECOND
  | None => 0
  end.

(** Nanoseconds of the wall clock the timestamp shows. *)
Definition wall_ns (t : Timestamp) : Z := ns t + offset_ns t.

(** [.dt.floor("H")]. *)
Definition floor_hour (t : Timestamp) : Timestamp :=
  {| ns := ns t - wall_ns t mod NS_PER_HOUR; tz := tz t |}.

(** [utc=True]: a naive value is read as UTC, an aware one converted. *)
Definition to_utc (t : Timestamp) : Timestamp := {| ns := ns t; tz := Some 0 |}.

(** [.hour]. *)
Definition hour_of (t : Timestamp) : Z := (wall_ns t / NS_PER_HOUR) mod 24.





(* ===================================================================== *)
(** ** Frames *)

Record DataFrame := { columns : list string; rows : list row }.

Definition is_nil {A} (l : list A) : bool :=
  match l with [] => true | _ => false end.

(** [df.empty]: no rows or no columns. *)
Definition df_empty (df : DataFrame) : bool :=
  orb (is_nil (rows df)) (is_nil (columns df)).

Definition mem (x : string) (l : list string) : bool :=
  existsb (String.eqb x) l.

Definition add_new (l : list string) (x : string) : list string :=
  if mem x l then l else l ++ [x].

Definition nan_cell : cell := Obj (VFloat F64.nan).

(** Give a row exactly the columns [cols], a missing one being NaN. *)
Definition reindex (cols : list string) (r : row) : row :=
  map (fun c => (c, row_get r c nan_cell)) cols.

(** The frame of [pd.DataFrame(records)]: the columns are the keys in
    order of first appearance.  The cells are written as the records give
    them; the dtype pandas gives a column (NaN for a [None] among numbers,
    floats for integers among floats, [NaT] for a [None] among timestamps)
    is not applied to them. *)
Definition frame_of_records (records : list row) : DataFrame :=
  let cols :=
    fold_left (fun acc r => fold_left add_new (map fst r) acc) records [] in
  {| columns := cols; rows := map (reindex cols) records |}.

(** [pd.DataFrame(columns=cols)]. *)
Definition empty_frame (cols : list string) : DataFrame :=
  {| columns := cols; rows := [] |}.

(** [pd.concat(frames, ignore_index=True)]. *)
Definition concat (frames : list DataFrame) : DataFrame :=
  let cols := fold_left (fun acc df => fold_left add_new (columns df) acc)
                frames [] in
  {| columns := cols;
     rows := flat_map (fun df => map (reindex cols) (rows df)) frames |}.

(** [df[col] = value] with one value per row. *)
Definition set_column (col : string) (vals : list cell) (df : DataFrame)
  : DataFrame :=
  {| columns := add_new (columns df) col;
     rows := map (fun rv => set_item col (snd rv) (fst rv))
               (combine (rows df) vals) |}.

Definition column (col : string) (df : DataFrame) : list cell :=
  map (fun r => row_get r col nan_cell) (rows df).

(** The pass [pd.DataFrame] and [pd.DataFrame.from_records] make over the
    values of a column to find its dtype.  Every integer met is converted
    to a float, which raises [OverflowError] on one too large.  The pass
    ends at the first value that makes the column a column of objects: a
    string, a list, a dict, a timestamp, or, as long as no [None] has been
    met, an integer that does not fit 64 bits or that mixes a negative one
    with one of 2^63 or more. *)
Fixpoint scan_column (seen_null seen_uint seen_sint : bool) (col : list cell)
  : result unit :=
  match col with
  | [] => Ok tt
  | c :: col' =>
      match c with
      | Obj VNone => scan_column true seen_uint seen_sint col'
      | Obj (VInt z) =>
          if F64.is_inf (F64.of_Z z) then Raise OverflowError
          else if seen_null then scan_column seen_null seen_uint seen_sint col'
          else
            let uint := orb seen_uint (Z.leb (2 ^ 63) z) in
            let sint := orb seen_sint (Z.ltb z 0) in
            if orb (andb uint sint)
                 (orb (Z.ltb (2 ^ 64 - 1) z) (Z.ltb z (- 2 ^ 63)))
            then Ok tt
            else scan_column seen_null uint sint col'
      | Obj (VStr _) | Obj (VList _) | Obj (VDict _) | Time _ => Ok tt
      | _ => scan_column seen_null seen_uint seen_sint col'
      end
  end.

(** The columns one after the other, up to the first exception. *)
Definition infer_dtypes (cols : list (list cell)) : result unit :=
  _ <- for_each (scan_column false false false) cols ;; Ok tt.

(** [pd.DataFrame(records)] (line 173). *)
Definition DataFrame_of_records (records : list row) : result DataFrame :=
  let df := frame_of_records records in
  _ <- infer_dtypes (map (fun c => column c df) (columns df)) ;;
  Ok df.

Section Pandas.
Context {RT : Runtime}.

(** [pd.to_datetime(t)] on one value, errors raised.  An integer counts
    nanoseconds; the least 64-bit integer is the mark of [NaT]. *)
Definition to_datetime (t : pyval) : result cell :=
  match t with
  | VNone => Ok (Obj VNone)
  | VStr s =>
      match datetime_of_str s with
      | Some ts => Ok (Time ts)
      | None => Raise ValueError
      end
  | VInt n =>
      if Z.eqb n (- 2 ^ 63) then Ok NaT
      else if Z.ltb (Z.abs n) (2 ^ 63)
           then Ok (Time {| ns := n; tz := None |})
           else Raise OverflowError
  | VBool _ => Raise TypeError
  | _ => to_datetime_other t
  end.

(** One element of [pd.to_numeric(col, errors="coerce")]. *)
Definition to_numeric (c : cell) : float :=
  match c with
  | Obj (VFloat f) => f
  | Obj (VInt z) => F64.of_Z z
  | Obj (VBool b) => F64.of_Z (if b then 1 else 0)
  | Obj (VStr s) =>
      match to_numeric_str s with
      | Some f => f
      | None => F64.nan
      end
  | _ => F64.nan
  end.

(** [pd.notnull(x)] on a scalar. *)
Definition notnull (c : cell) : bool :=
  match c with
  | Obj VNone => false
  | Obj (VFloat f) => negb (F64.is_nan f)
  | NaT => false
  | NA => false
  | _ => true
  end.

(** [str(x)], as [astype(str)] applies it to every element. *)
Definition py_str (v : pyval) : string :=
  match v with
  | VStr s => s
  | VNone => "None"
  | VBool true => "True"
  | VBool false => "False"
  | VInt z => str_of_Z z
  | _ => str_of v
  end.

End Pandas.

(* ===================================================================== *)
(** ** Flattening: the hourly-arrays case *)

Section Flatten.
Context {RT : Runtime}.

(** The inner loop body of case 1 for one [(src_key, dest_col)]. *)
Definition hourly_value (hourly : dict) (i : nat) (src_key dest_col : string)
  : cell :=
  let values :=
    if has_key src_key hourly then get hourly src_key
    else if has_key dest_col hourly then get hourly dest_col
    else VNone in
  match values with
  | VList l =>
      match nth_error l i with
      | Some v => Obj v
      | None => Obj VNone
      end
  | _ => Obj VNone
  end.

(** One [rec] of case 1: the mapping is walked in its order and every
    pair assigns [rec[dest_col]], a later pair overwriting an earlier
    one. *)
Definition hourly_record (city : pyval) (hourly : dict) (i : nat) (t : pyval)
  : result row :=
  time <- to_datetime t ;;
  Ok (fold_left
        (fun rec kv =>
           set_item (snd kv) (hourly_value hourly i (fst kv) (snd kv)) rec)
        POLLUTANT_MAPPING
        [("city", Obj city); ("time", time)]).

Definition enumerate {A} (l : list A) : list (nat * A) :=
  combine (seq 0 (List.length l)) l.

Definition flatten_hourly (city : pyval) (hourly : dict) : result DataFrame :=
  items <- py_iter (get hourly "time") ;;
  records <- for_each (fun it => hourly_record city hourly (fst it) (snd it))
               (enumerate items) ;;
  DataFrame_of_records records.

(* ===================================================================== *)
(** ** Flattening: measurement tuples *)

Record Measurement := {
  m_city : pyval; m_time : pyval; m_parameter : pyval; m_value : pyval
}.

(** [d.get(k, [])]. *)
Definition get_or_empty (d : dict) (k : string) : pyval :=
  match lookup k d with Some v => v | None => VList [] end.

(** [m.get("lastUpdated") or (m.get("date") and m["date"].get("utc"))
       or m.get("date")]. *)
Definition measurement_time (m : dict) : result pyval :=
  if truthy (get m "lastUpdated") then Ok (get m "lastUpdated")
  else
    x <- (if truthy (get m "date")
          then d <- subscript (VDict m) "date" ;; attr_get d "utc"
          else Ok (get m "date")) ;;
    if truthy x then Ok x else Ok (get m "date").

(** The body of [for m in loc.get("measurements", [])]; [names] are the
    keys tried for the parameter, in order. *)
Definition measurement_of (names : list string) (loc_city : pyval)
  (m : pyval) : result Measurement :=
  d <- as_dict m ;;
  let parameter := fold_left (fun acc k => py_or acc (get d k)) names VNone in
  let value := get d "value" in
  t <- measurement_time d ;;
  Ok {| m_city := loc_city; m_time := t; m_parameter := parameter;
        m_value := value |}.

Definition v2_location (city : pyval) (loc : pyval)
  : result (list Measurement) :=
  d <- as_dict loc ;;
  let loc_city := py_or (py_or (get d "city") (get d "location")) city in
  ms <- py_iter (get_or_empty d "measurements") ;;
  for_each (measurement_of ["parameter"; "param"; "name"] loc_city) ms.

Definition v3_parameter (loc : dict) (loc_city : pyval) (p_item : pyval)
  : result Measurement :=
  d <- as_dict p_item ;;
  let parameter := py_or (get d "parameter") (get d "name") in
  let value :=
    if has_key "lastValue" d then get d "lastValue" else get d "value" in
  let t := py_or (py_or (get d "lastUpdated") (get d "lastUpdatedAt"))
             (get loc "lastUpdated") in
  Ok {| m_city := loc_city; m_time := t; m_parameter := parameter;
        m_value := value |}.

Definition v3_location (city : pyval) (loc : pyval)
  : result (list Measurement) :=
  d <- as_dict loc ;;
  let loc_city := py_or (py_or (get d "city") (get d "name")) city in
  params <- py_iter (py_or (get d "parameters") (VList [])) ;;
  from_params <- for_each (v3_parameter d loc_city) params ;;
  ms <- py_iter (py_or (get_or_empty d "measurements") (VList [])) ;;
  from_ms <- for_each (measurement_of ["parameter"; "name"] loc_city) ms ;;
  Ok (from_params ++ from_ms).

Definition is_measurements_key (k : string) : bool :=
  orb (String.eqb (lower k) "measurements") (String.eqb (lower k) "values").

(** The generator [_walk_for_measurements], as the list it yields. *)
Fixpoint _walk_for_measurements (obj : pyval) : list pyval :=
  match obj with
  | VDict d =>
      (fix items (d : list (string * pyval)) : list pyval :=
         match d with
         | [] => []
         | (k, v) :: d' =>
             (match v with
              | VList l =>
                  if is_measurements_key k then l
                  else _walk_for_measurements v
              | _ => _walk_for_measurements v
              end) ++ items d'
         end) d
  | VList l =>
      (fix each (l : list pyval) : list pyval :=
         match l with
         | [] => []
         | x :: l' => _walk_for_measurements x ++ each l'
         end) l
  | _ => []
  end.

(** Case 2 up to line 221: the list [measurements].  The payload is a dict
    here: line 155 has already called [payload.get]. *)
Definition collect_measurements (payload : dict) (city : pyval)
  : result (list Measurement) :=
  if andb (has_key "results" payload) (is_list (get payload "results")) then
    locs <- py_iter (get payload "results") ;;
    per_loc <- for_each (v2_location city) locs ;;
    Ok (List.concat per_loc)
  else if andb (has_key "locations" payload)
               (is_list (get payload "locations")) then
    locs <- py_iter (get payload "locations") ;;
    per_loc <- for_each (v3_location city) locs ;;
    Ok (List.concat per_loc)
  else
    for_each (measurement_of ["parameter"; "name"; "param"] city)
      (_walk_for_measurements (VDict payload)).

End Flatten.

(* ===================================================================== *)
(** ** Hourly aggregation *)

(** A city label as a group key.  pandas hashes the label and compares it
    with Python's [==], under which [True], [1] and [1.0] are one key: a
    number that is an integer is keyed by that integer. *)
Inductive key :=
| KInt (z : Z)
| KFlt (f : float)
| KStr (s : string).

Definition signed (sgn : bool) (m : positive) : Z :=
  if sgn then Zneg m else Zpos m.

Definition float_to_Z (f : float) : option Z :=
  match f with
  | S754_zero _ => Some 0
  | S754_finite sgn m e =>
      if Z.leb 0 e then Some (signed sgn m * 2 ^ e)
      else if Z.eqb (Zpos m mod 2 ^ (- e)) 0
           then Some (signed sgn m / 2 ^ (- e))
           else None
  | _ => None
  end.

(** [Ok None] is a null key, whose rows [groupby] leaves out; a list or a
    dict is unhashable. *)
Definition key_of (v : pyval) : result (option key) :=
  match v with
  | VNone => Ok None
  | VBool b => Ok (Some (KInt (if b then 1 else 0)))
  | VInt z => Ok (Some (KInt z))
  | VFloat f =>
      if F64.is_nan f then Ok None
      else match float_to_Z f with
           | Some z => Ok (Some (KInt z))
           | None => Ok (Some (KFlt f))
           end
  | VStr s => Ok (Some (KStr s))
  | VList _ => Raise TypeError
  | VDict _ => Raise TypeError
  end.

Definition float_same (f g : float) : bool :=
  match f, g with
  | S754_zero a, S754_zero b => Bool.eqb a b
  | S754_infinity a, S754_infinity b => Bool.eqb a b
  | S754_nan, S754_nan => true
  | S754_finite a m e, S754_finite b m' e' =>
      andb (Bool.eqb a b) (andb (Pos.eqb m m') (Z.eqb e e'))
  | _, _ => false
  end.

Definition key_eqb (a b : key) : bool :=
  match a, b with
  | KInt x, KInt y => Z.eqb x y
  | KFlt f, KFlt g => float_same f g
  | KStr x, KStr y => String.eqb x y
  | _, _ => false
  end.

(** The exact order of an integer and a float. *)
Definition Z_compare_float (z : Z) (f : float) : comparison :=
  match f with
  | S754_zero _ => Z.compare z 0
  | S754_infinity sgn => if sgn then Gt else Lt
  | S754_finite sgn m e =>
      if Z.leb 0 e then Z.compare z (signed sgn m * 2 ^ e)
      else Z.compare (z * 2 ^ (- e)) (signed sgn m)
  | S754_nan => Eq
  end.

(** Sort order of the group keys: numbers by value, then strings by code
    point. *)
Definition key_leb (a b : key) : bool :=
  match a, b with
  | KStr x, KStr y => String.leb x y
  | KStr _, _ => false
  | _, KStr _ => true
  | KInt x, KInt y => Z.leb x y
  | KFlt f, KFlt g => F64.leb f g
  | KInt x, KFlt f =>
      match Z_compare_float x f with Gt => false | _ => true end
  | KFlt f, KInt x =>
      match Z_compare_float x f with Lt => false | _ => true end
  end.

(** [groupby]: the rows of each key, keys in order of first appearance. *)
Fixpoint group_add {K V} (eqb : K -> K -> bool) (k : K) (v : V)
  (groups : list (K * list V)) : list (K * list V) :=
  match groups with
  | [] => [(k, [v])]
  | (k', vs) :: rest =>
      if eqb k' k then (k', vs ++ [v]) :: rest
      else (k', vs) :: group_add eqb k v rest
  end.

Definition group_by {K V} (eqb : K -> K -> bool) (l : list (K * V))
  : list (K * list V) :=
  fold_left (fun groups kv => group_add eqb (fst kv) (snd kv) groups) l [].

Fixpoint insert_by {A} (leb : A -> A -> bool) (x : A) (l : list A) : list A :=
  match l with
  | [] => [x]
  | y :: l' => if leb x y then x :: l else y :: insert_by leb x l'
  end.

Definition sort_by {A} (leb : A -> A -> bool) (l : list A) : list A :=
  fold_right (insert_by leb) [] l.

(** Every group starts with a row that satisfies [P] for the group's key. *)
Definition headed {K V} (P : K -> V -> Prop) (groups : list (K * list V))
  : Prop :=
  forall k vs, In (k, vs) groups -> exists v vs', vs = v :: vs' /\ P k v.

(** One value added to a group's running sum, as pandas' [group_mean]
    does it: a compensated (Kahan) sum, whose compensation is put back to
    0 when it is NaN, as it is after an infinite value. *)
Definition kahan_step (acc : float * float) (val : float) : float * float :=
  let sumx := fst acc in
  let compensation := snd acc in
  let y := F64.sub val compensation in
  let t := F64.add sumx y in
  let c := F64.sub (F64.sub t sumx) y in
  (t, if F64.is_nan c then F64.zero else c).

(** [.mean()]: NaN values are skipped; a group without a value is NaN; the
    others are summed in the order of the rows and divided by their
    number. *)
Definition mean (vs : list float) : float :=
  let xs := filter (fun v => negb (F64.is_nan v)) vs in
  if is_nil xs then F64.nan
  else F64.div (fst (fold_left kahan_step xs (F64.zero, F64.zero)))
               (F64.of_Z (Z.of_nat (List.length xs))).

(** A row of [dfm] after lines 227-241. *)
Record Reading := {
  rd_city : pyval; rd_time_hour : Timestamp; rd_parameter_norm : string;
  rd_value_num : float
}.

(** A row of the pivot [pv]: its index [(city, time_hour)] and the means
    of the parameters it has. *)
Record PivotRow := {
  pv_city : pyval; pv_key : key; pv_time_hour : Z;
  pv_values : list (string * float)
}.

Definition key3 : Type := key * Z * string.
Definition key2 : Type := key * Z.

Definition key3_eqb (a b : key3) : bool :=
  andb (key_eqb (fst (fst a)) (fst (fst b)))
       (andb (Z.eqb (snd (fst a)) (snd (fst b))) (String.eqb (snd a) (snd b))).

Definition key2_eqb (a b : key2) : bool :=
  andb (key_eqb (fst a) (fst b)) (Z.eqb (snd a) (snd b)).

Definition key3_leb (a b : key3) : bool :=
  if key_eqb (fst (fst a)) (fst (fst b)) then
    if Z.eqb (snd (fst a)) (snd (fst b)) then String.leb (snd a) (snd b)
    else Z.ltb (snd (fst a)) (snd (fst b))
  else key_leb (fst (fst a)) (fst (fst b)).

(** The rows of [dfm] with a usable city key, each under
    [(city, time_hour, parameter_norm)]. *)
Fixpoint keyed_readings (dfm : list Reading)
  : result (list (key3 * (pyval * float))) :=
  match dfm with
  | [] => Ok []
  | r :: dfm' =>
      k <- key_of (rd_city r) ;;
      rest <- keyed_readings dfm' ;;
      match k with
      | Some k =>
          Ok (((k, ns (rd_time_hour r), rd_parameter_norm r),
               (rd_city r, rd_value_num r)) :: rest)
      | None => Ok rest
      end
  end.

(** [groupby([...])["value_num"].mean().reset_index()]: one entry per
    key, sorted by key. *)
Definition group_means (keyed : list (key3 * (pyval * float)))
  : list (key3 * (pyval * float)) :=
  sort_by (fun a b => key3_leb (fst a) (fst b))
    (map (fun g =>
            (fst g, (hd VNone (map fst (snd g)), mean (map snd (snd g)))))
       (group_by key3_eqb keyed)).

(** [pivot_table(index=["city", "time_hour"], columns="parameter_norm",
    values="value_num", aggfunc="first")]: entries without a value are
    dropped, the others spread over one row per index. *)
Definition pivot_rows (means : list (key3 * (pyval * float)))
  : list PivotRow :=
  let kept := filter (fun e => negb (F64.is_nan (snd (snd e)))) means in
  map (fun g =>
         {| pv_city := hd VNone (map fst (snd g));
            pv_key := fst (fst g);
            pv_time_hour := snd (fst g);
            pv_values := map snd (snd g) |})
    (group_by key2_eqb
       (map (fun e => (fst (fst e),
                       (fst (snd e), (snd (fst e), snd (snd e))))) kept)).

Definition pivot_columns (pv : list PivotRow) : list string :=
  fold_left (fun acc r => fold_left add_new (map fst (pv_values r)) acc) pv [].

(** Lines 244-250.  [reset_index] cannot insert [city] or [time_hour]
    next to a parameter of that name. *)
Definition hourly_aggregate (dfm : list Reading) : result (list PivotRow) :=
  keyed <- keyed_readings dfm ;;
  let pv := pivot_rows (group_means keyed) in
  if orb (mem "city" (pivot_columns pv)) (mem "time_hour" (pivot_columns pv))
  then Raise ValueError
  else Ok pv.

(* ===================================================================== *)
(** ** [flatten_city_json] *)

(** A raw file: its path and what [json.load] makes of its text, the
    decoded document or the [JSONDecodeError] it raises. *)
Record File := { file_path : Path; json_load : result pyval }.

(** [pd.DataFrame.from_records(measurements)] (line 225): the dtypes of the
    four columns of the tuples. *)
Definition from_records (measurements : list Measurement) : result unit :=
  infer_dtypes
    [map (fun m => Obj (m_city m)) measurements;
     map (fun m => Obj (m_time m)) measurements;
     map (fun m => Obj (m_parameter m)) measurements;
     map (fun m => Obj (m_value m)) measurements].

(** A value [float] accepts when it is an integer: every value but an
    integer too large for a float. *)
Definition fits_float (v : pyval) : bool :=
  match v with
  | VInt z => negb (F64.is_inf (F64.of_Z z))
  | _ => true
  end.

Definition fits_floats (m : Measurement) : bool :=
  andb (andb (fits_float (m_city m)) (fits_float (m_time m)))
       (andb (fits_float (m_parameter m)) (fits_float (m_value m))).

Section FlattenCity.
Context {RT : Runtime}.

(** Lines 234-239: [parameter_norm]. *)
Definition normalize_parameter (parameter : pyval) : string :=
  let p1 := lower (strip (py_str parameter)) in
  let p2 :=
    match lookup p1 (map (fun kv => (lower (fst kv), snd kv))
                       POLLUTANT_MAPPING) with
    | Some v => v
    | None => p1
    end in
  let p3 := replace_char "-" "_" (replace_char "." "_" p2) in
  match lookup p3 POLLUTANT_MAPPING with
  | Some v => v
  | None => p3
  end.

(** Lines 227-241: the rows of the frame [dfm] that [from_records] built,
    those without a readable time dropped. *)
Definition dfm_rows (measurements : list Measurement) : list Reading :=
  let col := map m_time measurements in
  flat_map
    (fun m =>
       match to_datetime_in col (m_time m) with
       | Some t =>
           [{| rd_city := m_city m;
               rd_time_hour := floor_hour (to_utc t);
               rd_parameter_norm := normalize_parameter (m_parameter m);
               rd_value_num := to_numeric (Obj (m_value m)) |}]
       | None => []
       end)
    measurements.

(** Lines 252-262: the pollutant columns the pivot lacks are [pd.NA]; the
    index becomes [city] and [time]. *)
Definition canonical_row (pv_cols : list string) (r : PivotRow) : row :=
  [("city", Obj (pv_city r));
   ("time", Time {| ns := pv_time_hour r; tz := Some 0 |})]
  ++ map (fun col =>
            (col,
             if mem col pv_cols then
               match lookup col (pv_values r) with
               | Some v => Obj (VFloat v)
               | None => nan_cell
               end
             else NA))
       POLLUTANT_COLS.

(** A parameter called [time] would leave two [time] columns after the
    rename, on which [pd.to_datetime] fails. *)
Definition canonical_frame (pv : list PivotRow) : result DataFrame :=
  if mem "time" (pivot_columns pv) then Raise ValueError
  else Ok {| columns := CANONICAL_COLS;
             rows := map (canonical_row (pivot_columns pv)) pv |}.

(** The test of line 156 on a dict payload:
    [isinstance(hourly, dict) and hourly.get("time")]. *)
Definition is_time_series (payload : dict) : bool :=
  match get payload "hourly" with
  | VDict hourly => truthy (get hourly "time")
  | _ => false
  end.

Definition flatten_city_json (file : File) (city_name : option string)
  : result DataFrame :=
  payload <- json_load file ;;
  city <- resolve_city city_name payload (file_path file) ;;
  hourly <- attr_get payload "hourly" ;;
  time <- (if is_dict hourly then attr_get hourly "time" else Ok VNone) ;;
  if andb (is_dict hourly) (truthy time) then
    h <- as_dict hourly ;; flatten_hourly city h
  else
    d <- as_dict payload ;;
    measurements <- collect_measurements d city ;;
    if negb (is_nil measurements) then
      _ <- from_records measurements ;;
      let dfm := dfm_rows measurements in
      if is_nil dfm then Ok (empty_frame CANONICAL_COLS)
      else pv <- hourly_aggregate dfm ;; canonical_frame pv
    else Ok (empty_frame CANONICAL_COLS).

(* ===================================================================== *)
(** ** [transform_files] *)

(** Lines 283-295: concatenate, make sure of the pollutant columns,
    coerce them to numbers, drop the rows without any pollutant.  A numeric
    column is written as a column of floats; pandas keeps a column that
    holds integers only as integers, which the floats stand for. *)
Definition ensure_columns (df : DataFrame) : DataFrame :=
  fold_left
    (fun df col =>
       if mem col (columns df) then df
       else set_column col (map (fun _ => NA) (rows df)) df)
    POLLUTANT_COLS df.

Definition numeric_columns (df : DataFrame) : DataFrame :=
  fold_left
    (fun df col =>
       set_column col
         (map (fun c => Obj (VFloat (to_numeric c))) (column col df)) df)
    POLLUTANT_COLS df.

Definition dropna_all (df : DataFrame) : DataFrame :=
  {| columns := columns df;
     rows := filter
               (fun r => existsb (fun col => notnull (row_get r col nan_cell))
                           POLLUTANT_COLS)
               (rows df) |}.

Definition merge_frames (all_frames : list DataFrame) : DataFrame :=
  dropna_all (numeric_columns (ensure_columns (concat all_frames))).

Definition label_cell (o : option string) : cell :=
  match o with
  | Some l => Obj (VStr l)
  | None => Obj VNone
  end.

Definition same_tz (a b : option Z) : bool :=
  match a, b with
  | Some x, Some y => Z.eqb x y
  | None, None => true
  | _, _ => false
  end.

Definition zones (col : list cell) : list (option Z) :=
  flat_map (fun c => match c with Time t => [tz t] | _ => [] end) col.

(** [col.dt.hour]: the accessor exists on a column of timestamps of one
    time zone only; a column that holds rows but nothing else than [None]
    is a column of objects, without the accessor. *)
Definition dt_hour (col : list cell) : result (list cell) :=
  let datetimelike c :=
    match c with Time _ | NaT | Obj VNone => true | _ => false end in
  let one_zone :=
    match zones col with
    | [] => true
    | z :: zs => forallb (same_tz z) zs
    end in
  let typed :=
    orb (is_nil col)
        (existsb (fun c => match c with Time _ | NaT => true | _ => false end)
           col) in
  if andb (andb (forallb datetimelike col) one_zone) typed
  then Ok (map (fun c => match c with
                         | Time t => Obj (VInt (hour_of t))
                         | _ => nan_cell
                         end) col)
  else Raise AttributeError.

(** Lines 297-301.  [df.apply(f, axis=1)] is taken row by row; what pandas
    does with it on a frame without rows depends on its version and is
    not modelled. *)
Definition derive (df_all : DataFrame) : result DataFrame :=
  let df1 :=
    set_column "AQI"
      (map (fun x => if notnull x then label_cell (calculate_aqi x)
                     else Obj VNone)
         (column "pm2_5" df_all)) df_all in
  let df2 :=
    set_column "severity"
      (map (fun r => Obj (VFloat (calculate_severity r))) (rows df1)) df1 in
  let df3 :=
    set_column "risk"
      (map (fun x => label_cell (calculate_risk x)) (column "severity" df2))
      df2 in
  hours <- dt_hour (column "time" df3) ;;
  Ok (set_column "hour" hours df3).

(** The header written when there is nothing to transform (line 279). *)
Definition EMPTY_HEADER : list string :=
  CANONICAL_COLS ++ ["aqi_category"; "severity"; "risk"; "hour"].

(** Returns the frame it writes to [OUTPUT_FILE]. *)
Definition transform_files (file_paths : list File) : result DataFrame :=
  frames <- for_each (fun fp => flatten_city_json fp None) file_paths ;;
  let all_frames := filter (fun df => negb (df_empty df)) frames in
  if is_nil all_frames then Ok (empty_frame EMPTY_HEADER)
  else derive (merge_frames all_frames).

End FlattenCity.

(** The header the specification gives for the output table. *)
Definition SPEC_HEADER : list string :=
  ["city"; "time"; "pm10"; "pm2_5"; "carbon_monoxide"; "nitrogen_dioxide";
   "sulphur_dioxide"; "ozone"; "uv_index"; "AQI"; "severity"; "risk"; "hour"].

(* ===================================================================== *)
(** ** A runtime for the scenarios

    It reads the timestamps [YYYY-MM-DD(T| )HH:MM[:SS][Z]] and decimal
    integers, and rejects every other string. *)

Definition digit (c : ascii) : option Z :=
  let n := nat_of_ascii c in
  if andb (Nat.leb 48 n) (Nat.leb n 57) then Some (Z.of_nat (n - 48))
  else None.

Fixpoint number_from (acc : Z) (s : string) : option Z :=
  match s with
  | EmptyString => Some acc
  | String c s' =>
      match digit c with
      | Some d => number_from (10 * acc + d) s'
      | None => None
      end
  end.

Definition number (s : string) : option Z :=
  match s with
  | EmptyString => None
  | _ => number_from 0 s
  end.

(** Days from 1970-01-01 to the civil date [y-m-d]. *)
Definition days_from_civil (y m d : Z) : Z :=
  let y' := if Z.leb m 2 then y - 1 else y in
  let era := y' / 400 in
  let yoe := y' - era * 400 in
  let doy := (153 * (if Z.ltb 2 m then m - 3 else m + 9) + 2) / 5 + d - 1 in
  let doe := yoe * 365 + yoe / 4 - yoe / 100 + doy in
  era * 146097 + doe - 719468.

Definition days_in_month (y m : Z) : Z :=
  if Z.eqb m 2 then
    if andb (Z.eqb (y mod 4) 0)
            (orb (negb (Z.eqb (y mod 100) 0)) (Z.eqb (y mod 400) 0))
    then 29 else 28
  else if orb (orb (Z.eqb m 4) (Z.eqb m 6)) (orb (Z.eqb m 9) (Z.eqb m 11))
  then 30 else 31.

Definition parse_iso8601 (s : string) : option Timestamp :=
  let len := String.length s in
  let zulu := String.eqb (substring (len - 1) 1 s) "Z" in
  let body := if zulu then substring 0 (len - 1) s else s in
  let n := String.length body in
  let sep i c := String.eqb (substring i 1 body) c in
  if negb (orb (Nat.eqb n 16) (Nat.eqb n 19)) then None
  else if negb (andb (andb (sep 4%nat "-") (sep 7%nat "-"))
                     (andb (orb (sep 10%nat "T") (sep 10%nat " "))
                           (andb (sep 13%nat ":")
                                 (orb (Nat.eqb n 16) (sep 16%nat ":")))))
  then None
  else
    match number (substring 0 4 body), number (substring 5 2 body),
          number (substring 8 2 body), number (substring 11 2 body),
          number (substring 14 2 body),
          (if Nat.eqb n 19 then number (substring 17 2 body) else Some 0)
    with
    | Some y, Some mo, Some d, Some h, Some mi, Some sec =>
        if andb (andb (andb (Z.leb 1 mo) (Z.leb mo 12))
                      (andb (Z.leb 1 d) (Z.leb d (days_in_month y mo))))
                (andb (Z.leb h 23) (andb (Z.leb mi 59) (Z.leb sec 59)))
        then Some {| ns := (((days_from_civil y mo d * 24 + h) * 60 + mi) * 60
                            + sec) * NS_PER_SECOND;
                     tz := if zulu then Some 0 else None |}
        else None
    | _, _, _, _, _, _ => None
    end.

Definition signed_number (s : string) : option Z :=
  match s with
  | String "-" s' => option_map Z.opp (number s')
  | _ => number s
  end.

#[export] Instance iso_runtime : Runtime := {|
  float_of_str := fun s => option_map F64.of_Z (signed_number (strip s));
  to_numeric_str := fun s => option_map F64.of_Z (signed_number (strip s));
  datetime_of_str := parse_iso8601;
  to_datetime_other := fun _ => Raise TypeError;
  to_datetime_in := fun _ x =>
    match x with
    | VStr s => parse_iso8601 s
    | VInt n => if Z.ltb (Z.abs n) (2 ^ 63)
                then Some {| ns := n; tz := None |} else None
    | _ => None
    end;
  str_of := fun _ => "?"
|}.

(* ===================================================================== *)
(** ** Scenarios *)

Definition delhi_path : Path := {| stem := "new_delhi_raw_20240101" |}.

(** A file whose text is not JSON. *)
Definition unparseable_file : File :=
  {| file_path := delhi_path; json_load := Raise JSONDecodeError |}.

(** [{"hourly": {"time": ["2024-01-01T00:00:00Z", "2024-01-01T01:00:00Z"],
                 "pm25": [10, 600]}}]. *)
Definition hourly_pm25_file : File :=
  {| file_path := delhi_path;
     json_load :=
       Ok (VDict
             [("hourly",
               VDict [("time", VList [VStr "2024-01-01T00:00:00Z";
                                      VStr "2024-01-01T01:00:00Z"]);
                      ("pm25", VList [VInt 10; VInt 600])])]) |}.

(** The same readings under the canonical key [pm2_5]. *)
Definition hourly_pm2_5_file : File :=
  {| file_path := delhi_path;
     json_load :=
       Ok (VDict
             [("hourly",
               VDict [("time", VList [VStr "2024-01-01T00:00:00Z";
                                      VStr "2024-01-01T01:00:00Z"]);
                      ("pm2_5", VList [VInt 10; VInt 600])])]) |}.


(** 2024-01-01T00:00:00Z in seconds since the epoch. *)
Definition NEW_YEAR_2024 : Z := 1704067200.

Definition utc_time (seconds : Z) : cell :=
  Time {| ns := seconds * NS_PER_SECOND; tz := Some 0 |}.

(** A canonical row of New Delhi without any pollutant but [pm2_5]. *)
Definition delhi_row (time pm2_5 : cell) : row :=
  [("city", Obj (VStr "New Delhi")); ("time", time);
   ("pm10", Obj VNone); ("pm2_5", pm2_5); ("carbon_monoxide", Obj VNone);
   ("nitrogen_dioxide", Obj VNone); ("sulphur_dioxide", Obj VNone);
   ("ozone", Obj VNone); ("uv_index", Obj VNone)].

(** What [flatten_city_json] returns for [hourly_pm25_file]. *)
Definition hourly_pm25_frame : DataFrame :=
  {| columns := CANONICAL_COLS;
     rows := [delhi_row (utc_time NEW_YEAR_2024) (Obj VNone);
              delhi_row (utc_time (NEW_YEAR_2024 + 3600)) (Obj VNone)] |}.


(** A v2 payload: two [pm25] readings of Pune in one hour, one of ozone
    two hours later. *)
Definition pune_v2 : dict :=
  [("results",
    VList
      [VDict
         [("city", VStr "Pune");
          ("measurements",
           VList
             [VDict [("parameter", VStr "pm25"); ("value", VInt 10);
                     ("lastUpdated", VStr "2024-01-01T00:10:00Z")];
              VDict [("parameter", VStr "PM2.5"); ("value", VInt 20);
                     ("lastUpdated", VStr "2024-01-01T00:50:00Z")];
              VDict [("parameter", VStr "o3"); ("value", VInt 7);
                     ("date",
                      VDict [("utc", VStr "2024-01-01T02:50:00Z")])]])]])].

Definition pune_v2_file : File :=
  {| file_path := {| stem := "pune_raw_20240101" |};
     json_load := Ok (VDict pune_v2) |}.

Definition frame_of (m : result DataFrame) : DataFrame :=
  match m with
  | Ok df => df
  | Raise _ => empty_frame []
  end.

Definition pune_v2_frame : DataFrame :=
  Eval vm_compute in frame_of (flatten_city_json pune_v2_file None).

Definition pune_hour : Timestamp :=
  {| ns := NEW_YEAR_2024 * NS_PER_SECOND; tz := Some 0 |}.

Definition pune_readings : list Reading :=
  [{| rd_city := VStr "Pune"; rd_time_hour := pune_hour;
      rd_parameter_norm := "pm2_5"; rd_value_num := F64.of_Z 10 |};
   {| rd_city := VStr "Pune"; rd_time_hour := pune_hour;
      rd_parameter_norm := "pm2_5"; rd_value_num := F64.of_Z 20 |};
   {| rd_city := VStr "Pune"; rd_time_hour := pune_hour;
      rd_parameter_norm := "ozone"; rd_value_num := F64.of_Z 7 |}].

Definition pune_pivot : list PivotRow :=
  Eval vm_compute in
    match hourly_aggregate pune_readings with
    | Ok pv => pv
    | Raise _ => []
    end.

(** A payload whose [city] is a number. *)
Definition numeric_city_payload : pyval := VDict [("city", VInt 42)].

(** Rows for [calculate_severity]. *)
Definition negative_row : row := [("pm2_5", Obj (VFloat (F64.of_Z (-1))))].

Definition clean_row : row :=
  [("pm2_5", Obj (VFloat (F64.of_Z 600))); ("pm10", Obj (VInt 10));
   ("ozone", Obj VNone)].

(** The row [transform_files] hands to [calculate_severity] for a reading
    of pm2_5 = 600 alone: the other pollutants are NaN after
    [pd.to_numeric]. *)
Definition pm2_5_only_row : row :=
  [("city", Obj (VStr "New Delhi"));
   ("pm10", nan_cell); ("pm2_5", Obj (VFloat (F64.of_Z 600)));
   ("carbon_monoxide", nan_cell); ("nitrogen_dioxide", nan_cell);
   ("sulphur_dioxide", nan_cell); ("ozone", nan_cell);
   ("uv_index", nan_cell)].

(* ===================================================================== *)
(** ** Orders on the labels, characters of a string *)

(** The AQI categories from best to worst; [None] comes first. *)
Definition aqi_rank (label : option string) : nat :=
  match label with
  | None => 0
  | Some l =>
      if String.eqb l "Good" then 1
      else if String.eqb l "Moderate" then 2
      else if String.eqb l "Unhealthy" then 3
      else if String.eqb l "Very Unhealthy" then 4
      else 5
  end.

(** The risk flags from lowest to highest; [None] comes first. *)
Definition risk_rank (label : option string) : nat :=
  match label with
  | None => 0
  | Some l =>
      if String.eqb l "Low Risk" then 1
      else if String.eqb l "Moderate Risk" then 2
      else 3
  end.

(** [c in s] for one character. *)
Fixpoint contains (c : ascii) (s : string) : bool :=
  match s with
  | EmptyString => false
  | String c' s' => orb (Ascii.eqb c' c) (contains c s')
  end.

(** The key of [hourly] whose array ends up in column [dest_col]: the
    source key of the last pair of [POLLUTANT_MAPPING] for that column. *)
Definition last_source (dest_col : string) : string :=
  last (map fst (filter (fun kv => String.eqb (snd kv) dest_col)
                   POLLUTANT_MAPPING)) dest_col.

(** [{"time": [...], "pm25": [10, 600]}] and the same block without the
    alias. *)
Definition hourly_with_alias : dict :=
  [("time", VList [VStr "2024-01-01T00:00:00Z"; VStr "2024-01-01T01:00:00Z"]);
   ("pm25", VList [VInt 10; VInt 600])].

Definition hourly_without_alias : dict :=
  [("time", VList [VStr "2024-01-01T00:00:00Z"; VStr "2024-01-01T01:00:00Z"])].

(** The rows of [l] filed under the key [k], in order. *)
Definition members {K V} (eqb : K -> K -> bool) (k : K) (l : list (K * V))
  : list V :=
  map snd (filter (fun kv => eqb k (fst kv)) l).

(** What one step of [group_by] keeps true: the keys are distinct, every
    group holds exactly the rows of its key seen so far, and every row
    seen has a group. *)
Definition grouped {K V} (eqb : K -> K -> bool)
  (groups : list (K * list V)) (seen : list (K * V)) : Prop :=
  NoDup (map fst groups) /\
  (forall k vs, In (k, vs) groups -> vs = members eqb k seen /\ vs <> []) /\
  (forall kv, In kv seen -> In (fst kv) (map fst groups)).

Section RowWise.
Context {RT : Runtime}.

(** What lines 291-292 do to one row: every pollutant cell is replaced by
    its numeric reading. *)
Definition numeric_row (r : row) : row :=
  fold_left
    (fun r col =>
       set_item col (Obj (VFloat (to_numeric (row_get r col nan_cell)))) r)
    POLLUTANT_COLS r.

(** [True] for the rows line 295 keeps. *)
Definition has_pollutant (r : row) : bool :=
  existsb (fun col => notnull (row_get r col nan_cell)) POLLUTANT_COLS.

(** What lines 298-301 add to one row. *)
Definition hour_cell (time : cell) : cell :=
  match time with
  | Time t => Obj (VInt (hour_of t))
  | _ => nan_cell
  end.

Definition derive_row (r : row) : row :=
  let r1 :=
    set_item "AQI"
      (if notnull (row_get r "pm2_5" nan_cell)
       then label_cell (calculate_aqi (row_get r "pm2_5" nan_cell))
       else Obj VNone) r in
  let r2 := set_item "severity" (Obj (VFloat (calculate_severity r1))) r1 in
  let r3 :=
    set_item "risk" (label_cell (calculate_risk (row_get r2 "severity" nan_cell)))
      r2 in
  set_item "hour" (hour_cell (row_get r3 "time" nan_cell)) r3.

End RowWise.

(** A string of ASCII characters only.  The string functions above work
    character by character on such strings as Python's do; Python's
    [str.title], [str.lower] and [str.strip] also know the other letters
    and blanks of Unicode. *)
Fixpoint is_ascii (s : string) : bool :=
  match s with
  | EmptyString => true
  | String c s' => andb (Nat.ltb (nat_of_ascii c) 128) (is_ascii s')
  end.

(** The three risk flags. *)
Definition RISK_FLAGS : list string := ["High Risk"; "Moderate Risk"; "Low Risk"].

(** The five AQI categories. *)
Definition AQI_CATEGORIES : list string :=
  ["Good"; "Moderate"; "Unhealthy"; "Very Unhealthy"; "Hazardous"].

Definition is_nan_cell (c : cell) : bool :=
  match c with
  | Obj (VFloat f) => F64.is_nan f
  | _ => false
  end.

(** What [pd.DataFrame] may make of a value [v] when it gives the column
    of [v] a dtype: the value itself; NaN for a missing value, in a column
    of numbers; the float of an integer, in a column of floats. *)
Definition cast_of (v c : cell) : Prop :=
  c = v \/
  (notnull v = false /\ notnull c = false) \/
  (exists z, v = Obj (VInt z) /\ c = Obj (VFloat (F64.of_Z z))).

(** A cell of a numeric column, whatever its dtype: an integer, a float
    or a boolean; not a string, [None], a list or a dict. *)
Definition is_number (c : cell) : bool :=
  match c with
  | Obj (VInt _) | Obj (VFloat _) | Obj (VBool _) => true
  | _ => false
  end.

(** The table [transform_files] makes of the Pune file alone. *)
Definition pune_output : DataFrame :=
  Eval vm_compute in frame_of (transform_files [pune_v2_file]).

(* ===================================================================== *)
(** * load.py: the transformed table sent to the database in batches *)

(** What the table client gets for one row: column name to value. *)
Definition record : Type := list (string * cell).

(** [pd.isna(val)] on a scalar, as the rows of [pd.read_csv] hold. *)
Definition isna (val : cell) : bool :=
  match val with
  | Obj VNone => true
  | Obj (VFloat f) => F64.is_nan f
  | NaT => true
  | NA => true
  | _ => false
  end.

Section RowToRecord.

(** [Timestamp.isoformat()]. *)
Variable isoformat : Timestamp -> string.

(** Lines 48-76.  Of the values of a row only a timestamp has the
    attribute [isoformat] ([NaT] has it too and gives ["NaT"], but a [NaT]
    does not get that far). *)
Definition _row_to_record (row : row) : record :=
  fold_left
    (fun rec item =>
       let col := fst item in
       let val := snd item in
       if isna val then set_item col (Obj VNone) rec
       else
         match val with
         | Time t => set_item col (Obj (VStr (isoformat t))) rec
         | NaT => set_item col (Obj (VStr "NaT")) rec
         | Obj (VFloat f) =>
             set_item col (if F64.is_nan f then Obj VNone else val) rec
         | _ => set_item col val rec
         end)
    row [].

End RowToRecord.

(** Line 88. *)
Definition rename_map : list (string * string) :=
  [("severity", "severity_score"); ("risk", "risk_flag")].

(** Lines 92-106. *)
Definition expected_cols : list string :=
  ["city"; "time"; "pm10"; "pm2_5"; "carbon_monoxide"; "nitrogen_dioxide";
   "sulphur_dioxide"; "ozone"; "uv_index"; "aqi_category"; "severity_score";
   "risk_flag"; "hour"].

Definition rename_column (c : string) : string :=
  match lookup c rename_map with
  | Some c' => c'
  | None => c
  end.

(** [df.rename(columns=rename_map)]. *)
Definition rename (df : DataFrame) : DataFrame :=
  {| columns := map rename_column (columns df);
     rows := map (map (fun item => (rename_column (fst item), snd item)))
               (rows df) |}.

(** [df[wanted]]: the columns in the order of [wanted]; a label that
    several columns carry selects each of them. *)
Definition select (wanted : list string) (df : DataFrame) : DataFrame :=
  {| columns := flat_map (fun c => filter (String.eqb c) (columns df)) wanted;
     rows := map (fun r =>
                    flat_map
                      (fun c => filter (fun item => String.eqb c (fst item)) r)
                      wanted)
               (rows df) |}.

(** Line 108: [[c for c in expected_cols if c in df.columns]]. *)
Definition present_cols (df : DataFrame) : list string :=
  filter (fun c => mem c (columns df)) expected_cols.

(** The counters of the summary and what the run did to the outside: the
    batches it handed to [insert], and how long it slept, latest first. *)
Record Run := {
  total_rows : Z;
  inserted_rows : Z;
  failed_rows : Z;
  calls : list (list record);
  sleeps : list float
}.

(** [range(0, stop, step)] for [stop >= 0]. *)
Definition range_from_0 (stop step : Z) : result (list Z) :=
  if Z.eqb step 0 then Raise ValueError
  else if orb (Z.ltb step 0) (Z.leb stop 0) then Ok []
  else Ok (map (fun k => Z.of_nat k * step)
             (seq 0 (Z.to_nat ((stop - 1) / step + 1)))).

(** [l[i:j]] for [0 <= i <= j]. *)
Definition slice {A} (i j : Z) (l : list A) : list A :=
  firstn (Z.to_nat (j - i)) (skipn (Z.to_nat i) l).

(** [time.sleep(secs)] for a float.  The length is turned into a 64-bit
    count of nanoseconds: NaN is a [ValueError], a length that does not fit
    is an [OverflowError], and a negative length is a [ValueError]. *)
Definition sleep (secs : float) : result unit :=
  if F64.is_nan secs then Raise ValueError
  else
    let d := F64.mul secs (F64.of_Z 1000000000) in
    if andb (F64.leb (F64.of_Z (- 2 ^ 63)) d) (F64.ltb d (F64.of_Z (2 ^ 63)))
    then if F64.ltb d F64.zero then Raise ValueError else Ok tt
    else Raise OverflowError.

Section Load.

(** The settings read from the environment (lines 41-43). *)
Variables BATCH_SIZE MAX_RETRIES : Z.
Variable RETRY_BACKOFF : float.

(** Whether [sb.table(TABLE_NAME).insert(batch).execute()] goes through,
    that is without an exception and without an error in the response,
    given the number of calls made before it. *)
Variable execute : nat -> list record -> bool.

Variable isoformat : Timestamp -> string.

(** Lines 121-146, the [while] loop of one batch.  [fuel] bounds the
    iterations; [insert_batch] gives as many as the loop can make.  The
    [time.sleep] of the handler is outside any [try]: what it raises ends
    the load. *)
Fixpoint attempts (fuel : nat) (batch : list record) (attempt : Z) (st : Run)
  : result Run :=
  match fuel with
  | O => Ok st
  | S fuel' =>
      if Z.leb attempt MAX_RETRIES then
        let attempt := attempt + 1 in
        let ok := execute (List.length (calls st)) batch in
        let st :=
          {| total_rows := total_rows st;
             inserted_rows := inserted_rows st;
             failed_rows := failed_rows st;
             calls := batch :: calls st;
             sleeps := sleeps st |} in
        if ok then
          Ok {| total_rows := total_rows st;
                inserted_rows :=
                  inserted_rows st + Z.of_nat (List.length batch);
                failed_rows := failed_rows st;
                calls := calls st;
                sleeps := sleeps st |}
        else if Z.gtb attempt MAX_RETRIES then
          Ok {| total_rows := total_rows st;
                inserted_rows := inserted_rows st;
                failed_rows := failed_rows st + Z.of_nat (List.length batch);
                calls := calls st;
                sleeps := sleeps st |}
        else
          _ <- sleep (F64.mul RETRY_BACKOFF (F64.of_Z attempt)) ;;
          attempts fuel' batch attempt
            {| total_rows := total_rows st;
               inserted_rows := inserted_rows st;
               failed_rows := failed_rows st;
               calls := calls st;
               sleeps := F64.mul RETRY_BACKOFF (F64.of_Z attempt)
                           :: sleeps st |}
      else Ok st
  end.

Definition insert_batch (batch : list record) (st : Run) : result Run :=
  attempts (Z.to_nat (MAX_RETRIES + 1)) batch 0 st.

(** Lines 119-146: the batches one after the other, up to the first
    exception. *)
Fixpoint insert_all (bs : list (list record)) (st : Run) : result Run :=
  match bs with
  | [] => Ok st
  | batch :: bs' => st' <- insert_batch batch st ;; insert_all bs' st'
  end.

(** Lines 119-120: the batches, in order. *)
Definition batches (records : list record) : result (list (list record)) :=
  starts <- range_from_0 (Z.of_nat (List.length records)) BATCH_SIZE ;;
  Ok (map (fun i => slice i (i + BATCH_SIZE) records) starts).

(** Lines 110-146 on the records of the table. *)
Definition load_records (records : list record) : result Run :=
  bs <- batches records ;;
  insert_all bs
    {| total_rows := Z.of_nat (List.length records);
       inserted_rows := 0; failed_rows := 0;
       calls := []; sleeps := [] |}.

(** Lines 79-153 on the frame [pd.read_csv] made of the file; [None] when
    there is nothing to load, else what the summary prints and what the
    run did. *)
Definition load_csv_to_supabase (df : DataFrame) : result (option Run) :=
  if df_empty df then Ok None
  else
    let df := rename df in
    let df := select (present_cols df) df in
    run <- load_records (map (_row_to_record isoformat) (rows df)) ;;
    Ok (Some run).

End Load.

(** ** Scenarios of the load *)

Definition three_records : list record :=
  [[("hour", Obj (VInt 0))]; [("hour", Obj (VInt 1))];
   [("hour", Obj (VInt 2))]].

(** A service that rejects the first call and accepts every later one. *)
Definition first_call_fails (n : nat) (batch : list record) : bool :=
  negb (Nat.eqb n 0).

Definition no_run : Run :=
  {| total_rows := 3; inserted_rows := 0; failed_rows := 0;
     calls := []; sleeps := [] |}.

(** A stand-in for [isoformat]: the nanoseconds since the epoch. *)
Definition epoch_ns (t : Timestamp) : string := str_of_Z (ns t).

(** The load of the Pune table with the default settings and a service
    that accepts every call. *)
Definition pune_run : Run :=
  Eval vm_compute in
    match load_csv_to_supabase 200 2 (F64.of_Z 2) (fun _ _ => true) epoch_ns
            pune_output with
    | Ok (Some run) => run
    | _ => no_run
    end.

(** An [hourly] block whose [pm2_5] list is too short and whose carbon
    monoxide is under the column name, not under [co]. *)
Definition hourly_short : dict :=
  [("time", VList [VStr "2024-01-01T00:00:00Z"; VStr "2024-01-01T01:00:00Z"]);
   ("pm2_5", VList [VInt 10]);
   ("carbon_monoxide", VList [VInt 1; VInt 2]);
   ("ozone", VStr "n/a")].

Definition hourly_short_frame : DataFrame :=
  Eval vm_compute in frame_of (flatten_hourly (VStr "New Delhi") hourly_short).

(** A v2 payload whose only measurement has no time and a value too large
    for a float. *)
Definition huge_value_file : File :=
  {| file_path := {| stem := "pune_raw_20240101" |};
     json_load :=
       Ok (VDict
             [("results",
               VList
                 [VDict
                    [("city", VStr "Pune");
                     ("measurements",
                      VList [VDict [("parameter", VStr "pm25");
                                    ("value", VInt (10 ^ 400))]])]])]) |}.

(* ===================================================================== *)
(** * Properties *)

Lemma Ok_inj {A} (a b : A) : Ok a = Ok b -> a = b.
Proof. intros H. injection H as H. exact H. Qed.

Lemma DataFrame_of_records_ok (records : list row) (df : DataFrame) :
  DataFrame_of_records records = Ok df -> df = frame_of_records records.
Proof.
  unfold DataFrame_of_records.
  destruct (infer_dtypes _); cbn [bind]; [|discriminate].
  intros H. apply Ok_inj in H. symmetry. exact H.
Qed.

(* ===================================================================== *)
(** ** binary64: order and sign *)

(** The decimal literals of the AQI round trip, as binary64:
    50.1 is 0x1.90ccccccccccdp+5 and 300.1 is 0x1.2c1999999999ap+8. *)
Lemma literal_50_1 :
  F64.tenths 501 = S754_finite false 7050948166601933 (-47).
Proof. reflexivity. Qed.

Lemma literal_300_1 :
  F64.tenths 3001 = S754_finite false 5279415031929242 (-44).
Proof. reflexivity. Qed.

Lemma SFcompare_antisym (x y : float) :
  SFcompare y x = option_map CompOpp (SFcompare x y).
Proof.
  destruct x as [sx|sx| |sx mx ex], y as [sy|sy| |sy my ey]; simpl;
    try reflexivity;
    try (destruct sx; reflexivity); try (destruct sy; reflexivity);
    try (destruct sx, sy; reflexivity).
  rewrite (Z.compare_antisym ex ey).
  rewrite !Pos.compare_cont_spec. simpl.
  rewrite (Pos.compare_antisym mx my).
  destruct sx, sy, (ex ?= ey)%Z, (mx ?= my)%positive; reflexivity.
Qed.

Lemma ltb_not_leb (a x : float) :
  F64.ltb a x = true -> F64.leb x a = false.
Proof.
  unfold F64.ltb, F64.leb, SFltb, SFleb.
  rewrite (SFcompare_antisym a x).
  destruct (SFcompare a x) as [[| |]|]; simpl; congruence.
Qed.

Lemma SFcompare_None (a x : float) :
  SFcompare a x = None -> F64.is_nan a = true \/ F64.is_nan x = true.
Proof.
  destruct a, x; simpl; intros H; try discriminate H; auto.
Qed.

Lemma leb_false_ltb (a x : float) :
  F64.is_nan a = false -> F64.is_nan x = false ->
  F64.leb x a = false -> F64.ltb a x = true.
Proof.
  intros Ha Hx. unfold F64.ltb, F64.leb, SFltb, SFleb.
  rewrite (SFcompare_antisym a x).
  destruct (SFcompare a x) as [[| |]|] eqn:E; simpl; try congruence.
  destruct (SFcompare_None _ _ E); congruence.
Qed.

Lemma nonneg_leb (x : float) : F64.nonneg x = F64.leb F64.zero x.
Proof. destruct x as [sx|sx| |sx mx ex]; try destruct sx; reflexivity. Qed.

Lemma shr_1_nonneg (mrs : shr_record) :
  0 <= shr_m mrs -> 0 <= shr_m (shr_1 mrs).
Proof.
  destruct mrs as [m r st]; simpl.
  destruct m as [|p|p]; simpl; try lia; destruct p; simpl; lia.
Qed.

Lemma iter_pos_nonneg (p : positive) (mrs : shr_record) :
  0 <= shr_m mrs -> 0 <= shr_m (iter_pos shr_1 p mrs).
Proof.
  revert mrs; induction p; intros mrs H; simpl; auto using shr_1_nonneg.
Qed.

Lemma shr_fexp_nonneg (m e : Z) (l : location) :
  0 <= m -> 0 <= shr_m (fst (shr_fexp F64.prec F64.emax m e l)).
Proof.
  intros H. unfold shr_fexp, shr.
  assert (H0 : 0 <= shr_m (shr_record_of_loc m l))
    by (destruct l as [|[| |]]; simpl; exact H).
  destruct (fexp F64.prec F64.emax (Zdigits2 m + e) - e); simpl; auto.
  apply iter_pos_nonneg; exact H0.
Qed.

Lemma round_nearest_even_nonneg (m : Z) (l : location) :
  0 <= m -> 0 <= round_nearest_even m l.
Proof.
  intros H; destruct l as [|[| |]]; simpl; try lia.
  destruct (Z.even m); lia.
Qed.

Lemma binary_round_aux_sign (sx : bool) (mx ex : Z) (lx : location) :
  0 <= mx -> F64.signed_as sx (binary_round_aux F64.prec F64.emax sx mx ex lx).
Proof.
  intros H. unfold binary_round_aux.
  pose proof (shr_fexp_nonneg mx ex lx H) as H1.
  destruct (shr_fexp F64.prec F64.emax mx ex lx) as [mrs' e'].
  simpl in H1.
  pose proof (round_nearest_even_nonneg _ (loc_of_shr_record mrs') H1) as H2.
  pose proof (shr_fexp_nonneg _ e' loc_Exact H2) as H3.
  destruct (shr_fexp F64.prec F64.emax _ e' loc_Exact) as [mrs'' e''].
  simpl in H3.
  destruct (shr_m mrs'') as [|p|p]; simpl; try reflexivity; try lia.
  match goal with |- context [if ?b then _ else _] => destruct b end;
    simpl; reflexivity.
Qed.

Lemma binary_round_sign (sx : bool) (mx : positive) (ex : Z) :
  F64.signed_as sx (binary_round F64.prec F64.emax sx mx ex).
Proof.
  unfold binary_round.
  destruct (shl_align mx ex _) as [mz ez].
  apply binary_round_aux_sign. lia.
Qed.

Lemma nonneg_of_signed (r : float) : F64.signed_as false r -> F64.nonneg r = true.
Proof. destruct r; simpl; intros; subst; auto; contradiction. Qed.

Lemma mul_nonneg (a : float) (m : positive) (e : Z) :
  F64.nonneg a = true ->
  F64.nonneg (F64.mul a (S754_finite false m e)) = true.
Proof.
  destruct a as [sa|sa| |sa ma ea]; simpl; intros H; try discriminate.
  - reflexivity.
  - destruct sa; simpl in *; congruence.
  - destruct sa; simpl in H; try discriminate.
    apply nonneg_of_signed. unfold F64.mul, SFmul.
    apply binary_round_aux_sign. lia.
Qed.

Lemma add_nonneg (a b : float) :
  F64.nonneg a = true -> F64.nonneg b = true ->
  F64.nonneg (F64.add a b) = true.
Proof.
  destruct a as [sa|sa| |sa ma ea], b as [sb|sb| |sb mb eb]; simpl;
    intros Ha Hb; try discriminate; try assumption;
    try (destruct sa, sb; simpl in *; congruence).
  destruct sa, sb; simpl in Ha, Hb; try discriminate.
  apply nonneg_of_signed. unfold F64.add, SFadd, binary_normalize, cond_Zopp.
  simpl Z.add. apply binary_round_sign.
Qed.

Lemma lex_compare_trans (e1 e2 e3 : Z) (m1 m2 m3 : positive) :
  match (e1 ?= e2)%Z with Lt => Lt | Gt => Gt | Eq => (m1 ?= m2)%positive end
    <> Gt ->
  match (e2 ?= e3)%Z with Lt => Lt | Gt => Gt | Eq => (m2 ?= m3)%positive end
    <> Gt ->
  match (e1 ?= e3)%Z with Lt => Lt | Gt => Gt | Eq => (m1 ?= m3)%positive end
    <> Gt.
Proof.
  destruct (Z.compare_spec e1 e2), (Z.compare_spec e2 e3),
    (Z.compare_spec e1 e3); try lia; try congruence;
    destruct (Pos.compare_spec m1 m2), (Pos.compare_spec m2 m3),
      (Pos.compare_spec m1 m3); try lia; congruence.
Qed.

Lemma leb_trans (x y z : float) :
  F64.leb x y = true -> F64.leb y z = true -> F64.leb x z = true.
Proof.
  unfold F64.leb, SFleb.
  destruct x as [sx|sx| |sx mx ex], y as [sy|sy| |sy my ey],
    z as [sz|sz| |sz mz ez]; simpl; try discriminate; try reflexivity;
    try (destruct sx; simpl; try discriminate; try reflexivity;
         destruct sy; simpl; try discriminate; try reflexivity;
         destruct sz; simpl; try discriminate; reflexivity).
  rewrite !Pos.compare_cont_spec; simpl.
  destruct sx, sy, sz; simpl; try discriminate; try reflexivity.
  - pose proof (lex_compare_trans ez ey ex mz my mx) as T.
    rewrite (Z.compare_antisym ey ex), (Z.compare_antisym ez ey),
      (Z.compare_antisym ez ex), (Pos.compare_antisym my mx),
      (Pos.compare_antisym mz my), (Pos.compare_antisym mz mx).
    destruct (ez ?= ey)%Z, (ey ?= ex)%Z, (ez ?= ex)%Z,
      (mz ?= my)%positive, (my ?= mx)%positive, (mz ?= mx)%positive;
      simpl in *; intros; try discriminate; try reflexivity;
      exfalso; apply T; congruence.
  - pose proof (lex_compare_trans ex ey ez mx my mz) as T.
    destruct (ex ?= ey)%Z, (ey ?= ez)%Z, (ex ?= ez)%Z,
      (mx ?= my)%positive, (my ?= mz)%positive, (mx ?= mz)%positive;
      simpl in *; intros; try discriminate; try reflexivity;
      exfalso; apply T; congruence.
Qed.

Lemma ltb_leb_lower (a b x : float) :
  F64.leb a b = true -> F64.ltb b x = true -> F64.leb x a = false.
Proof.
  intros Hab Hbx. destruct (F64.leb x a) eqn:E; [|reflexivity].
  pose proof (leb_trans _ _ _ E Hab) as H.
  rewrite (ltb_not_leb _ _ Hbx) in H. discriminate.
Qed.

Lemma above_band (a b x : float) :
  F64.is_nan a = false ->
  F64.leb x a = false -> F64.in_band a b x = false -> F64.leb x b = false.
Proof.
  intros Ha Hxa Hband. destruct (F64.is_nan x) eqn:Hx.
  - destruct x; try discriminate. reflexivity.
  - unfold F64.in_band in Hband.
    rewrite (leb_false_ltb _ _ Ha Hx Hxa) in Hband. exact Hband.
Qed.

(* ===================================================================== *)
(** ** Derived metrics *)

Section DerivedProperties.
Context {RT : Runtime}.

Lemma s_nonneg (r : row) (k : string) :
  (forall c f, lookup k r = Some c -> py_float c = Ok f ->
               (F64.zero <=? f)%f64 = true) ->
  F64.nonneg (s (row_get r k (Obj (VInt 0)))) = true.
Proof.
  intros H. unfold row_get, s.
  destruct (lookup k r) as [c|] eqn:E; [|reflexivity].
  destruct (is_None c); [reflexivity|].
  destruct (py_float c) as [f|e] eqn:F; [|reflexivity].
  rewrite nonneg_leb. eauto.
Qed.

(** What [s] makes of a pollutant that is missing from the row, [None], or
    not convertible by [float]: each counts as [0.0]. *)
Lemma s_absent (r : row) (k : string) :
  (lookup k r = None \/ lookup k r = Some (Obj VNone) \/
   exists c e, lookup k r = Some c /\ py_float c = Raise e) ->
  s (row_get r k (Obj (VInt 0))) = F64.zero.
Proof.
  unfold row_get, s. intros [H|[H|(c & e & H & F)]]; rewrite H; try reflexivity.
  rewrite F. destruct (is_None c); reflexivity.
Qed.

(** C6: [calculate_aqi] returns [None] for [None] (and for a value [float]
    rejects), "Good" up to 50, "Moderate" in (50, 100], "Unhealthy" in
    (100, 200], "Very Unhealthy" in (200, 300] and "Hazardous" otherwise;
    every band includes its upper bound: 50.0 is "Good", 50.1 "Moderate",
    200.0 "Unhealthy", 300.1 "Hazardous". *)
Theorem calculate_aqi_bands :
  (forall x, is_None x = true -> calculate_aqi x = None) /\
  (forall x e, py_float x = Raise e -> calculate_aqi x = None) /\
  (forall x pm, is_None x = false /\ py_float x = Ok pm ->
     ((pm <=? F64.of_Z 50)%f64 = true -> calculate_aqi x = Some "Good") /\
     (F64.in_band (F64.of_Z 50) (F64.of_Z 100) pm = true ->
      calculate_aqi x = Some "Moderate") /\
     (F64.in_band (F64.of_Z 100) (F64.of_Z 200) pm = true ->
      calculate_aqi x = Some "Unhealthy") /\
     (F64.in_band (F64.of_Z 200) (F64.of_Z 300) pm = true ->
      calculate_aqi x = Some "Very Unhealthy") /\
     ((pm <=? F64.of_Z 50)%f64 = false /\
      F64.in_band (F64.of_Z 50) (F64.of_Z 100) pm = false /\
      F64.in_band (F64.of_Z 100) (F64.of_Z 200) pm = false /\
      F64.in_band (F64.of_Z 200) (F64.of_Z 300) pm = false ->
      calculate_aqi x = Some "Hazardous")) /\
  calculate_aqi (Obj (VFloat (F64.of_Z 50))) = Some "Good" /\
  calculate_aqi (Obj (VFloat (F64.tenths 501))) = Some "Moderate" /\
  calculate_aqi (Obj (VFloat (F64.of_Z 200))) = Some "Unhealthy" /\
  calculate_aqi (Obj (VFloat (F64.tenths 3001))) = Some "Hazardous".
Proof.
  assert (L1 : F64.leb (F64.of_Z 50) (F64.of_Z 100) = true) by reflexivity.
  assert (L2 : F64.leb (F64.of_Z 100) (F64.of_Z 200) = true) by reflexivity.
  assert (L3 : F64.leb (F64.of_Z 50) (F64.of_Z 200) = true) by reflexivity.
  split; [|split; [|split]].
  - intros x H. unfold calculate_aqi. rewrite H. reflexivity.
  - intros x e H. unfold calculate_aqi. rewrite H.
    destruct (is_None x); reflexivity.
  - intros x pm [HN HF]. unfold calculate_aqi.
    rewrite HN, HF.
    repeat split.
    + intros H. rewrite H. reflexivity.
    + intros H. apply andb_prop in H. destruct H as [H1 H2].
      rewrite (ltb_not_leb _ _ H1), H2. reflexivity.
    + intros H. apply andb_prop in H. destruct H as [H1 H2].
      rewrite (ltb_leb_lower _ _ _ L1 H1), (ltb_not_leb _ _ H1), H2.
      reflexivity.
    + intros H. apply andb_prop in H. destruct H as [H1 H2].
      rewrite (ltb_leb_lower _ _ _ L3 H1), (ltb_leb_lower _ _ _ L2 H1),
        (ltb_not_leb _ _ H1), H2.
      reflexivity.
    + intros (H0 & H1 & H2 & H3).
      pose proof (above_band (F64.of_Z 50) _ _ eq_refl H0 H1) as E1.
      pose proof (above_band (F64.of_Z 100) _ _ eq_refl E1 H2) as E2.
      pose proof (above_band (F64.of_Z 200) _ _ eq_refl E2 H3) as E3.
      rewrite H0, E1, E2, E3. reflexivity.
  - repeat split; vm_compute; reflexivity.
Qed.

(** C9 (as amended): when every pollutant value the row holds and [float]
    accepts is at least zero, the severity score is at least zero. *)
Theorem calculate_severity_nonneg (r : row) :
  (forall k c f, In k SEVERITY_KEYS -> lookup k r = Some c ->
                 py_float c = Ok f -> (F64.zero <=? f)%f64 = true) ->
  (F64.zero <=? calculate_severity r)%f64 = true.
Proof.
  intros H. rewrite <- nonneg_leb. unfold calculate_severity.
  repeat apply add_nonneg;
    match goal with
    | |- F64.nonneg (F64.mul _ (F64.of_Z ?n)) = true =>
        let c := eval vm_compute in (F64.of_Z n) in
        change (F64.of_Z n) with c
    end;
    apply mul_nonneg; apply s_nonneg; intros c f; apply H;
    unfold SEVERITY_KEYS; simpl; tauto.
Qed.

(** C10: on every float, NaN included, [calculate_risk] returns one of the
    three labels and never [None]; NaN fails both strict comparisons and is
    "Low Risk". *)
Theorem calculate_risk_total :
  (forall f : float,
     calculate_risk (Obj (VFloat f)) = Some "High Risk" \/
     calculate_risk (Obj (VFloat f)) = Some "Moderate Risk" \/
     calculate_risk (Obj (VFloat f)) = Some "Low Risk") /\
  (F64.of_Z 400 <? F64.nan)%f64 = false /\
  (F64.of_Z 200 <? F64.nan)%f64 = false /\
  calculate_risk (Obj (VFloat F64.nan)) = Some "Low Risk".
Proof.
  split; [|repeat split].
  intros f. unfold calculate_risk, py_float.
  destruct (F64.of_Z 400 <? f)%f64; [auto|].
  destruct (F64.of_Z 200 <? f)%f64; auto.
Qed.

(** NaN, the marker pandas gives an absent numeric cell, is a float and goes
    through [s] unchanged: one NaN pollutant makes the whole score NaN. *)
Lemma calculate_severity_nan (r : row) (k : string) :
  In k SEVERITY_KEYS -> lookup k r = Some (Obj (VFloat F64.nan)) ->
  calculate_severity r = F64.nan.
Proof.
  assert (A1 : forall x, F64.add F64.nan x = F64.nan) by reflexivity.
  assert (A2 : forall x, F64.add x F64.nan = F64.nan)
    by (intros x; destruct x; reflexivity).
  assert (M : forall x, F64.mul F64.nan x = F64.nan) by reflexivity.
  unfold SEVERITY_KEYS, calculate_severity. simpl.
  intros [H|[H|[H|[H|[H|[H|[]]]]]]] E; subst k;
    unfold row_get at 1 2 3 4 5 6; rewrite E;
    change (s (Obj (VFloat F64.nan))) with F64.nan;
    rewrite ?M, ?A1, ?A2; reflexivity.
Qed.

End DerivedProperties.

(* ===================================================================== *)
(** ** City resolution *)

Lemma return_if_set_dict (d : dict) (k : string) :
  return_if_set (VDict d) k
  = Ok (if truthy (get d k) then Some (get d k) else None).
Proof.
  unfold return_if_set, attr_get. simpl.
  destruct (truthy (get d k)); reflexivity.
Qed.

Lemma first_entry_city_dict (d : dict) (list_key alt_key : string) :
  first_entry_city (VDict d) list_key alt_key
  = Ok (let e := first_entry d list_key in
        if truthy (get e "city") then Some (get e "city")
        else if truthy (get e alt_key) then Some (get e alt_key)
        else None).
Proof.
  unfold first_entry_city, first_entry, attr_get. simpl.
  destruct (get d list_key) as [| | | | |l|]; try reflexivity.
  destruct l as [|x l]; [reflexivity|]. simpl.
  destruct x; try reflexivity. simpl.
  rewrite !return_if_set_dict. simpl.
  destruct (truthy (get d0 "city")); [reflexivity|].
  destruct (truthy (get d0 alt_key)); reflexivity.
Qed.

Lemma truthy_get_lookup (d : dict) (k : string) :
  truthy (get d k) = true -> lookup k d = Some (get d k).
Proof.
  unfold get. destruct (lookup k d); [reflexivity|discriminate].
Qed.

Lemma infer_city_from_payload_spec (payload : pyval) :
  _infer_city_from_payload payload
  = Ok (first_truthy (payload_candidates payload) VNone).
Proof.
  destruct payload as [| | | | | |d]; try reflexivity.
  unfold _infer_city_from_payload, payload_candidates. simpl negb.
  cbv iota. rewrite return_if_set_dict.
  rewrite !first_entry_city_dict.
  unfold or_next, attr_get, subscript. simpl.
  destruct (truthy (get d "city")) eqn:E1; [reflexivity|].
  destruct (truthy (get d "meta")) eqn:E2; simpl.
  - rewrite (truthy_get_lookup _ _ E2).
    destruct (get d "meta") as [| | | | | |m]; simpl;
      try rewrite return_if_set_dict; simpl;
      repeat match goal with
             | |- context [truthy ?x] => destruct (truthy x); simpl
             end; reflexivity.
  - destruct (get d "meta") as [| | | | | |m]; simpl; simpl in E2;
      try (destruct m; [|discriminate]); simpl;
      repeat match goal with
             | |- context [truthy ?x] => destruct (truthy x); simpl
             end; reflexivity.
Qed.

Lemma rev_string_empty (acc s : string) :
  rev_string acc s = "" -> acc = "" /\ s = "".
Proof.
  revert acc. induction s as [|c s IH]; intros acc H; simpl in H.
  - auto.
  - apply IH in H. destruct H as [H _]. discriminate.
Qed.

Lemma prefix_first (a : ascii) (s1 : string) (b : ascii) (s2 : string) :
  String.prefix (String a s1) (String b s2) = true -> a = b.
Proof.
  cbn [String.prefix]. destruct (ascii_dec a b); [auto|discriminate].
Qed.

Lemma prefix_underscore (s : string) : String.prefix "_" (String "_" s) = true.
Proof.
  cbn [String.prefix]. destruct (ascii_dec "_" "_"); [|congruence].
  destruct s; reflexivity.
Qed.

Lemma split_from_cons (sep cur : string) (c : ascii) (s : string) :
  split_from sep 0 cur (String c s)
  = if String.prefix sep (String c s)
    then rev_string "" cur :: split_from sep (String.length sep - 1) "" s
    else split_from sep 0 (String c cur) s.
Proof. reflexivity. Qed.

Lemma split_from_head (sep cur s : string) :
  cur <> "" -> hd "" (split_from sep 0 cur s) <> "".
Proof.
  revert cur. induction s as [|c s IH]; intros cur Hc.
  - simpl. intros H. apply rev_string_empty in H. tauto.
  - rewrite split_from_cons.
    destruct (String.prefix sep (String c s)).
    + simpl. intros H. apply rev_string_empty in H. tauto.
    + apply IH. discriminate.
Qed.

Lemma split_head_empty (sep s : string) :
  hd "" (split sep s) = "" -> s = "" \/ String.prefix sep s = true.
Proof.
  unfold split. destruct s as [|c s]; auto.
  rewrite split_from_cons.
  destruct (String.prefix sep (String c s)) eqn:E; auto.
  intros H. exfalso. revert H. apply split_from_head. discriminate.
Qed.

Lemma split_from_nonempty (sep : string) (n : nat) (cur s : string) :
  split_from sep n cur s <> [].
Proof.
  revert n cur. induction s as [|c s IH]; intros n cur; [discriminate|].
  destruct n as [|n]; [|apply IH].
  rewrite split_from_cons.
  destruct (String.prefix sep (String c s)); [discriminate|apply IH].
Qed.

Lemma split_nonempty (sep s : string) : split sep s <> [].
Proof. apply split_from_nonempty. Qed.

Lemma infer_city_from_filename_spec (p : Path) :
  of_optional (_infer_city_from_filename p) = filename_candidate p.
Proof.
  unfold _infer_city_from_filename, filename_candidate.
  pose proof (split_nonempty "_raw_" (stem p)) as NE.
  destruct (split "_raw_" (stem p)) as [|part0 parts] eqn:E; [congruence|].
  simpl. destruct (String.eqb part0 "") eqn:E0; simpl; [|reflexivity].
  apply String.eqb_eq in E0. subst part0.
  assert (H : hd "" (split "_raw_" (stem p)) = "") by (rewrite E; reflexivity).
  apply split_head_empty in H.
  assert (T : hd "" (split "_" (stem p)) = "").
  { destruct H as [H|H].
    - rewrite H. reflexivity.
    - destruct (stem p) as [|c s]; [reflexivity|].
      apply prefix_first in H. subst c.
      unfold split. rewrite split_from_cons.
      rewrite prefix_underscore. reflexivity. }
  rewrite T. reflexivity.
Qed.

Lemma first_truthy_app (l1 l2 : list pyval) (fb : pyval) :
  first_truthy (l1 ++ l2) fb = first_truthy l1 (first_truthy l2 fb).
Proof.
  induction l1 as [|c l1 IH]; simpl; [reflexivity|].
  destruct (truthy c); auto.
Qed.

Lemma first_truthy_cases (l : list pyval) (fb : pyval) :
  first_truthy l fb = fb \/
  (In (first_truthy l fb) l /\ truthy (first_truthy l fb) = true).
Proof.
  induction l as [|c l IH]; simpl; auto.
  destruct (truthy c) eqn:E; [right; auto|].
  destruct IH as [IH|[IH1 IH2]]; auto.
Qed.

Lemma first_truthy_fallback (cands : list pyval) (fb : pyval) :
  first_truthy cands VNone = VNone -> first_truthy cands fb = fb.
Proof.
  induction cands as [|c l IH]; simpl; [reflexivity|].
  destruct (truthy c) eqn:E; [intros ->; discriminate|auto].
Qed.

Lemma first_truthy_found (cands : list pyval) (fb : pyval) :
  truthy (first_truthy cands VNone) = true ->
  first_truthy cands fb = first_truthy cands VNone.
Proof.
  induction cands as [|c l IH]; simpl; [discriminate|].
  destruct (truthy c); auto.
Qed.

Lemma filename_candidate_str (p : Path) :
  truthy (filename_candidate p) = true -> is_str (filename_candidate p) = true.
Proof.
  unfold filename_candidate. destruct (String.eqb _ ""); [discriminate|].
  reflexivity.
Qed.

(** Line 150 computes the precedence and cannot raise. *)
Lemma resolve_city_ok (city_name : option string) (payload : pyval)
  (p : Path) :
  resolve_city city_name payload p
  = Ok (city_precedence city_name payload p).
Proof.
  unfold resolve_city, city_precedence.
  rewrite infer_city_from_payload_spec, infer_city_from_filename_spec.
  rewrite !first_truthy_app. simpl.
  destruct (truthy (of_optional city_name)); [reflexivity|]. simpl.
  destruct (first_truthy_cases (payload_candidates payload) VNone)
    as [H|[_ H]].
  - rewrite (first_truthy_fallback _
               (if truthy (filename_candidate p) then filename_candidate p
                else VStr "Unknown") H).
    rewrite H. simpl.
    destruct (truthy (filename_candidate p)); reflexivity.
  - rewrite (first_truthy_found _
               (if truthy (filename_candidate p) then filename_candidate p
                else VStr "Unknown") H).
    rewrite H. reflexivity.
Qed.

(** C7 (as amended): the resolver never raises and returns the first
    truthy candidate in the order override, top-level [city], [meta.city],
    first [results] entry's [city] then [location], first [locations]
    entry's [city] then [name], the title-cased file-name token, and at last
    "Unknown".  The value is returned as found: it is truthy, and it is a
    string when every truthy candidate of the payload is one. *)
Theorem resolve_city_first_match (city_name : option string)
  (payload : pyval) (p : Path) :
  resolve_city city_name payload p
  = Ok (city_precedence city_name payload p) /\
  truthy (city_precedence city_name payload p) = true /\
  (Forall (fun c => truthy c = true -> is_str c = true)
     (payload_candidates payload) ->
   is_str (city_precedence city_name payload p) = true).
Proof.
  split; [apply resolve_city_ok|].
  unfold city_precedence. rewrite !first_truthy_app. simpl.
  set (cands := payload_candidates payload).
  set (fc := filename_candidate p).
  destruct (truthy (of_optional city_name)) eqn:E0.
  { split; [exact E0|]. intros _.
    destruct city_name; [reflexivity|discriminate]. }
  destruct (first_truthy_cases cands VNone) as [H|[H1 H2]].
  - rewrite (first_truthy_fallback _
               (if truthy fc then fc else VStr "Unknown") H).
    destruct (truthy fc) eqn:Ef.
    + split; [exact Ef|]. intros _. apply filename_candidate_str. exact Ef.
    + split; reflexivity.
  - rewrite (first_truthy_found _
               (if truthy fc then fc else VStr "Unknown") H2).
    split; [exact H2|].
    intros HF. rewrite Forall_forall in HF. auto.
Qed.


(* ===================================================================== *)
(** ** Grouping *)

Section Grouping.
Variables K V : Type.
Variable eqb : K -> K -> bool.
Hypothesis eqb_refl : forall k, eqb k k = true.

Lemma group_add_keys (k : K) (v : V) (groups : list (K * list V)) (x : K) :
  In x (map fst (group_add eqb k v groups)) ->
  In x (map fst groups) \/ x = k.
Proof.
  induction groups as [|[k' vs] rest IH]; simpl.
  - intros [H|[]]; auto.
  - destruct (eqb k' k); simpl; intros [H|H]; auto.
    destruct (IH H); auto.
Qed.

Lemma group_add_NoDup (k : K) (v : V) (groups : list (K * list V)) :
  NoDup (map fst groups) -> NoDup (map fst (group_add eqb k v groups)).
Proof.
  induction groups as [|[k' vs] rest IH]; simpl; intros ND.
  - constructor; [intros []|constructor].
  - inversion ND as [|? ? Hnotin ND']; subst.
    destruct (eqb k' k) eqn:E; simpl.
    + constructor; assumption.
    + constructor; [|auto].
      intros Hin. apply group_add_keys in Hin. destruct Hin as [Hin|Hin].
      * contradiction.
      * subst k'. rewrite eqb_refl in E. discriminate.
Qed.

Lemma group_by_NoDup (l : list (K * V)) : NoDup (map fst (group_by eqb l)).
Proof.
  unfold group_by.
  assert (G : forall groups, NoDup (map fst groups) ->
              NoDup (map fst (fold_left
                (fun groups kv => group_add eqb (fst kv) (snd kv) groups)
                l groups))).
  { induction l as [|[k v] l IH]; simpl; intros groups ND; [exact ND|].
    apply IH. apply group_add_NoDup. exact ND. }
  apply G. constructor.
Qed.

(** The first row of a group is the row that opened it. *)
Variable P : K -> V -> Prop.

Lemma group_add_headed (k : K) (v : V) (groups : list (K * list V)) :
  P k v -> headed P groups -> headed P (group_add eqb k v groups).
Proof.
  intros Hp. induction groups as [|[k' vs] rest IH]; intros Hh k0 vs0; simpl.
  - intros [H|[]]. inversion H; subst. eauto.
  - assert (Hrest : headed P rest)
      by (intros k1 vs1 Hin; apply (Hh k1 vs1); right; exact Hin).
    destruct (eqb k' k); simpl; intros [H|H].
    + inversion H; subst.
      destruct (Hh k0 vs (or_introl eq_refl)) as (v0 & vs' & -> & Hv).
      simpl. eauto.
    + apply (Hh k0 vs0). right; exact H.
    + inversion H; subst. apply (Hh k0 vs0). left; reflexivity.
    + apply (IH Hrest k0 vs0 H).
Qed.

Lemma group_by_headed (l : list (K * V)) :
  (forall k v, In (k, v) l -> P k v) -> headed P (group_by eqb l).
Proof.
  unfold group_by.
  assert (G : forall groups, (forall k v, In (k, v) l -> P k v) ->
              headed P groups ->
              headed P (fold_left
                (fun groups kv => group_add eqb (fst kv) (snd kv) groups)
                l groups)).
  { induction l as [|[k v] l IH]; simpl; intros groups Hl Hg; [exact Hg|].
    apply IH; [intros; apply Hl; auto|].
    apply group_add_headed; [apply Hl; auto|exact Hg]. }
  intros Hl. apply G; [exact Hl|]. intros k vs [].
Qed.

End Grouping.

Lemma In_insert_by {A} (leb : A -> A -> bool) (x y : A) (l : list A) :
  In y (insert_by leb x l) -> y = x \/ In y l.
Proof.
  induction l as [|z l IH]; simpl.
  - intros [H|[]]; auto.
  - destruct (leb x z); simpl; intros [H|H]; auto.
    destruct (IH H); auto.
Qed.

Lemma In_sort_by {A} (leb : A -> A -> bool) (y : A) (l : list A) :
  In y (sort_by leb l) -> In y l.
Proof.
  induction l as [|x l IH]; simpl; [auto|].
  intros H. apply In_insert_by in H. destruct H; auto.
Qed.

Lemma float_same_refl (f : float) : float_same f f = true.
Proof.
  destruct f as [a|a| |a m e]; simpl;
    rewrite ?Bool.eqb_reflx, ?Pos.eqb_refl, ?Z.eqb_refl; reflexivity.
Qed.

Lemma key_eqb_refl (k : key) : key_eqb k k = true.
Proof.
  destruct k; simpl;
    [apply Z.eqb_refl|apply float_same_refl|apply String.eqb_refl].
Qed.

Lemma key2_eqb_refl (k : key2) : key2_eqb k k = true.
Proof.
  unfold key2_eqb. rewrite key_eqb_refl, Z.eqb_refl. reflexivity.
Qed.

Lemma keyed_readings_key (dfm : list Reading)
  (keyed : list (key3 * (pyval * float))) :
  keyed_readings dfm = Ok keyed ->
  forall k v, In (k, v) keyed -> key_of (fst v) = Ok (Some (fst (fst k))).
Proof.
  revert keyed. induction dfm as [|r dfm IH]; simpl; intros keyed H.
  - inversion H; subst. intros k v [].
  - destruct (key_of (rd_city r)) as [ok|e] eqn:Ek; simpl in H;
      [|discriminate].
    destruct (keyed_readings dfm) as [rest|e] eqn:Er; simpl in H;
      [|discriminate].
    destruct ok as [k0|]; inversion H; subst; clear H.
    + intros k v [Hin|Hin]; [|eapply IH; eauto].
      inversion Hin; subst. simpl. exact Ek.
    + eapply IH; eauto.
Qed.

Lemma pivot_rows_keys (means : list (key3 * (pyval * float))) :
  NoDup (map (fun r => (pv_key r, pv_time_hour r)) (pivot_rows means)).
Proof.
  unfold pivot_rows. rewrite map_map. simpl.
  erewrite map_ext; [apply (group_by_NoDup _ _ key2_eqb key2_eqb_refl)|].
  intros [[k h] vs]. reflexivity.
Qed.

Lemma pivot_rows_city (keyed : list (key3 * (pyval * float))) :
  (forall k v, In (k, v) keyed -> key_of (fst v) = Ok (Some (fst (fst k)))) ->
  Forall (fun r => key_of (pv_city r) = Ok (Some (pv_key r)))
    (pivot_rows (group_means keyed)).
Proof.
  intros Hk. apply Forall_forall. intros r Hr.
  unfold pivot_rows in Hr. apply in_map_iff in Hr.
  destruct Hr as ([k2 vs] & <- & Hin). simpl.
  set (P2 := fun (k : key2) (v : pyval * (string * float)) =>
               key_of (fst v) = Ok (Some (fst k))).
  match type of Hin with
  | In _ (group_by _ ?l) =>
      assert (Hl : forall k v, In (k, v) l -> P2 k v)
  end.
  { intros k v Hkv. apply in_map_iff in Hkv.
    destruct Hkv as ([k3 [c m]] & Heq & Hkept). inversion Heq; subst.
    apply filter_In in Hkept. destruct Hkept as [Hmeans _].
    unfold group_means in Hmeans. apply In_sort_by in Hmeans.
    apply in_map_iff in Hmeans. destruct Hmeans as ([k3' ws] & Heq' & Hg).
    inversion Heq'; subst. unfold P2. simpl.
    set (P3 := fun (k : key3) (v : pyval * float) =>
                 key_of (fst v) = Ok (Some (fst (fst k)))).
    destruct (group_by_headed _ _ key3_eqb P3 keyed Hk k3 ws Hg)
      as (w & ws' & -> & Hw).
    exact Hw. }
  destruct (group_by_headed _ _ key2_eqb P2 _ Hl k2 vs Hin)
    as (v & vs' & -> & Hv).
  exact Hv.
Qed.

Lemma key_of_injective (rows : list PivotRow) :
  Forall (fun r => key_of (pv_city r) = Ok (Some (pv_key r))) rows ->
  NoDup (map (fun r => (pv_key r, pv_time_hour r)) rows) ->
  NoDup (map (fun r => (pv_city r, pv_time_hour r)) rows).
Proof.
  induction rows as [|r rows IH]; simpl; intros HF ND; [constructor|].
  inversion HF as [|? ? Hr HF']; subst.
  inversion ND as [|? ? Hnotin ND']; subst.
  constructor; [|auto].
  intros Hin. apply Hnotin.
  apply in_map_iff in Hin. destruct Hin as (r' & Heq & Hr').
  apply in_map_iff. exists r'. split; [|exact Hr'].
  inversion Heq as [[Hc Ht]].
  rewrite Forall_forall in HF'. pose proof (HF' r' Hr') as Hk.
  rewrite Hc in Hk. rewrite Hr in Hk. inversion Hk. reflexivity.
Qed.

(** C5: the rows the hourly aggregator returns have pairwise different
    [(city, hour)]: as group keys, and so as the city labels and hours the
    rows show. *)
Theorem hourly_aggregate_unique (dfm : list Reading) (pv : list PivotRow) :
  hourly_aggregate dfm = Ok pv ->
  NoDup (map (fun r => (pv_key r, pv_time_hour r)) pv) /\
  Forall (fun r => key_of (pv_city r) = Ok (Some (pv_key r))) pv /\
  NoDup (map (fun r => (pv_city r, pv_time_hour r)) pv).
Proof.
  unfold hourly_aggregate.
  destruct (keyed_readings dfm) as [keyed|e] eqn:Ek; simpl; [|discriminate].
  destruct (orb _ _); [discriminate|].
  intros H. inversion H; subst; clear H.
  pose proof (pivot_rows_keys (group_means keyed)) as ND.
  pose proof (pivot_rows_city keyed (keyed_readings_key dfm keyed Ek)) as HF.
  split; [exact ND|]. split; [exact HF|].
  apply key_of_injective; assumption.
Qed.

(* ===================================================================== *)
(** ** [flatten_city_json] *)

Lemma for_each_Forall {A B} (f : A -> result B) (P : B -> Prop)
  (xs : list A) (ys : list B) :
  for_each f xs = Ok ys ->
  (forall x y, In x xs -> f x = Ok y -> P y) -> Forall P ys.
Proof.
  revert ys. induction xs as [|x xs IH]; simpl; intros ys H HP.
  - inversion H. constructor.
  - destruct (f x) as [y|e] eqn:E; simpl in H; [|discriminate].
    destruct (for_each f xs) as [ys'|e] eqn:E'; simpl in H; [|discriminate].
    inversion H; subst. constructor; eauto.
Qed.

Lemma for_each_length {A B} (f : A -> result B) (xs : list A) (ys : list B) :
  for_each f xs = Ok ys -> List.length ys = List.length xs.
Proof.
  revert ys. induction xs as [|x xs IH]; simpl; intros ys H.
  - inversion H. reflexivity.
  - destruct (f x) as [y|e]; simpl in H; [|discriminate].
    destruct (for_each f xs) as [ys'|e]; simpl in H; [|discriminate].
    inversion H; subst. simpl. f_equal. auto.
Qed.

Lemma py_iter_truthy (v : pyval) (items : list pyval) :
  truthy v = true -> py_iter v = Ok items -> items <> [].
Proof.
  destruct v as [|b|z|f|s|l|d]; simpl; intros T H E; subst items;
    try discriminate.
  - inversion H as [H1]. destruct s; [discriminate T|discriminate H1].
  - inversion H; subst. discriminate T.
  - inversion H as [H1]. destruct d; [discriminate T|discriminate H1].
Qed.

Section FlattenProperties.
Context {RT : Runtime}.

(** The record of one hour, written out.  Each canonical column holds what
    the last mapping pair for it found: [pm2_5] the array under the key
    [pm2_5], [uv_index] the array under [uv] or [uv_index]. *)
Lemma hourly_record_shape (city : pyval) (hourly : dict) (i : nat)
  (t : pyval) (r : row) :
  hourly_record city hourly i t = Ok r ->
  exists time,
    to_datetime t = Ok time /\
    r = [("city", Obj city); ("time", time);
         ("pm10", hourly_value hourly i "pm10" "pm10");
         ("pm2_5", hourly_value hourly i "pm2_5" "pm2_5");
         ("carbon_monoxide", hourly_value hourly i "co" "carbon_monoxide");
         ("nitrogen_dioxide", hourly_value hourly i "no2" "nitrogen_dioxide");
         ("sulphur_dioxide", hourly_value hourly i "so2" "sulphur_dioxide");
         ("ozone", hourly_value hourly i "o3" "ozone");
         ("uv_index", hourly_value hourly i "uv" "uv_index")].
Proof.
  unfold hourly_record. destruct (to_datetime t) as [time|e]; simpl;
    [|discriminate].
  intros H. inversion H; subst. eauto.
Qed.

(** The union of column lists that are all the canonical one. *)
Lemma union_canonical {A} (cols_of : A -> list string) (xs : list A) :
  xs <> [] ->
  Forall (fun x => cols_of x = CANONICAL_COLS) xs ->
  fold_left (fun acc x => fold_left add_new (cols_of x) acc) xs []
  = CANONICAL_COLS.
Proof.
  intros NE HF.
  assert (G : forall acc,
             acc = [] \/ acc = CANONICAL_COLS ->
             fold_left (fun acc x => fold_left add_new (cols_of x) acc) xs acc
             = match xs with [] => acc | _ => CANONICAL_COLS end).
  { clear NE. induction HF as [|x xs Hx HF IH]; intros acc Hacc;
      [reflexivity|].
    simpl. rewrite Hx.
    assert (E : fold_left add_new CANONICAL_COLS acc = CANONICAL_COLS)
      by (destruct Hacc; subst acc; reflexivity).
    rewrite E, (IH CANONICAL_COLS (or_intror eq_refl)).
    destruct xs; reflexivity. }
  rewrite (G [] (or_introl eq_refl)). destruct xs; [contradiction|reflexivity].
Qed.

Lemma frame_of_records_canonical (records : list row) :
  records <> [] ->
  Forall (fun r => map fst r = CANONICAL_COLS) records ->
  frame_of_records records
  = {| columns := CANONICAL_COLS;
       rows := map (reindex CANONICAL_COLS) records |}.
Proof.
  intros NE HF. unfold frame_of_records.
  rewrite (union_canonical (map fst) records NE HF). reflexivity.
Qed.

Lemma flatten_hourly_frame (city : pyval) (hourly : dict) (df : DataFrame) :
  truthy (get hourly "time") = true ->
  flatten_hourly city hourly = Ok df ->
  exists items records,
    py_iter (get hourly "time") = Ok items /\
    for_each (fun it => hourly_record city hourly (fst it) (snd it))
      (enumerate items) = Ok records /\
    df = {| columns := CANONICAL_COLS;
            rows := map (reindex CANONICAL_COLS) records |}.
Proof.
  intros T. unfold flatten_hourly.
  destruct (py_iter (get hourly "time")) as [items|e] eqn:Ei; simpl;
    [|discriminate].
  destruct (for_each _ (enumerate items)) as [records|e] eqn:Er; simpl;
    [|discriminate].
  intros H. apply DataFrame_of_records_ok in H. subst df.
  exists items, records. split; [reflexivity|]. split; [exact Er|].
  apply frame_of_records_canonical.
  - pose proof (py_iter_truthy _ _ T Ei) as NE.
    pose proof (for_each_length _ _ _ Er) as L.
    unfold enumerate in L. rewrite length_combine, length_seq, Nat.min_id in L.
    destruct records; [|discriminate].
    destruct items; [congruence|discriminate].
  - eapply for_each_Forall; [exact Er|].
    intros x y _ Hy. apply hourly_record_shape in Hy.
    destruct Hy as (time & _ & ->). reflexivity.
Qed.

(** [flatten_city_json] on a payload that is a dict. *)
Lemma flatten_city_json_dict (file : File) (city_name : option string)
  (d : dict) :
  json_load file = Ok (VDict d) ->
  flatten_city_json file city_name
  = let city := city_precedence city_name (VDict d) (file_path file) in
    if is_time_series d then
      match get d "hourly" with
      | VDict hourly => flatten_hourly city hourly
      | _ => Raise AttributeError
      end
    else
      measurements <- collect_measurements d city ;;
      if negb (is_nil measurements) then
        _ <- from_records measurements ;;
        if is_nil (dfm_rows measurements) then Ok (empty_frame CANONICAL_COLS)
        else pv <- hourly_aggregate (dfm_rows measurements) ;;
             canonical_frame pv
      else Ok (empty_frame CANONICAL_COLS).
Proof.
  intros L. unfold flatten_city_json. rewrite L. simpl.
  rewrite resolve_city_ok.
  simpl. unfold is_time_series.
  destruct (get d "hourly") as [| | | | | |hourly]; reflexivity.
Qed.

Lemma flatten_city_json_not_dict (file : File) (city_name : option string)
  (payload : pyval) :
  json_load file = Ok payload -> is_dict payload = false ->
  flatten_city_json file city_name = Raise AttributeError.
Proof.
  intros L N. unfold flatten_city_json. rewrite L. simpl.
  rewrite resolve_city_ok.
  simpl. destruct payload; try reflexivity. discriminate.
Qed.

Lemma flatten_city_json_columns (file : File) (city_name : option string)
  (df : DataFrame) :
  flatten_city_json file city_name = Ok df -> columns df = CANONICAL_COLS.
Proof.
  destruct (json_load file) as [payload|e] eqn:L;
    [|unfold flatten_city_json; rewrite L; discriminate].
  destruct (is_dict payload) eqn:D;
    [|rewrite (flatten_city_json_not_dict _ _ _ L D); discriminate].
  destruct payload as [| | | | | |d]; try discriminate.
  rewrite (flatten_city_json_dict _ _ _ L). cbv zeta.
  destruct (is_time_series d) eqn:TS.
  - unfold is_time_series in TS.
    destruct (get d "hourly") as [| | | | | |hourly]; try discriminate.
    intros H. apply flatten_hourly_frame in H; [|exact TS].
    destruct H as (items & records & _ & _ & ->). reflexivity.
  - destruct (collect_measurements d _) as [ms|e]; simpl; [|discriminate].
    destruct (is_nil ms); simpl;
      [intros H; inversion H; reflexivity|].
    destruct (from_records ms); simpl; [|discriminate].
    destruct (is_nil (dfm_rows ms));
      [intros H; inversion H; reflexivity|].
    destruct (hourly_aggregate (dfm_rows ms)) as [pv|e]; simpl;
      [|discriminate].
    unfold canonical_frame. destruct (mem "time" (pivot_columns pv));
      [discriminate|].
    intros H; inversion H; reflexivity.
Qed.

End FlattenProperties.


(** ** The time column *)





Section TimeColumn.
Context {RT : Runtime}.




Lemma scan_column_fits (col : list cell) (seen_null seen_uint seen_sint : bool) :
  Forall (fun c => match c with
                   | Obj v => fits_float v = true
                   | _ => True
                   end) col ->
  scan_column seen_null seen_uint seen_sint col = Ok tt.
Proof.
  intros H. revert seen_null seen_uint seen_sint.
  induction H as [|c col Hc _ IH]; intros seen_null seen_uint seen_sint;
    [reflexivity|].
  cbn [scan_column].
  destruct c as [v|t| |]; try apply IH; try reflexivity.
  destruct v as [|b|z|f|str|l|d]; try apply IH; try reflexivity.
  cbn [fits_float] in Hc. apply negb_true_iff in Hc. rewrite Hc.
  destruct seen_null; [apply IH|].
  match goal with |- (if ?b then _ else _) = _ => destruct b end;
    [reflexivity|apply IH].
Qed.

Lemma from_records_fits (ms : list Measurement) :
  forallb fits_floats ms = true -> from_records ms = Ok tt.
Proof.
  intros H. rewrite forallb_forall in H.
  assert (F : forall g : Measurement -> pyval,
            (forall m, fits_floats m = true -> fits_float (g m) = true) ->
            scan_column false false false (map (fun m => Obj (g m)) ms)
            = Ok tt).
  { intros g Hg. apply scan_column_fits. apply Forall_forall.
    intros c Hc. apply in_map_iff in Hc. destruct Hc as (m & <- & Hm).
    apply Hg. apply H. exact Hm. }
  unfold from_records, infer_dtypes. cbn [for_each].
  rewrite (F m_city), (F m_time), (F m_parameter), (F m_value);
    try reflexivity;
    intros m Hm; unfold fits_floats in Hm;
    repeat (apply andb_prop in Hm; destruct Hm as [? Hm]);
    repeat match goal with
           | H : andb _ _ = true |- _ =>
               apply andb_prop in H; destruct H
           end; assumption.
Qed.

(** C1 (as amended): an exception of [json.load] leaves the function as it
    is, so unparseable content does raise; whenever the function returns,
    the frame has exactly the canonical columns; a dict payload that is
    not the hourly-arrays shape and yields no measurement tuple returns
    the empty canonical frame, and so does one whose tuples hold no
    integer too large for a float and all lack a readable time; an
    exception of [pd.DataFrame.from_records] on the tuples leaves the
    function as it is; the unrecognized payload [{"status": "ok"}]
    returns the empty canonical frame. *)
Theorem flatten_city_json_outcomes :
  (forall file city_name e,
     json_load file = Raise e ->
     flatten_city_json file city_name = Raise e) /\
  (forall file city_name df,
     flatten_city_json file city_name = Ok df ->
     columns df = CANONICAL_COLS) /\
  (forall file city_name d,
     json_load file = Ok (VDict d) /\
     is_time_series d = false /\
     collect_measurements d
       (city_precedence city_name (VDict d) (file_path file)) = Ok [] ->
     flatten_city_json file city_name = Ok (empty_frame CANONICAL_COLS)) /\
  (forall file city_name d ms,
     json_load file = Ok (VDict d) /\
     is_time_series d = false /\
     collect_measurements d
       (city_precedence city_name (VDict d) (file_path file)) = Ok ms /\
     forallb fits_floats ms = true /\
     dfm_rows ms = [] ->
     flatten_city_json file city_name = Ok (empty_frame CANONICAL_COLS)) /\
  (forall file city_name d ms e,
     json_load file = Ok (VDict d) /\
     is_time_series d = false /\
     collect_measurements d
       (city_precedence city_name (VDict d) (file_path file)) = Ok ms /\
     ms <> [] /\
     from_records ms = Raise e ->
     flatten_city_json file city_name = Raise e) /\
  flatten_city_json
    {| file_path := {| stem := "pune_raw_20240101" |};
       json_load := Ok (VDict [("status", VStr "ok")]) |} None
  = Ok (empty_frame CANONICAL_COLS).
Proof.
  split; [|split; [|split; [|split; [|split]]]].
  - intros file city_name e L. unfold flatten_city_json. rewrite L.
    reflexivity.
  - intros file city_name df. apply flatten_city_json_columns.
  - intros file city_name d (L & TS & C).
    rewrite (flatten_city_json_dict _ _ _ L). cbv zeta.
    rewrite TS, C. reflexivity.
  - intros file city_name d ms (L & TS & C & F & E).
    rewrite (flatten_city_json_dict _ _ _ L). cbv zeta.
    rewrite TS, C. cbn [bind]. rewrite (from_records_fits _ F), E.
    destruct (is_nil ms); reflexivity.
  - intros file city_name d ms e (L & TS & C & NE & F).
    rewrite (flatten_city_json_dict _ _ _ L). cbv zeta.
    rewrite TS, C. cbn [bind]. rewrite F.
    destruct ms; [congruence|reflexivity].
  - reflexivity.
Qed.

End TimeColumn.

(* ===================================================================== *)
(** ** The model on small inputs *)

Example split_raw :
  split "_raw_" "new_delhi_raw_20240101" = ["new_delhi"; "20240101"] /\
  split "_raw_" "_raw_x" = [""; "x"] /\
  split "_" "a_b__c" = ["a"; "b"; ""; "c"].
Proof. repeat split; reflexivity. Qed.

Example title_words :
  title (replace_char "_" " " "new_delhi") = "New Delhi" /\
  title "heLLo wORLD 3ab" = "Hello World 3Ab".
Proof. split; reflexivity. Qed.

Example city_from_filename :
  _infer_city_from_filename delhi_path = Some "New Delhi" /\
  _infer_city_from_filename {| stem := "mumbai" |} = Some "Mumbai" /\
  _infer_city_from_filename {| stem := "_raw_20240101" |} = None.
Proof. repeat split; reflexivity. Qed.

Example city_precedence_order :
  resolve_city (Some "Agra") (VDict [("city", VStr "Pune")]) delhi_path
  = Ok (VStr "Agra") /\
  resolve_city None
    (VDict [("city", VStr ""); ("meta", VDict [("city", VStr "Pune")])])
    delhi_path
  = Ok (VStr "Pune") /\
  resolve_city None
    (VDict [("results", VList [VDict [("location", VStr "Anand Vihar")]]);
            ("locations", VList [VDict [("name", VStr "ITO")]])])
    delhi_path
  = Ok (VStr "Anand Vihar") /\
  resolve_city None (VDict [("locations", VList [VDict [("name", VStr "ITO")]])])
    delhi_path
  = Ok (VStr "ITO") /\
  resolve_city None (VDict []) delhi_path = Ok (VStr "New Delhi") /\
  resolve_city None (VList []) {| stem := "" |} = Ok (VStr "Unknown").
Proof. repeat split; reflexivity. Qed.

Example parameter_names :
  map normalize_parameter
    [VStr "pm25"; VStr " PM2.5 "; VStr "O3"; VStr "uvi"; VStr "pm-10";
     VStr "humidity"; VNone]
  = ["pm2_5"; "pm2_5"; "ozone"; "uv_index"; "pm_10"; "humidity"; "none"].
Proof. vm_compute; reflexivity. Qed.

Example iso_timestamps :
  parse_iso8601 "2024-01-01T00:00:00Z"
  = Some {| ns := NEW_YEAR_2024 * NS_PER_SECOND; tz := Some 0 |} /\
  parse_iso8601 "2024-01-01T00:30"
  = Some {| ns := (NEW_YEAR_2024 + 1800) * NS_PER_SECOND; tz := None |} /\
  parse_iso8601 "1970-01-01 00:00:00" = Some {| ns := 0; tz := None |} /\
  parse_iso8601 "2024-02-30T00:00:00Z" = None /\
  parse_iso8601 "yesterday" = None.
Proof. repeat split; vm_compute; reflexivity. Qed.

(** The specification's v2 scenario: two [pm25] readings of 10 and 20 in one
    city-hour give pm2_5 = 15.0; the ozone reading two hours later is a row
    of its own. *)
Example v2_mean :
  flatten_city_json pune_v2_file None = Ok pune_v2_frame /\
  map (fun c => column c pune_v2_frame) ["city"; "time"; "pm2_5"; "ozone"]
  = [[Obj (VStr "Pune"); Obj (VStr "Pune")];
     [utc_time NEW_YEAR_2024; utc_time (NEW_YEAR_2024 + 7200)];
     [Obj (VFloat (F64.of_Z 15)); nan_cell];
     [nan_cell; Obj (VFloat (F64.of_Z 7))]].
Proof. split; vm_compute; reflexivity. Qed.

(* ===================================================================== *)
(** ** The specification's statements, by claim *)

(** C1, counterexample: a file that is not JSON makes [flatten_city_json]
    raise. *)
Lemma flatten_raises_on_unparseable :
  flatten_city_json unparseable_file None = Raise JSONDecodeError.
Proof. reflexivity. Qed.

(** A payload that is a JSON array stops at [payload.get("hourly")],
    although the lines after it test [isinstance(payload, dict)]. *)
Lemma flatten_raises_on_array :
  flatten_city_json
    {| file_path := delhi_path; json_load := Ok (VList []) |} None
  = Raise AttributeError.
Proof. reflexivity. Qed.

(** A measurement without a time whose value is 10^400: the frame of the
    tuples cannot be built, and [OverflowError] leaves the function. *)
Lemma flatten_raises_on_huge_value :
  flatten_city_json huge_value_file None = Raise OverflowError.
Proof. vm_compute. reflexivity. Qed.



(** Two readings of one hour and a third parameter make one row. *)
Lemma hourly_aggregate_unique_witness :
  hourly_aggregate pune_readings = Ok pune_pivot /\
  NoDup (map (fun r => (pv_key r, pv_time_hour r)) pune_pivot) /\
  Forall (fun r => key_of (pv_city r) = Ok (Some (pv_key r))) pune_pivot /\
  NoDup (map (fun r => (pv_city r, pv_time_hour r)) pune_pivot).
Proof.
  split; [vm_compute; reflexivity|].
  apply (hourly_aggregate_unique pune_readings pune_pivot).
  vm_compute; reflexivity.
Defined.

(** C7, counterexample: a numeric [city] is returned as it is, not as a
    string. *)
Lemma resolve_city_numeric :
  resolve_city None numeric_city_payload delhi_path = Ok (VInt 42) /\
  is_str (VInt 42) = false.
Proof. split; reflexivity. Qed.

(** C9, counterexample: pm2_5 = -1 gives the score -5. *)
Lemma calculate_severity_negative :
  calculate_severity negative_row = F64.of_Z (-5) /\
  (F64.zero <=? calculate_severity negative_row)%f64 = false.
Proof. split; vm_compute; reflexivity. Qed.

(** A row with pm2_5 = 600.0, pm10 = 10 and ozone = [None]. *)
Lemma calculate_severity_nonneg_witness :
  (forall k c f, In k SEVERITY_KEYS -> lookup k clean_row = Some c ->
                 py_float c = Ok f -> (F64.zero <=? f)%f64 = true) /\
  (F64.zero <=? calculate_severity clean_row)%f64 = true.
Proof.
  assert (H : forall k c f, In k SEVERITY_KEYS -> lookup k clean_row = Some c ->
                 py_float c = Ok f -> (F64.zero <=? f)%f64 = true).
  { intros k c f Hin. unfold SEVERITY_KEYS in Hin. simpl in Hin.
    repeat (destruct Hin as [<-|Hin]; [|]); try contradiction;
      intros Hc Hf; vm_compute in Hc; try discriminate Hc;
      inversion Hc; subst c; vm_compute in Hf; try discriminate Hf;
      inversion Hf; subst f; reflexivity. }
  split; [exact H|].
  apply (calculate_severity_nonneg clean_row H).
Defined.

(** C2, at the failing input: with pm2_5 = 600 and the other pollutants
    absent (NaN, as [transform_files] passes them) the score is NaN, where
    the formula with absent pollutants as 0 gives 3000. *)
Theorem calculate_severity_absent_is_nan :
  calculate_severity pm2_5_only_row = F64.nan /\
  (F64.of_Z 600 * F64.of_Z 5)%f64 = F64.of_Z 3000 /\
  calculate_severity [("pm2_5", Obj (VFloat (F64.of_Z 600)))] = F64.of_Z 3000 /\
  calculate_severity
    [("pm2_5", Obj (VFloat (F64.of_Z 600))); ("pm10", Obj VNone)]
  = F64.of_Z 3000.
Proof. repeat split; vm_compute; reflexivity. Qed.

(** In the hourly-arrays case an array under an alias that is not the last
    pair of its column is lost: without a key [pm2_5] the column [pm2_5]
    is [None] whatever [pm25] holds. *)
Lemma hourly_alias_overwritten (city : pyval) (hourly : dict) (i : nat)
  (t : pyval) (r : row) :
  hourly_record city hourly i t = Ok r ->
  has_key "pm2_5" hourly = false ->
  lookup "pm2_5" r = Some (Obj VNone).
Proof.
  intros H K. apply hourly_record_shape in H.
  destruct H as (time & _ & ->). simpl.
  unfold hourly_value. rewrite K. reflexivity.
Qed.

(** C3, at the failing input: the scenario's frame has two rows, both with
    pm2_5 = [None]; the merge finds no pollutant in them and keeps none.
    With the readings under the key [pm2_5] the two rows survive, and the
    second has pm2_5 = 600 and "Hazardous" but a NaN severity and "Low
    Risk". *)
Theorem hourly_pm25_scenario :
  flatten_city_json hourly_pm25_file None = Ok hourly_pm25_frame /\
  column "pm2_5" hourly_pm25_frame = [Obj VNone; Obj VNone] /\
  rows (merge_frames [hourly_pm25_frame]) = [] /\
  exists out,
    transform_files [hourly_pm2_5_file] = Ok out /\
    map (fun c => column c out) ["pm2_5"; "severity"; "risk"; "AQI"]
    = [[Obj (VFloat (F64.of_Z 10)); Obj (VFloat (F64.of_Z 600))];
       [nan_cell; nan_cell];
       [Obj (VStr "Low Risk"); Obj (VStr "Low Risk")];
       [Obj (VStr "Good"); Obj (VStr "Hazardous")]].
Proof.
  split; [vm_compute; reflexivity|].
  split; [reflexivity|].
  split; [vm_compute; reflexivity|].
  eexists. split; [vm_compute; reflexivity|].
  vm_compute; reflexivity.
Qed.

(* ===================================================================== *)
(** ** The output header *)

Lemma concat_canonical (frames : list DataFrame) :
  frames <> [] ->
  Forall (fun df => columns df = CANONICAL_COLS) frames ->
  columns (concat frames) = CANONICAL_COLS.
Proof.
  intros NE HF. unfold concat. simpl.
  apply (union_canonical columns frames NE HF).
Qed.

Section Header.
Context {RT : Runtime}.

Lemma merge_frames_columns (frames : list DataFrame) :
  columns (concat frames) = CANONICAL_COLS ->
  columns (merge_frames frames) = CANONICAL_COLS.
Proof.
  unfold merge_frames. destruct (concat frames) as [cols rs]. simpl.
  intros ->. reflexivity.
Qed.

Lemma derive_columns (df out : DataFrame) :
  columns df = CANONICAL_COLS -> derive df = Ok out ->
  columns out = SPEC_HEADER.
Proof.
  destruct df as [cols rs]. simpl. intros ->. unfold derive.
  destruct (dt_hour _) as [hours|e]; simpl; [|discriminate].
  intros H. inversion H. reflexivity.
Qed.

(** C8, at the failing input: without input files the run returns, and
    writes, an empty table whose tenth column is [aqi_category], not the
    [AQI] of the specified header, which is the header of every run that
    has data. *)
Theorem transform_files_empty_header :
  transform_files [] = Ok (empty_frame EMPTY_HEADER) /\
  EMPTY_HEADER <> SPEC_HEADER /\
  nth 9 EMPTY_HEADER "" = "aqi_category" /\
  nth 9 SPEC_HEADER "" = "AQI" /\
  (forall file_paths out,
     transform_files file_paths = Ok out ->
     out = empty_frame EMPTY_HEADER \/ columns out = SPEC_HEADER).
Proof.
  split; [reflexivity|]. split; [discriminate|].
  split; [reflexivity|]. split; [reflexivity|].
  intros file_paths out. unfold transform_files.
  destruct (for_each _ file_paths) as [frames|e] eqn:E; simpl; [|discriminate].
  destruct (filter _ frames) as [|df rest] eqn:F; simpl.
  - intros H. inversion H. left. reflexivity.
  - intros H. right. apply (derive_columns (merge_frames (df :: rest)));
      [|exact H].
    apply merge_frames_columns. apply concat_canonical; [discriminate|].
    rewrite <- F. apply Forall_forall. intros x Hx.
    apply filter_In in Hx. destruct Hx as [Hx _].
    assert (HF : Forall (fun df => columns df = CANONICAL_COLS) frames).
    { eapply for_each_Forall; [exact E|].
      intros fp y _ Hy. eapply flatten_city_json_columns. exact Hy. }
    rewrite Forall_forall in HF. auto.
Qed.

End Header.

(* ===================================================================== *)
(** * Further properties of the transform *)

(** ** Risk thresholds and monotone labels *)

Lemma leb_true_defined (x a : float) :
  F64.leb x a = true -> F64.is_nan x = false /\ F64.is_nan a = false.
Proof.
  destruct x, a; simpl; intros H; try discriminate H; auto.
Qed.

Lemma ltb_true_defined (a x : float) :
  F64.ltb a x = true -> F64.is_nan a = false /\ F64.is_nan x = false.
Proof.
  destruct x, a; simpl; intros H; try discriminate H; auto.
Qed.

Lemma ltb_false_leb (a x : float) :
  F64.is_nan a = false -> F64.is_nan x = false ->
  F64.ltb a x = false -> F64.leb x a = true.
Proof.
  intros Ha Hx. unfold F64.ltb, F64.leb, SFltb, SFleb.
  rewrite (SFcompare_antisym a x).
  destruct (SFcompare a x) as [[| |]|] eqn:E; simpl; try congruence.
  destruct (SFcompare_None _ _ E); congruence.
Qed.

Lemma ltb_leb_trans (a f g : float) :
  F64.ltb a f = true -> F64.leb f g = true -> F64.ltb a g = true.
Proof.
  intros Haf Hfg.
  destruct (ltb_true_defined _ _ Haf) as [Ha _].
  destruct (leb_true_defined _ _ Hfg) as [_ Hg].
  destruct (F64.ltb a g) eqn:E; [reflexivity|].
  pose proof (ltb_false_leb _ _ Ha Hg E) as Hga.
  pose proof (leb_trans _ _ _ Hfg Hga) as Hfa.
  rewrite (ltb_not_leb _ _ Haf) in Hfa. discriminate.
Qed.

Section Labels.
Context {RT : Runtime}.

(** [calculate_risk]: the thresholds are strict, so a score of exactly 400
    is "Moderate Risk" and one of exactly 200 is "Low Risk"; the result is
    [None] exactly when [float] rejects the argument, [None] included. *)
Theorem calculate_risk_bands (x : cell) :
  (calculate_risk x = None <-> exists e, py_float x = Raise e) /\
  (forall sev, py_float x = Ok sev ->
     ((F64.of_Z 400 <? sev)%f64 = true ->
      calculate_risk x = Some "High Risk") /\
     (F64.in_band (F64.of_Z 200) (F64.of_Z 400) sev = true ->
      calculate_risk x = Some "Moderate Risk") /\
     ((sev <=? F64.of_Z 200)%f64 = true ->
      calculate_risk x = Some "Low Risk")) /\
  calculate_risk (Obj VNone) = None /\
  calculate_risk (Obj (VInt 400)) = Some "Moderate Risk" /\
  calculate_risk (Obj (VInt 200)) = Some "Low Risk" /\
  calculate_risk (Obj (VInt 401)) = Some "High Risk".
Proof.
  assert (L : F64.leb (F64.of_Z 200) (F64.of_Z 400) = true) by reflexivity.
  split; [|split; [|repeat split; vm_compute; reflexivity]].
  - unfold calculate_risk. destruct (py_float x) as [sev|e].
    + split; [|intros [e H]; discriminate].
      destruct (_ <? sev)%f64; [discriminate|].
      destruct (_ <? sev)%f64; discriminate.
    + split; eauto.
  - intros sev H. unfold calculate_risk. rewrite H. repeat split.
    + intros ->. reflexivity.
    + intros B. apply andb_prop in B. destruct B as [B1 B2].
      destruct (F64.of_Z 400 <? sev)%f64 eqn:E.
      * rewrite (ltb_not_leb _ _ E) in B2. discriminate.
      * rewrite B1. reflexivity.
    + intros B.
      destruct (F64.of_Z 400 <? sev)%f64 eqn:E.
      * rewrite (ltb_leb_lower _ _ _ L E) in B. discriminate.
      * destruct (F64.of_Z 200 <? sev)%f64 eqn:E2; [|reflexivity].
        rewrite (ltb_not_leb _ _ E2) in B. discriminate.
Qed.

(** A larger pm2_5 never gets a better AQI category. *)
Theorem calculate_aqi_monotone (f g : float) :
  (f <=? g)%f64 = true ->
  (aqi_rank (calculate_aqi (Obj (VFloat f)))
   <= aqi_rank (calculate_aqi (Obj (VFloat g))))%nat.
Proof.
  intros H.
  assert (T : forall t, (g <=? t)%f64 = true -> (f <=? t)%f64 = true)
    by (intros t Ht; exact (leb_trans _ _ _ H Ht)).
  unfold calculate_aqi, is_None, py_float.
  destruct (g <=? F64.of_Z 50)%f64 eqn:G1; [rewrite (T _ G1); simpl; lia|].
  destruct (g <=? F64.of_Z 100)%f64 eqn:G2.
  { destruct (f <=? F64.of_Z 50)%f64; [simpl; lia|].
    rewrite (T _ G2). simpl. lia. }
  destruct (g <=? F64.of_Z 200)%f64 eqn:G3.
  { destruct (f <=? F64.of_Z 50)%f64; [simpl; lia|].
    destruct (f <=? F64.of_Z 100)%f64; [simpl; lia|].
    rewrite (T _ G3). simpl. lia. }
  destruct (g <=? F64.of_Z 300)%f64 eqn:G4.
  { destruct (f <=? F64.of_Z 50)%f64; [simpl; lia|].
    destruct (f <=? F64.of_Z 100)%f64; [simpl; lia|].
    destruct (f <=? F64.of_Z 200)%f64; [simpl; lia|].
    rewrite (T _ G4). simpl. lia. }
  destruct (f <=? F64.of_Z 50)%f64; [simpl; lia|].
  destruct (f <=? F64.of_Z 100)%f64; [simpl; lia|].
  destruct (f <=? F64.of_Z 200)%f64; [simpl; lia|].
  destruct (f <=? F64.of_Z 300)%f64; simpl; lia.
Qed.

(** A larger severity score never gets a lower risk flag. *)
Theorem calculate_risk_monotone (f g : float) :
  (f <=? g)%f64 = true ->
  (risk_rank (calculate_risk (Obj (VFloat f)))
   <= risk_rank (calculate_risk (Obj (VFloat g))))%nat.
Proof.
  intros H.
  assert (T : forall t, (t <? f)%f64 = true -> (t <? g)%f64 = true)
    by (intros t Ht; exact (ltb_leb_trans _ _ _ Ht H)).
  unfold calculate_risk, py_float.
  destruct (F64.of_Z 400 <? f)%f64 eqn:F1; [rewrite (T _ F1); simpl; lia|].
  destruct (F64.of_Z 200 <? f)%f64 eqn:F2.
  { rewrite (T _ F2). destruct (F64.of_Z 400 <? g)%f64; simpl; lia. }
  destruct (F64.of_Z 400 <? g)%f64; [simpl; lia|].
  destruct (F64.of_Z 200 <? g)%f64; simpl; lia.
Qed.

End Labels.

Lemma calculate_aqi_monotone_witness :
  (F64.of_Z 50 <=? F64.tenths 3001)%f64 = true /\
  (aqi_rank (calculate_aqi (Obj (VFloat (F64.of_Z 50))))
   <= aqi_rank (calculate_aqi (Obj (VFloat (F64.tenths 3001)))))%nat.
Proof.
  split; [reflexivity|].
  apply (calculate_aqi_monotone (F64.of_Z 50) (F64.tenths 3001)).
  reflexivity.
Defined.

Lemma calculate_risk_monotone_witness :
  (F64.of_Z 200 <=? F64.of_Z 401)%f64 = true /\
  (risk_rank (calculate_risk (Obj (VFloat (F64.of_Z 200))))
   <= risk_rank (calculate_risk (Obj (VFloat (F64.of_Z 401)))))%nat.
Proof.
  split; [reflexivity|].
  apply (calculate_risk_monotone (F64.of_Z 200) (F64.of_Z 401)).
  reflexivity.
Defined.

(* ===================================================================== *)
(** ** The city token of a file name *)

Lemma cased_not_underscore (c : ascii) :
  Ascii.eqb c "_" = false ->
  Ascii.eqb (to_lower c) "_" = false /\ Ascii.eqb (to_upper c) "_" = false.
Proof.
  destruct c as [[] [] [] [] [] [] [] []]; vm_compute; intros H;
    try discriminate H; split; reflexivity.
Qed.

Lemma title_from_length (b : bool) (s : string) :
  String.length (title_from b s) = String.length s.
Proof.
  revert b. induction s as [|c s IH]; intros b; simpl; [reflexivity|].
  destruct (orb (is_upper c) (is_lower c)); simpl; rewrite IH; reflexivity.
Qed.

Lemma title_from_contains (b : bool) (s : string) :
  contains "_" s = false -> contains "_" (title_from b s) = false.
Proof.
  revert b. induction s as [|c s IH]; intros b; simpl; [reflexivity|].
  intros H. apply orb_false_elim in H. destruct H as [Hc Hs].
  destruct (cased_not_underscore c Hc) as [Hl Hu].
  destruct (orb (is_upper c) (is_lower c)); simpl.
  - destruct b; rewrite ?Hl, ?Hu; simpl; apply IH; exact Hs.
  - rewrite Hc. simpl. apply IH. exact Hs.
Qed.

Lemma replace_underscore_contains (s : string) :
  contains "_" (replace_char "_" " " s) = false.
Proof.
  induction s as [|c s IH]; simpl; [reflexivity|].
  rewrite IH. destruct (Ascii.eqb c "_") eqn:E; [reflexivity|].
  rewrite E. reflexivity.
Qed.

Lemma replace_char_length (a b : ascii) (s : string) :
  String.length (replace_char a b s) = String.length s.
Proof.
  induction s as [|c s IH]; simpl; [reflexivity|]. rewrite IH. reflexivity.
Qed.

(** For a file name of ASCII characters, a city taken from the file name
    is never empty, has no underscore left, and has as many characters as
    the part of the stem before the first [_raw_]. *)
Theorem city_from_filename_clean (p : Path) (city : string) :
  is_ascii (stem p) = true ->
  _infer_city_from_filename p = Some city ->
  city <> "" /\
  contains "_" city = false /\
  String.length city = String.length (hd "" (split "_raw_" (stem p))).
Proof.
  intros _ H. pose proof (infer_city_from_filename_spec p) as S.
  rewrite H in S. simpl in S. unfold filename_candidate in S.
  destruct (String.eqb (hd "" (split "_raw_" (stem p))) "") eqn:E;
    [discriminate|].
  inversion S as [S']. clear S.
  assert (L : String.length (title (replace_char "_" " "
                (hd "" (split "_raw_" (stem p)))))
              = String.length (hd "" (split "_raw_" (stem p)))).
  { unfold title. rewrite title_from_length, replace_char_length.
    reflexivity. }
  split; [|split].
  - intros Z. rewrite Z in L. simpl in L.
    destruct (hd "" (split "_raw_" (stem p))); [discriminate E|discriminate L].
  - unfold title. apply title_from_contains. apply replace_underscore_contains.
  - exact L.
Qed.

Lemma city_from_filename_clean_witness :
  is_ascii (stem delhi_path) = true /\
  _infer_city_from_filename delhi_path = Some "New Delhi" /\
  "New Delhi" <> "" /\
  contains "_" "New Delhi" = false /\
  String.length "New Delhi"
  = String.length (hd "" (split "_raw_" (stem delhi_path))).
Proof.
  split; [reflexivity|]. split; [reflexivity|].
  apply (city_from_filename_clean delhi_path "New Delhi"); reflexivity.
Defined.

(* ===================================================================== *)
(** ** Reading measurements *)

(** The time of a measurement: a truthy [lastUpdated] wins and nothing
    else is looked at; otherwise a falsy [date] is returned as it is, a
    [date] object gives its [utc] when that is truthy and itself when not,
    and a truthy [date] that is not an object, such as a string, raises
    [AttributeError]: the trailing [or m.get("date")] never delivers it. *)
Theorem measurement_time_cases (m : dict) :
  (truthy (get m "lastUpdated") = true ->
   measurement_time m = Ok (get m "lastUpdated")) /\
  (truthy (get m "lastUpdated") = false ->
   (truthy (get m "date") = false ->
    measurement_time m = Ok (get m "date")) /\
   (forall d, get m "date" = VDict d -> d <> [] ->
    measurement_time m
    = Ok (if truthy (get d "utc") then get d "utc" else VDict d)) /\
   (truthy (get m "date") = true -> is_dict (get m "date") = false ->
    measurement_time m = Raise AttributeError)).
Proof.
  unfold measurement_time. split; [intros ->; reflexivity|].
  intros ->. split; [|split].
  - intros E. rewrite E. simpl. rewrite E. reflexivity.
  - intros d E NE.
    assert (T : truthy (get m "date") = true)
      by (rewrite E; destruct d; [contradiction|reflexivity]).
    rewrite T. unfold subscript. rewrite (truthy_get_lookup _ _ T), E.
    simpl. destruct (truthy (get d "utc")); reflexivity.
  - intros T D. rewrite T. unfold subscript.
    rewrite (truthy_get_lookup _ _ T).
    destruct (get m "date"); try reflexivity. discriminate D.
Qed.

Lemma walk_list_cons (x : pyval) (l : list pyval) :
  _walk_for_measurements (VList (x :: l))
  = _walk_for_measurements x ++ _walk_for_measurements (VList l).
Proof. reflexivity. Qed.

Lemma walk_dict_cons (k : string) (v : pyval) (d : dict) :
  _walk_for_measurements (VDict ((k, v) :: d))
  = (if andb (is_measurements_key k) (is_list v)
     then match v with VList l => l | _ => [] end
     else _walk_for_measurements v)
    ++ _walk_for_measurements (VDict d).
Proof.
  destruct v; simpl; rewrite ?andb_false_r; try reflexivity.
  rewrite andb_true_r. destruct (is_measurements_key k); reflexivity.
Qed.

(** The walk yields, in order, what it yields for each item of a list and
    for each entry of a dict; under a key spelled [measurements] or
    [values] in any case it yields the elements of a list as they are,
    without descending into them; a scalar yields nothing. *)
Theorem walk_for_measurements_compose :
  (forall a b,
     _walk_for_measurements (VList (a ++ b))
     = _walk_for_measurements (VList a) ++ _walk_for_measurements (VList b))
  /\
  (forall a b,
     _walk_for_measurements (VDict (a ++ b))
     = _walk_for_measurements (VDict a) ++ _walk_for_measurements (VDict b))
  /\
  (forall k l,
     String.eqb (lower k) "measurements" = true \/
     String.eqb (lower k) "values" = true ->
     _walk_for_measurements (VDict [(k, VList l)]) = l) /\
  (forall k v,
     is_measurements_key k = false \/ is_list v = false ->
     _walk_for_measurements (VDict [(k, v)]) = _walk_for_measurements v) /\
  (forall v,
     is_dict v = false -> is_list v = false -> _walk_for_measurements v = []).
Proof.
  split; [|split; [|split; [|split]]].
  - intros a b. induction a as [|x a IH]; [reflexivity|].
    rewrite <- app_comm_cons, !walk_list_cons, IH, app_assoc. reflexivity.
  - intros a b. induction a as [|[k v] a IH]; [reflexivity|].
    rewrite <- app_comm_cons, !walk_dict_cons, IH, app_assoc. reflexivity.
  - intros k l H. rewrite walk_dict_cons. unfold is_measurements_key.
    destruct H as [-> | ->]; rewrite ?orb_true_r; simpl; apply app_nil_r.
  - intros k v H. rewrite walk_dict_cons.
    destruct H as [-> | ->]; rewrite ?andb_false_r; simpl; apply app_nil_r.
  - intros v D L. destruct v; try reflexivity; discriminate.
Qed.

(* ===================================================================== *)
(** ** The hourly-arrays case, column by column *)

Section HourlyColumns.
Context {RT : Runtime}.

Lemma hourly_record_closed (city : pyval) (hourly : dict) (i : nat)
  (t : pyval) :
  hourly_record city hourly i t
  = (time <- to_datetime t ;;
     Ok [("city", Obj city); ("time", time);
         ("pm10", hourly_value hourly i "pm10" "pm10");
         ("pm2_5", hourly_value hourly i "pm2_5" "pm2_5");
         ("carbon_monoxide", hourly_value hourly i "co" "carbon_monoxide");
         ("nitrogen_dioxide", hourly_value hourly i "no2" "nitrogen_dioxide");
         ("sulphur_dioxide", hourly_value hourly i "so2" "sulphur_dioxide");
         ("ozone", hourly_value hourly i "o3" "ozone");
         ("uv_index", hourly_value hourly i "uv" "uv_index")]).
Proof.
  unfold hourly_record. destruct (to_datetime t); reflexivity.
Qed.

Lemma hourly_records_columns (city : pyval) (hourly : dict)
  (items : list pyval) (records : list row) (n : nat) :
  for_each (fun it => hourly_record city hourly (fst it) (snd it))
    (combine (seq n (List.length items)) items) = Ok records ->
  List.length records = List.length items /\
  map (fun r => row_get r "city" nan_cell)
    (map (reindex CANONICAL_COLS) records)
  = map (fun _ => Obj city) items /\
  forall col, In col POLLUTANT_COLS ->
    map (fun r => row_get r col nan_cell)
      (map (reindex CANONICAL_COLS) records)
    = map (fun i => hourly_value hourly i (last_source col) col)
        (seq n (List.length items)).
Proof.
  revert n records. induction items as [|t items IH]; simpl;
    intros n records H.
  - inversion H. simpl. auto.
  - rewrite hourly_record_closed in H.
    destruct (to_datetime t) as [time|e]; simpl in H; [|discriminate].
    destruct (for_each _ (combine (seq (S n) _) items)) as [rs|e] eqn:Ers;
      simpl in H; [|discriminate].
    inversion H; subst; clear H.
    destruct (IH _ _ Ers) as (L & C & P).
    split; [simpl; rewrite L; reflexivity|].
    split; [simpl; rewrite C; reflexivity|].
    intros col Hin. simpl map. rewrite (P col Hin).
    f_equal. unfold POLLUTANT_COLS in Hin. simpl in Hin.
    repeat (destruct Hin as [<-|Hin]; [reflexivity|]). contradiction.
Qed.

(** The frame of the hourly-arrays case has one row per element of
    [hourly.time], in order; every row carries the resolved city; and the
    pollutant column [col] holds, for the row of index [i], what
    [pd.DataFrame] makes of the value the loop stored: the element of index
    [i] of the list under the key the last mapping pair of [col] names, or
    under [col] itself when that key is missing, and [None] when what is
    found there is not a list or is too short. *)
Theorem flatten_hourly_columns (city : pyval) (hourly : dict)
  (items : list pyval) (df : DataFrame) :
  truthy (get hourly "time") = true ->
  py_iter (get hourly "time") = Ok items ->
  flatten_hourly city hourly = Ok df ->
  List.length (rows df) = List.length items /\
  column "city" df = map (fun _ => Obj city) items /\
  (forall col, In col POLLUTANT_COLS ->
     Forall2 cast_of
       (map (fun i => hourly_value hourly i (last_source col) col)
          (seq 0 (List.length items)))
       (column col df)) /\
  map last_source POLLUTANT_COLS
  = ["pm10"; "pm2_5"; "co"; "no2"; "so2"; "o3"; "uv"] /\
  (forall i src col,
     hourly_value hourly i src col
     = match (if has_key src hourly then get hourly src
              else get hourly col) with
       | VList l =>
           match nth_error l i with
           | Some v => Obj v
           | None => Obj VNone
           end
       | _ => Obj VNone
       end).
Proof.
  intros T Ei H.
  destruct (flatten_hourly_frame _ _ _ T H) as (items' & records & Ei' & Er & ->).
  rewrite Ei in Ei'. inversion Ei'; subst items'. clear Ei'.
  unfold enumerate in Er.
  destruct (hourly_records_columns _ _ _ _ _ Er) as (L & C & P).
  unfold column. simpl rows. rewrite length_map.
  split; [exact L|]. split; [exact C|]. split; [|split; [reflexivity|]].
  - intros col Hc. rewrite (P col Hc).
    generalize (map (fun i => hourly_value hourly i (last_source col) col)
                  (seq 0 (List.length items))) as l.
    induction l as [|x l IH]; constructor; [left; reflexivity|exact IH].
  - intros i src col. unfold hourly_value.
    destruct (has_key src hourly); [reflexivity|].
    unfold has_key, get. destruct (lookup col hourly); reflexivity.
Qed.

Lemma hourly_value_agree (h1 h2 : dict) (i : nat) (src col : string) :
  lookup src h1 = lookup src h2 -> lookup col h1 = lookup col h2 ->
  hourly_value h1 i src col = hourly_value h2 i src col.
Proof.
  intros E1 E2. unfold hourly_value, has_key, get. rewrite E1, E2.
  reflexivity.
Qed.

Lemma for_each_ext {A B} (f g : A -> result B) (xs : list A) :
  (forall x, f x = g x) -> for_each f xs = for_each g xs.
Proof.
  intros E. induction xs as [|x xs IH]; simpl; [reflexivity|].
  rewrite E, IH. reflexivity.
Qed.

(** The hourly-arrays case never reads the arrays under the aliases [pm25]
    and [uvi]: two [hourly] blocks that agree on every other key give the
    same result. *)
Theorem flatten_hourly_ignores_aliases (city : pyval) (h1 h2 : dict) :
  (forall k, k <> "pm25" -> k <> "uvi" -> lookup k h1 = lookup k h2) ->
  flatten_hourly city h1 = flatten_hourly city h2.
Proof.
  intros A.
  assert (L : forall k, String.eqb k "pm25" = false ->
                        String.eqb k "uvi" = false ->
                        lookup k h1 = lookup k h2).
  { intros k E1 E2. apply A; intros ->; discriminate. }
  unfold flatten_hourly.
  assert (G : get h1 "time" = get h2 "time")
    by (unfold get; rewrite (L "time" eq_refl eq_refl); reflexivity).
  rewrite G. destruct (py_iter (get h2 "time")) as [items|e]; [|reflexivity].
  simpl. erewrite for_each_ext; [reflexivity|].
  intros [i t]. simpl. rewrite !hourly_record_closed.
  repeat match goal with
         | |- context [hourly_value h1 i ?s ?c] =>
             rewrite (hourly_value_agree h1 h2 i s c
                        (L s eq_refl eq_refl) (L c eq_refl eq_refl))
         end.
  reflexivity.
Qed.

End HourlyColumns.

Lemma flatten_hourly_columns_witness :
  (truthy (get hourly_short "time") = true /\
   py_iter (get hourly_short "time")
   = Ok [VStr "2024-01-01T00:00:00Z"; VStr "2024-01-01T01:00:00Z"] /\
   flatten_hourly (VStr "New Delhi") hourly_short = Ok hourly_short_frame) /\
  (map (fun i => hourly_value hourly_short i "pm2_5" "pm2_5") [0; 1]%nat
   = [Obj (VInt 10); Obj VNone] /\
   map (fun i => hourly_value hourly_short i "co" "carbon_monoxide")
     [0; 1]%nat
   = [Obj (VInt 1); Obj (VInt 2)] /\
   map (fun i => hourly_value hourly_short i "o3" "ozone") [0; 1]%nat
   = [Obj VNone; Obj VNone]) /\
  List.length (rows hourly_short_frame) = 2%nat /\
  column "city" hourly_short_frame
  = [Obj (VStr "New Delhi"); Obj (VStr "New Delhi")] /\
  (forall col, In col POLLUTANT_COLS ->
     Forall2 cast_of
       (map (fun i => hourly_value hourly_short i (last_source col) col)
          [0; 1]%nat)
       (column col hourly_short_frame)).
Proof.
  assert (T : truthy (get hourly_short "time") = true) by reflexivity.
  assert (I : py_iter (get hourly_short "time")
              = Ok [VStr "2024-01-01T00:00:00Z"; VStr "2024-01-01T01:00:00Z"])
    by reflexivity.
  assert (F : flatten_hourly (VStr "New Delhi") hourly_short
              = Ok hourly_short_frame) by (vm_compute; reflexivity).
  split; [split; [exact T|split; [exact I|exact F]]|].
  split; [repeat split; vm_compute; reflexivity|].
  destruct (flatten_hourly_columns (VStr "New Delhi") hourly_short
              [VStr "2024-01-01T00:00:00Z"; VStr "2024-01-01T01:00:00Z"]
              hourly_short_frame T I F)
    as (L & C & P & _).
  split; [exact L|]. split; [exact C|exact P].
Defined.

Lemma flatten_hourly_ignores_aliases_witness :
  (forall k, k <> "pm25" -> k <> "uvi" ->
             lookup k hourly_with_alias = lookup k hourly_without_alias) /\
  flatten_hourly (VStr "New Delhi") hourly_with_alias
  = flatten_hourly (VStr "New Delhi") hourly_without_alias.
Proof.
  assert (H : forall k, k <> "pm25" -> k <> "uvi" ->
              lookup k hourly_with_alias = lookup k hourly_without_alias).
  { intros k N _. unfold hourly_with_alias, hourly_without_alias, lookup.
    destruct (String.eqb k "time"); [reflexivity|].
    destruct (String.eqb_spec k "pm25"); [contradiction|reflexivity]. }
  split; [exact H|].
  apply (flatten_hourly_ignores_aliases (VStr "New Delhi")
           hourly_with_alias hourly_without_alias H).
Defined.

(* ===================================================================== *)
(** ** What the hourly aggregation computes *)

Section GroupSpec.
Variables K V : Type.
Variable eqb : K -> K -> bool.
Hypothesis eqb_eq : forall a b, eqb a b = true <-> a = b.

Lemma eqb_same (k : K) : eqb k k = true.
Proof. apply eqb_eq. reflexivity. Qed.

Lemma eqb_other (a b : K) : a <> b -> eqb a b = false.
Proof.
  intros N. destruct (eqb a b) eqn:E; [|reflexivity].
  apply eqb_eq in E. contradiction.
Qed.

Lemma members_snoc (k' k : K) (v : V) (seen : list (K * V)) :
  members eqb k' (seen ++ [(k, v)])
  = if eqb k' k then members eqb k' seen ++ [v] else members eqb k' seen.
Proof.
  unfold members. rewrite filter_app, map_app. simpl.
  destruct (eqb k' k); simpl; [reflexivity|apply app_nil_r].
Qed.

Lemma members_none (k : K) (seen : list (K * V)) :
  ~ In k (map fst seen) -> members eqb k seen = [].
Proof.
  unfold members. induction seen as [|[k0 v0] seen IH]; simpl; intros N;
    [reflexivity|].
  rewrite eqb_other by (intros ->; apply N; auto).
  apply IH. intros H. apply N. auto.
Qed.

Lemma group_add_cases (k : K) (v : V) (groups : list (K * list V))
  (k' : K) (vs' : list V) :
  NoDup (map fst groups) ->
  In (k', vs') (group_add eqb k v groups) ->
  (k' <> k /\ In (k', vs') groups) \/
  (k' = k /\
   ((exists vs, In (k, vs) groups /\ vs' = vs ++ [v]) \/
    (~ In k (map fst groups) /\ vs' = [v]))).
Proof.
  induction groups as [|[k0 vs0] rest IH]; simpl; intros ND H.
  - destruct H as [H|[]]. inversion H; subst. right. split; auto.
  - inversion ND as [|? ? Hnotin ND']; subst.
    destruct (eqb k0 k) eqn:E.
    + apply eqb_eq in E. subst k0. destruct H as [H|H].
      * inversion H; subst. right. split; [reflexivity|]. left. eauto.
      * left. split; [|auto]. intros ->. apply Hnotin.
        apply in_map_iff. exists (k, vs'). auto.
    + assert (N : k0 <> k)
        by (intros ->; rewrite eqb_same in E; discriminate).
      destruct H as [H|H].
      * inversion H; subst. left. auto.
      * destruct (IH ND' H) as [[N' Hin]|[-> [(vs & Hin & ->)|[Hn ->]]]].
        -- left. auto.
        -- right. split; [reflexivity|]. left. eauto.
        -- right. split; [reflexivity|]. right. split; [|reflexivity].
           intros [Hk|Hk]; [contradiction|]. contradiction.
Qed.

Lemma group_add_keeps_keys (k : K) (v : V) (groups : list (K * list V))
  (x : K) :
  In x (map fst groups) \/ x = k ->
  In x (map fst (group_add eqb k v groups)).
Proof.
  induction groups as [|[k0 vs0] rest IH]; simpl.
  - intros [[] | ->]. auto.
  - destruct (eqb k0 k) eqn:E; simpl.
    + apply eqb_eq in E. subst k0. intros [[H|H]|H]; auto.
    + intros [[H|H]|H]; auto.
Qed.

Lemma group_add_grouped (k : K) (v : V) (groups : list (K * list V))
  (seen : list (K * V)) :
  grouped eqb groups seen ->
  grouped eqb (group_add eqb k v groups) (seen ++ [(k, v)]).
Proof.
  intros (ND & M & C). split; [|split].
  - apply group_add_NoDup; [exact eqb_same|exact ND].
  - intros k' vs' H. rewrite members_snoc.
    destruct (group_add_cases _ _ _ _ _ ND H)
      as [[N Hin]|[-> [(vs & Hin & ->)|[Hn ->]]]].
    + rewrite (eqb_other _ _ N). apply M. exact Hin.
    + rewrite eqb_same. destruct (M _ _ Hin) as [-> _].
      split; [reflexivity|]. intros Z. apply app_eq_nil in Z.
      destruct Z as [_ Z]. discriminate.
    + rewrite eqb_same. rewrite members_none; [split; [reflexivity|discriminate]|].
      intros Hk. apply Hn. apply in_map_iff in Hk.
      destruct Hk as (kv & <- & Hkv). apply C. exact Hkv.
  - intros kv H. apply in_app_or in H. apply group_add_keeps_keys.
    destruct H as [H | [<- | []]];
      [left; apply C; exact H|right; reflexivity].
Qed.

Lemma group_by_grouped (l : list (K * V)) : grouped eqb (group_by eqb l) l.
Proof.
  unfold group_by.
  assert (G : forall groups seen,
             grouped eqb groups seen ->
             grouped eqb
               (fold_left
                  (fun groups kv => group_add eqb (fst kv) (snd kv) groups)
                  l groups)
               (seen ++ l)).
  { induction l as [|[k v] l IH]; simpl; intros groups seen H.
    - rewrite app_nil_r. exact H.
    - replace (seen ++ (k, v) :: l) with ((seen ++ [(k, v)]) ++ l)
        by (rewrite <- app_assoc; reflexivity).
      apply IH. apply group_add_grouped. exact H. }
  apply (G [] []). split; [constructor|]. split; intros ? ; intros; contradiction.
Qed.

Lemma members_In (k : K) (v : V) (l : list (K * V)) :
  In (k, v) l -> In v (members eqb k l).
Proof.
  intros H. unfold members. apply in_map_iff. exists (k, v).
  split; [reflexivity|]. apply filter_In. split; [exact H|apply eqb_same].
Qed.

Lemma In_members (k : K) (v : V) (l : list (K * V)) :
  In v (members eqb k l) -> In (k, v) l.
Proof.
  unfold members. intros H. apply in_map_iff in H.
  destruct H as ([k0 v0] & <- & H). apply filter_In in H.
  destruct H as [H E]. apply eqb_eq in E. simpl in E. subst k0. exact H.
Qed.

End GroupSpec.

Lemma insert_by_In {A} (leb : A -> A -> bool) (x y : A) (l : list A) :
  y = x \/ In y l -> In y (insert_by leb x l).
Proof.
  induction l as [|z l IH]; simpl.
  - intros [H|[]]; auto.
  - destruct (leb x z); simpl; intros [H|[H|H]]; auto.
Qed.

Lemma sort_by_In {A} (leb : A -> A -> bool) (y : A) (l : list A) :
  In y l -> In y (sort_by leb l).
Proof.
  induction l as [|x l IH]; simpl; [auto|].
  intros [H|H]; apply insert_by_In; auto.
Qed.

Lemma float_same_eq (f g : float) : float_same f g = true <-> f = g.
Proof.
  split; [|intros ->; apply float_same_refl].
  destruct f as [a|a| |a m e], g as [b|b| |b m' e']; simpl; intros H;
    try discriminate H; try reflexivity.
  - apply Bool.eqb_prop in H. subst. reflexivity.
  - apply Bool.eqb_prop in H. subst. reflexivity.
  - apply andb_prop in H. destruct H as [H1 H2].
    apply andb_prop in H2. destruct H2 as [H2 H3].
    apply Bool.eqb_prop in H1. apply Pos.eqb_eq in H2. apply Z.eqb_eq in H3.
    subst. reflexivity.
Qed.

Lemma key_eqb_eq (a b : key) : key_eqb a b = true <-> a = b.
Proof.
  split; [|intros ->; apply key_eqb_refl].
  destruct a, b; simpl; intros H; try discriminate H.
  - apply Z.eqb_eq in H. subst. reflexivity.
  - apply float_same_eq in H. subst. reflexivity.
  - apply String.eqb_eq in H. subst. reflexivity.
Qed.

Lemma key2_eqb_eq (a b : key2) : key2_eqb a b = true <-> a = b.
Proof.
  split; [|intros ->; apply key2_eqb_refl].
  destruct a as [k h], b as [k' h']. unfold key2_eqb. simpl. intros H.
  apply andb_prop in H. destruct H as [H1 H2].
  apply key_eqb_eq in H1. apply Z.eqb_eq in H2. subst. reflexivity.
Qed.

Lemma key3_eqb_eq (a b : key3) : key3_eqb a b = true <-> a = b.
Proof.
  destruct a as [[k h] p], b as [[k' h'] p']. unfold key3_eqb. simpl.
  split.
  - intros H. apply andb_prop in H. destruct H as [H1 H2].
    apply andb_prop in H2. destruct H2 as [H2 H3].
    apply key_eqb_eq in H1. apply Z.eqb_eq in H2. apply String.eqb_eq in H3.
    subst. reflexivity.
  - intros H. inversion H; subst.
    rewrite key_eqb_refl, Z.eqb_refl, String.eqb_refl. reflexivity.
Qed.

(** The mean of 0.1, 0.2 and 0.3 is the double below 0.2, where the plain
    sum from left to right gives the double above it. *)
Example mean_is_compensated :
  mean [F64.tenths 1; F64.tenths 2; F64.tenths 3]
  = S754_finite false 7205759403792793 (-55) /\
  F64.tenths 2 = S754_finite false 7205759403792794 (-55) /\
  F64.div
    (fold_left F64.add [F64.tenths 1; F64.tenths 2; F64.tenths 3] F64.zero)
    (F64.of_Z 3)
  = S754_finite false 7205759403792795 (-55).
Proof. repeat split; vm_compute; reflexivity. Qed.

(** The value a pivot row shows for a parameter is the mean of the
    [value_num] of exactly the readings of that city, hour and parameter,
    and it is not NaN; no row is without a value; and every city, hour and
    parameter whose mean is not NaN is in the pivot. *)
Theorem hourly_aggregate_means (dfm : list Reading) (pv : list PivotRow) :
  hourly_aggregate dfm = Ok pv ->
  exists keyed,
    keyed_readings dfm = Ok keyed /\
    (forall r p m, In r pv -> In (p, m) (pv_values r) ->
       m = mean (map snd
                   (members key3_eqb (pv_key r, pv_time_hour r, p) keyed)) /\
       F64.is_nan m = false) /\
    (forall r, In r pv -> pv_values r <> []) /\
    (forall k v, In (k, v) keyed ->
       F64.is_nan (mean (map snd (members key3_eqb k keyed))) = false ->
       exists r, In r pv /\ pv_key r = fst (fst k) /\
                 pv_time_hour r = snd (fst k) /\
                 In (snd k, mean (map snd (members key3_eqb k keyed)))
                    (pv_values r)).
Proof.
  unfold hourly_aggregate.
  destruct (keyed_readings dfm) as [keyed|e]; simpl; [|discriminate].
  destruct (orb _ _); [discriminate|].
  intros H. inversion H; subst; clear H.
  exists keyed. split; [reflexivity|].
  destruct (group_by_grouped _ _ key3_eqb key3_eqb_eq keyed) as (_ & M3 & C3).
  set (means := group_means keyed).
  set (kept := filter (fun e : key3 * (pyval * float) =>
                         negb (F64.is_nan (snd (snd e)))) means).
  set (l2 := map (fun e : key3 * (pyval * float) =>
                    (fst (fst e), (fst (snd e), (snd (fst e), snd (snd e)))))
               kept).
  destruct (group_by_grouped _ _ key2_eqb key2_eqb_eq l2) as (_ & M2 & C2).
  assert (Hmeans : forall e, In e means <->
            exists k3 vs, In (k3, vs) (group_by key3_eqb keyed) /\
              e = (k3, (hd VNone (map fst vs), mean (map snd vs)))).
  { intros e. unfold means, group_means. split.
    - intros He. apply In_sort_by in He. apply in_map_iff in He.
      destruct He as ([k3 vs] & <- & Hg). eauto.
    - intros (k3 & vs & Hg & ->). apply sort_by_In. apply in_map_iff.
      exists (k3, vs). auto. }
  assert (Hrow : forall r, In r (pivot_rows means) <->
            exists k2 ws, In (k2, ws) (group_by key2_eqb l2) /\
              r = {| pv_city := hd VNone (map fst ws); pv_key := fst k2;
                     pv_time_hour := snd k2; pv_values := map snd ws |}).
  { intros r. unfold pivot_rows. fold kept. fold l2. split.
    - intros Hr. apply in_map_iff in Hr. destruct Hr as ([k2 ws] & <- & Hg).
      eauto.
    - intros (k2 & ws & Hg & ->). apply in_map_iff. exists (k2, ws). auto. }
  split; [|split].
  - intros r p m Hr Hpm. apply Hrow in Hr.
    destruct Hr as ([k h] & ws & Hg & ->). simpl in *.
    destruct (M2 _ _ Hg) as [-> _].
    apply in_map_iff in Hpm. destruct Hpm as ([c pm] & Heq & Hw).
    simpl in Heq. subst pm.
    apply (In_members _ _ key2_eqb key2_eqb_eq) in Hw.
    unfold l2 in Hw. apply in_map_iff in Hw.
    destruct Hw as ([[[k' h'] p'] [c' m']] & Heq & Hk). simpl in Heq.
    inversion Heq; subst; clear Heq.
    unfold kept in Hk. apply filter_In in Hk. destruct Hk as [Hm Hn].
    simpl in Hn. apply negb_true_iff in Hn.
    apply Hmeans in Hm. destruct Hm as (k3 & vs & Hg3 & Heq).
    inversion Heq; subst; clear Heq.
    destruct (M3 _ _ Hg3) as [-> _].
    split; [reflexivity|exact Hn].
  - intros r Hr. apply Hrow in Hr. destruct Hr as (k2 & ws & Hg & ->).
    simpl. destruct (M2 _ _ Hg) as [_ NE].
    destruct ws; [contradiction|discriminate].
  - intros [[k h] p] v Hin Hn. simpl.
    pose proof (C3 _ Hin) as Hk. simpl in Hk. apply in_map_iff in Hk.
    destruct Hk as ([k3 vs] & Heq & Hg3). simpl in Heq. subst k3.
    destruct (M3 _ _ Hg3) as [Evs _].
    set (m := mean (map snd (members key3_eqb (k, h, p) keyed))) in *.
    assert (He : In ((k, h, p), (hd VNone (map fst vs), m)) means).
    { apply Hmeans. exists (k, h, p), vs. split; [exact Hg3|].
      unfold m. rewrite <- Evs. reflexivity. }
    assert (Hkept : In ((k, h, p), (hd VNone (map fst vs), m)) kept).
    { unfold kept. apply filter_In. split; [exact He|]. simpl.
      rewrite Hn. reflexivity. }
    assert (Hl2 : In ((k, h), (hd VNone (map fst vs), (p, m))) l2).
    { unfold l2. apply in_map_iff.
      exists ((k, h, p), (hd VNone (map fst vs), m)). auto. }
    pose proof (C2 _ Hl2) as Hk2. simpl in Hk2. apply in_map_iff in Hk2.
    destruct Hk2 as ([k2 ws] & Heq & Hg2). simpl in Heq. subst k2.
    destruct (M2 _ _ Hg2) as [Ews _].
    exists {| pv_city := hd VNone (map fst ws); pv_key := k;
              pv_time_hour := h; pv_values := map snd ws |}.
    split; [apply Hrow; exists (k, h), ws; auto|].
    simpl. split; [reflexivity|]. split; [reflexivity|].
    apply in_map_iff. exists (hd VNone (map fst vs), (p, m)).
    split; [reflexivity|]. rewrite Ews.
    apply (members_In _ _ key2_eqb key2_eqb_eq). exact Hl2.
Qed.

Lemma hourly_aggregate_means_witness :
  hourly_aggregate pune_readings = Ok pune_pivot /\
  exists keyed,
    keyed_readings pune_readings = Ok keyed /\
    (forall r p m, In r pune_pivot -> In (p, m) (pv_values r) ->
       m = mean (map snd
                   (members key3_eqb (pv_key r, pv_time_hour r, p) keyed)) /\
       F64.is_nan m = false) /\
    (forall r, In r pune_pivot -> pv_values r <> []) /\
    (forall k v, In (k, v) keyed ->
       F64.is_nan (mean (map snd (members key3_eqb k keyed))) = false ->
       exists r, In r pune_pivot /\ pv_key r = fst (fst k) /\
                 pv_time_hour r = snd (fst k) /\
                 In (snd k, mean (map snd (members key3_eqb k keyed)))
                    (pv_values r)).
Proof.
  split; [vm_compute; reflexivity|].
  apply (hourly_aggregate_means pune_readings pune_pivot).
  vm_compute; reflexivity.
Defined.

(* ===================================================================== *)
(** ** Runs over several files *)

Lemma for_each_app {A B} (f : A -> result B) (xs ys : list A) :
  for_each f (xs ++ ys)
  = (a <- for_each f xs ;; b <- for_each f ys ;; Ok (a ++ b)).
Proof.
  induction xs as [|x xs IH]; simpl.
  - destruct (for_each f ys); reflexivity.
  - destruct (f x) as [y|e]; simpl; [|reflexivity].
    rewrite IH. destruct (for_each f xs) as [a|e]; simpl; [|reflexivity].
    destruct (for_each f ys); reflexivity.
Qed.

Section Runs.
Context {RT : Runtime}.

(** One file that makes [flatten_city_json] raise ends the whole run with
    that exception, whatever the files after it hold: nothing is written
    for the files before it either. *)
Theorem transform_files_aborts (before after : list File) (bad : File)
  (e : exn) (frames : list DataFrame) :
  for_each (fun fp => flatten_city_json fp None) before = Ok frames ->
  flatten_city_json bad None = Raise e ->
  transform_files (before ++ bad :: after) = Raise e.
Proof.
  intros Hb He. unfold transform_files. rewrite for_each_app, Hb. simpl.
  rewrite He. reflexivity.
Qed.

(** A file whose frame is empty does not change the result of the run. *)
Theorem transform_files_skips_empty (before after : list File) (f : File)
  (df : DataFrame) :
  flatten_city_json f None = Ok df -> df_empty df = true ->
  transform_files (before ++ f :: after) = transform_files (before ++ after).
Proof.
  intros Hf He. unfold transform_files. rewrite !for_each_app. simpl.
  rewrite Hf. simpl.
  destruct (for_each _ before) as [a|e]; simpl; [|reflexivity].
  destruct (for_each _ after) as [b|e]; simpl; [|reflexivity].
  rewrite !filter_app. simpl. rewrite He. reflexivity.
Qed.

End Runs.

Lemma transform_files_aborts_witness :
  (for_each (fun fp => flatten_city_json fp None) [pune_v2_file]
   = Ok [pune_v2_frame] /\
   flatten_city_json unparseable_file None = Raise JSONDecodeError) /\
  transform_files ([pune_v2_file] ++ unparseable_file :: [hourly_pm2_5_file])
  = Raise JSONDecodeError.
Proof.
  split; [split; vm_compute; reflexivity|].
  apply (transform_files_aborts [pune_v2_file] [hourly_pm2_5_file]
           unparseable_file JSONDecodeError [pune_v2_frame]);
    vm_compute; reflexivity.
Defined.

Lemma transform_files_skips_empty_witness :
  (flatten_city_json
     {| file_path := delhi_path; json_load := Ok (VDict []) |} None
   = Ok (empty_frame CANONICAL_COLS) /\
   df_empty (empty_frame CANONICAL_COLS) = true) /\
  transform_files
    ([pune_v2_file]
       ++ {| file_path := delhi_path; json_load := Ok (VDict []) |} :: [])
  = transform_files ([pune_v2_file] ++ []).
Proof.
  split; [split; vm_compute; reflexivity|].
  apply (transform_files_skips_empty [pune_v2_file] []
           {| file_path := delhi_path; json_load := Ok (VDict []) |}
           (empty_frame CANONICAL_COLS));
    vm_compute; reflexivity.
Defined.

(* ===================================================================== *)
(** ** The rows of the output table *)

Lemma lookup_set_item {A} (k k' : string) (v : A) (r : list (string * A)) :
  lookup k (set_item k' v r)
  = if String.eqb k k' then Some v else lookup k r.
Proof.
  induction r as [|[k0 v0] r IH]; simpl.
  - destruct (String.eqb k k'); reflexivity.
  - destruct (String.eqb_spec k' k0) as [->|N]; simpl.
    + destruct (String.eqb k k0); reflexivity.
    + rewrite IH. destruct (String.eqb_spec k k0) as [->|N'].
      * destruct (String.eqb_spec k0 k'); [congruence|reflexivity].
      * reflexivity.
Qed.

Lemma row_get_set_item (k k' : string) (v d : cell) (r : row) :
  row_get (set_item k' v r) k d
  = if String.eqb k k' then v else row_get r k d.
Proof.
  unfold row_get. rewrite lookup_set_item.
  destruct (String.eqb k k'); reflexivity.
Qed.

Lemma combine_map_self {A B} (g : A -> B) (l : list A) :
  combine l (map g l) = map (fun r => (r, g r)) l.
Proof. induction l as [|x l IH]; simpl; [|rewrite IH]; reflexivity. Qed.

Lemma set_column_rows (col : string) (g : row -> cell) (df : DataFrame) :
  rows (set_column col (map g (rows df)) df)
  = map (fun r => set_item col (g r) r) (rows df).
Proof.
  unfold set_column. simpl. rewrite combine_map_self, map_map. reflexivity.
Qed.

Lemma set_column_of_column (col c : string) (g : cell -> cell)
  (df : DataFrame) :
  rows (set_column col (map g (column c df)) df)
  = map (fun r => set_item col (g (row_get r c nan_cell)) r) (rows df).
Proof.
  unfold column. rewrite map_map.
  apply (set_column_rows col (fun r => g (row_get r c nan_cell))).
Qed.

Lemma calculate_severity_ext {RT : Runtime} (r r' : row) :
  (forall k, In k SEVERITY_KEYS -> lookup k r = lookup k r') ->
  calculate_severity r = calculate_severity r'.
Proof.
  intros H. unfold calculate_severity, row_get.
  rewrite !H by (unfold SEVERITY_KEYS; simpl; tauto). reflexivity.
Qed.

Section OutputRows.
Context {RT : Runtime}.

Lemma numeric_columns_rows (df : DataFrame) :
  rows (numeric_columns df) = map numeric_row (rows df).
Proof.
  unfold numeric_columns, numeric_row.
  generalize POLLUTANT_COLS as cols. intros cols. revert df.
  induction cols as [|col cols IH]; intros df; simpl.
  - rewrite map_id. reflexivity.
  - rewrite IH.
    rewrite (set_column_of_column col col
               (fun c => Obj (VFloat (to_numeric c)))).
    rewrite map_map. reflexivity.
Qed.

Lemma merge_frames_rows (frames : list DataFrame) :
  columns (concat frames) = CANONICAL_COLS ->
  rows (merge_frames frames)
  = filter has_pollutant (map numeric_row (rows (concat frames))).
Proof.
  intros C.
  assert (E : ensure_columns (concat frames) = concat frames).
  { destruct (concat frames) as [cols rs]. cbn [columns] in C. subst cols.
    reflexivity. }
  unfold merge_frames. rewrite E. unfold dropna_all. cbn [rows].
  rewrite numeric_columns_rows. reflexivity.
Qed.

Lemma derive_rows (df out : DataFrame) :
  derive df = Ok out -> rows out = map derive_row (rows df).
Proof.
  unfold derive.
  match goal with
  | |- context [dt_hour ?c] => destruct (dt_hour c) as [hours|e] eqn:E
  end; cbn [bind]; [|discriminate].
  intros H. apply Ok_inj in H. subst out.
  unfold dt_hour in E.
  match type of E with
  | (if ?b then _ else _) = _ => destruct b; [|discriminate]
  end.
  apply Ok_inj in E. subst hours.
  change (fun c : cell => match c with
                          | Time t => Obj (VInt (hour_of t))
                          | _ => nan_cell
                          end) with hour_cell.
  rewrite (set_column_of_column "hour" "time" hour_cell).
  rewrite (set_column_of_column "risk" "severity"
             (fun x => label_cell (calculate_risk x))).
  rewrite (set_column_rows "severity"
             (fun r => Obj (VFloat (calculate_severity r)))).
  rewrite (set_column_of_column "AQI" "pm2_5"
             (fun x => if notnull x then label_cell (calculate_aqi x)
                       else Obj VNone)).
  rewrite !map_map. reflexivity.
Qed.

(** The rows [transform_files] returns, from the frames of the files. *)
Lemma transform_files_rows (file_paths : list File) (out : DataFrame) :
  transform_files file_paths = Ok out ->
  out = empty_frame EMPTY_HEADER \/
  exists frames,
    rows out
    = map derive_row
        (filter has_pollutant (map numeric_row (rows (concat frames)))).
Proof.
  unfold transform_files.
  destruct (for_each _ file_paths) as [frames|e] eqn:E; simpl; [|discriminate].
  destruct (filter _ frames) as [|df rest] eqn:F; simpl.
  - intros H. inversion H. left. reflexivity.
  - intros H. right. exists (df :: rest).
    rewrite (derive_rows _ _ H). rewrite merge_frames_rows; [reflexivity|].
    apply concat_canonical; [discriminate|].
    rewrite <- F. apply Forall_forall. intros x Hx.
    apply filter_In in Hx. destruct Hx as [Hx _].
    assert (HF : Forall (fun df => columns df = CANONICAL_COLS) frames).
    { eapply for_each_Forall; [exact E|].
      intros fp y _ Hy. eapply flatten_city_json_columns. exact Hy. }
    rewrite Forall_forall in HF. auto.
Qed.

Lemma numeric_row_lookup (r : row) (col : string) :
  In col POLLUTANT_COLS ->
  lookup col (numeric_row r)
  = Some (Obj (VFloat (to_numeric (row_get r col nan_cell)))).
Proof.
  unfold POLLUTANT_COLS, numeric_row. simpl. intros H.
  repeat (destruct H as [<-|H];
          [rewrite !lookup_set_item, ?row_get_set_item; simpl; reflexivity|]).
  contradiction.
Qed.

Lemma numeric_row_pollutant (r : row) (col : string) :
  In col POLLUTANT_COLS ->
  row_get (numeric_row r) col nan_cell
  = Obj (VFloat (to_numeric (row_get r col nan_cell))).
Proof.
  intros H. unfold row_get at 1. rewrite (numeric_row_lookup r col H).
  reflexivity.
Qed.

Lemma derive_row_keeps (r : row) (k : string) :
  String.eqb k "AQI" = false -> String.eqb k "severity" = false ->
  String.eqb k "risk" = false -> String.eqb k "hour" = false ->
  lookup k (derive_row r) = lookup k r.
Proof.
  intros H1 H2 H3 H4. unfold derive_row. cbv zeta.
  rewrite !lookup_set_item, H1, H2, H3, H4. reflexivity.
Qed.

Lemma derive_row_lookup (r : row) (col : string) :
  In col POLLUTANT_COLS -> lookup col (derive_row r) = lookup col r.
Proof.
  intros H. apply derive_row_keeps;
    unfold POLLUTANT_COLS in H; simpl in H;
    repeat (destruct H as [<-|H]; [reflexivity|]); contradiction.
Qed.

Lemma derive_row_pollutant (r : row) (col : string) :
  In col POLLUTANT_COLS ->
  row_get (derive_row r) col nan_cell = row_get r col nan_cell.
Proof.
  intros H. unfold row_get. rewrite (derive_row_lookup r col H). reflexivity.
Qed.

Lemma derive_row_severity (r : row) :
  calculate_severity (derive_row r) = calculate_severity r.
Proof.
  apply calculate_severity_ext. intros k H. apply derive_row_keeps;
    unfold SEVERITY_KEYS in H; simpl in H;
    repeat (destruct H as [<-|H]; [reflexivity|]); contradiction.
Qed.

Lemma derive_row_cells (r : row) :
  row_get (derive_row r) "AQI" nan_cell
  = (if notnull (row_get r "pm2_5" nan_cell)
     then label_cell (calculate_aqi (row_get r "pm2_5" nan_cell))
     else Obj VNone) /\
  row_get (derive_row r) "severity" nan_cell
  = Obj (VFloat (calculate_severity r)) /\
  row_get (derive_row r) "risk" nan_cell
  = label_cell (calculate_risk (Obj (VFloat (calculate_severity r)))) /\
  row_get (derive_row r) "hour" nan_cell
  = hour_cell (row_get r "time" nan_cell).
Proof.
  assert (S : forall v, calculate_severity (set_item "AQI" v r)
                        = calculate_severity r).
  { intros v. apply calculate_severity_ext. intros k H.
    rewrite lookup_set_item.
    unfold SEVERITY_KEYS in H; simpl in H;
      repeat (destruct H as [<-|H]; [reflexivity|]); contradiction. }
  unfold derive_row. cbv zeta.
  rewrite !row_get_set_item. simpl. rewrite !S. auto.
Qed.

(** Every row of the output table holds a number under each of the seven
    pollutant columns, never a string or [None], and at least one of the
    seven is not null. *)
Theorem transform_files_pollutants (file_paths : list File)
  (out : DataFrame) :
  transform_files file_paths = Ok out ->
  Forall (fun r =>
            (forall col, In col POLLUTANT_COLS ->
               exists c, lookup col r = Some c /\ is_number c = true) /\
            exists col c, In col POLLUTANT_COLS /\
              lookup col r = Some c /\ is_number c = true /\
              notnull c = true)
    (rows out).
Proof.
  intros H. destruct (transform_files_rows _ _ H) as [->|(frames & ->)];
    [constructor|].
  apply Forall_forall. intros r Hr. apply in_map_iff in Hr.
  destruct Hr as (r1 & <- & Hr1). apply filter_In in Hr1.
  destruct Hr1 as [Hr1 Hp]. apply in_map_iff in Hr1.
  destruct Hr1 as (r0 & <- & _).
  split.
  - intros col Hc. rewrite (derive_row_lookup _ _ Hc).
    rewrite (numeric_row_lookup _ _ Hc). eexists. split; reflexivity.
  - unfold has_pollutant in Hp. apply existsb_exists in Hp.
    destruct Hp as (col & Hc & Hn).
    exists col, (Obj (VFloat (to_numeric (row_get r0 col nan_cell)))).
    split; [exact Hc|]. split; [|split; [reflexivity|]].
    + rewrite (derive_row_lookup _ _ Hc). apply (numeric_row_lookup _ _ Hc).
    + rewrite (numeric_row_pollutant _ _ Hc) in Hn. exact Hn.
Qed.

Lemma calculate_risk_flag (sev : float) :
  exists flag, In flag RISK_FLAGS /\
               calculate_risk (Obj (VFloat sev)) = Some flag.
Proof.
  unfold calculate_risk. cbn [py_float].
  destruct (F64.of_Z 400 <? sev)%f64;
    [exists "High Risk"; split; [left; reflexivity|reflexivity]|].
  destruct (F64.of_Z 200 <? sev)%f64;
    [exists "Moderate Risk"; split; [right; left; reflexivity|reflexivity]|].
  exists "Low Risk". split; [right; right; left; reflexivity|reflexivity].
Qed.

Lemma calculate_aqi_category (pm : float) :
  exists cat, In cat AQI_CATEGORIES /\
              calculate_aqi (Obj (VFloat pm)) = Some cat.
Proof.
  unfold calculate_aqi. cbn [is_None py_float].
  destruct (pm <=? F64.of_Z 50)%f64;
    [exists "Good"; split; [left; reflexivity|reflexivity]|].
  destruct (pm <=? F64.of_Z 100)%f64;
    [exists "Moderate"; split; [right; left; reflexivity|reflexivity]|].
  destruct (pm <=? F64.of_Z 200)%f64;
    [exists "Unhealthy"; split; [do 2 right; left; reflexivity|reflexivity]|].
  destruct (pm <=? F64.of_Z 300)%f64;
    [exists "Very Unhealthy"; split;
       [do 3 right; left; reflexivity|reflexivity]|].
  exists "Hazardous". split; [do 4 right; left; reflexivity|reflexivity].
Qed.

(** In every row of the output table the derived columns agree with the
    row: [severity] is [calculate_severity] of the row; [risk] is one of
    the three flags, the one [calculate_risk] gives that severity; [AQI] is
    [None] when pm2_5 is NaN and otherwise the category [calculate_aqi]
    gives it; [hour] is, as a number, the hour of the day of the row's
    [time] on the clock of its time zone, and null in a row without a
    timestamp. *)
Theorem transform_files_derived (file_paths : list File) (out : DataFrame) :
  transform_files file_paths = Ok out ->
  Forall (fun r =>
            row_get r "severity" nan_cell
            = Obj (VFloat (calculate_severity r)) /\
            (exists flag, In flag RISK_FLAGS /\
               row_get r "risk" nan_cell = Obj (VStr flag) /\
               calculate_risk (row_get r "severity" nan_cell) = Some flag) /\
            (if is_nan_cell (row_get r "pm2_5" nan_cell)
             then row_get r "AQI" nan_cell = Obj VNone
             else exists cat, In cat AQI_CATEGORIES /\
                    row_get r "AQI" nan_cell = Obj (VStr cat) /\
                    calculate_aqi (row_get r "pm2_5" nan_cell) = Some cat) /\
            match row_get r "time" nan_cell with
            | Time t =>
                py_float (row_get r "hour" nan_cell)
                = Ok (F64.of_Z (hour_of t)) /\
                hour_of t = (wall_ns t / NS_PER_HOUR) mod 24 /\
                0 <= hour_of t < 24
            | _ => notnull (row_get r "hour" nan_cell) = false
            end)
    (rows out).
Proof.
  intros H. destruct (transform_files_rows _ _ H) as [->|(frames & ->)];
    [constructor|].
  apply Forall_forall. intros r Hr. apply in_map_iff in Hr.
  destruct Hr as (r1 & <- & Hr1). apply filter_In in Hr1.
  destruct Hr1 as [Hr1 _]. apply in_map_iff in Hr1.
  destruct Hr1 as (r0 & <- & _).
  assert (P : In "pm2_5" POLLUTANT_COLS)
    by (unfold POLLUTANT_COLS; simpl; tauto).
  destruct (derive_row_cells (numeric_row r0)) as (A & S & R & Hh).
  pose proof (numeric_row_pollutant r0 _ P) as Epm.
  rewrite Epm in A.
  assert (Tm : row_get (derive_row (numeric_row r0)) "time" nan_cell
               = row_get (numeric_row r0) "time" nan_cell)
    by (unfold row_get; rewrite derive_row_keeps; reflexivity).
  rewrite S, R, A, Hh, Tm, derive_row_severity, (derive_row_pollutant _ _ P),
    Epm.
  clear A S R Hh Epm Tm.
  generalize (to_numeric (row_get r0 "pm2_5" nan_cell)) as pm.
  generalize (numeric_row r0) as r1. intros r1 pm.
  split; [reflexivity|]. split; [|split].
  - destruct (calculate_risk_flag (calculate_severity r1))
      as (flag & Hf & E).
    exists flag. rewrite E. auto.
  - cbn [is_nan_cell notnull].
    destruct (F64.is_nan pm); cbn [negb]; [reflexivity|].
    destruct (calculate_aqi_category pm) as (cat & Hc & E).
    exists cat. rewrite E. auto.
  - unfold hour_cell. destruct (row_get r1 "time" nan_cell); try reflexivity.
    assert (B : 0 <= hour_of t < 24)
      by (unfold hour_of; apply Z.mod_pos_bound; lia).
    split; [|split; [reflexivity|exact B]].
    cbn [py_float].
    assert (I : F64.is_inf (F64.of_Z (hour_of t)) = false).
    { assert (D : In (hour_of t) (map Z.of_nat (seq 0 24))).
      { apply in_map_iff. exists (Z.to_nat (hour_of t)).
        split; [lia|]. apply in_seq. lia. }
      revert D. generalize (hour_of t) as h. intros h D.
      cbn [seq map] in D.
      repeat (destruct D as [<-|D]; [reflexivity|]). contradiction. }
    rewrite I. reflexivity.
Qed.

(** A row of the output table in which one of the six pollutants of the
    severity formula is NaN has severity NaN and the flag "Low Risk",
    however large its other pollutants are. *)
Theorem transform_files_missing_pollutant (file_paths : list File)
  (out : DataFrame) :
  transform_files file_paths = Ok out ->
  Forall (fun r =>
            (exists k, In k SEVERITY_KEYS /\
                       row_get r k nan_cell = nan_cell) ->
            row_get r "severity" nan_cell = nan_cell /\
            row_get r "risk" nan_cell = Obj (VStr "Low Risk"))
    (rows out).
Proof.
  intros H.
  destruct (transform_files_rows _ _ H) as [->|(frames & ->)];
    [constructor|].
  apply Forall_forall. intros r Hr (k & Hk & Hn).
  apply in_map_iff in Hr. destruct Hr as (r1 & <- & Hr1).
  apply filter_In in Hr1. destruct Hr1 as [Hr1 _].
  apply in_map_iff in Hr1. destruct Hr1 as (r0 & <- & _).
  assert (C : In k POLLUTANT_COLS)
    by (unfold SEVERITY_KEYS in Hk; unfold POLLUTANT_COLS; simpl in *;
        tauto).
  assert (L : lookup k (derive_row (numeric_row r0)) = Some nan_cell).
  { unfold row_get in Hn. rewrite (derive_row_lookup _ _ C) in *.
    rewrite (numeric_row_lookup _ _ C) in *. rewrite Hn. reflexivity. }
  destruct (derive_row_cells (numeric_row r0)) as (_ & S & R & _).
  assert (N : calculate_severity (numeric_row r0) = F64.nan).
  { rewrite <- derive_row_severity.
    apply (calculate_severity_nan _ k Hk L). }
  rewrite S, R, N. split; reflexivity.
Qed.

End OutputRows.

Lemma transform_files_pollutants_witness :
  transform_files [pune_v2_file] = Ok pune_output /\
  rows pune_output <> [] /\
  Forall (fun r =>
            (forall col, In col POLLUTANT_COLS ->
               exists c, lookup col r = Some c /\ is_number c = true) /\
            exists col c, In col POLLUTANT_COLS /\
              lookup col r = Some c /\ is_number c = true /\
              notnull c = true)
    (rows pune_output).
Proof.
  split; [vm_compute; reflexivity|]. split; [discriminate|].
  apply (transform_files_pollutants [pune_v2_file] pune_output).
  vm_compute; reflexivity.
Defined.

Lemma transform_files_derived_witness :
  transform_files [pune_v2_file] = Ok pune_output /\
  rows pune_output <> [] /\
  column "hour" pune_output = [Obj (VInt 0); Obj (VInt 2)] /\
  Forall (fun r =>
            row_get r "severity" nan_cell
            = Obj (VFloat (calculate_severity r)) /\
            (exists flag, In flag RISK_FLAGS /\
               row_get r "risk" nan_cell = Obj (VStr flag) /\
               calculate_risk (row_get r "severity" nan_cell) = Some flag) /\
            (if is_nan_cell (row_get r "pm2_5" nan_cell)
             then row_get r "AQI" nan_cell = Obj VNone
             else exists cat, In cat AQI_CATEGORIES /\
                    row_get r "AQI" nan_cell = Obj (VStr cat) /\
                    calculate_aqi (row_get r "pm2_5" nan_cell) = Some cat) /\
            match row_get r "time" nan_cell with
            | Time t =>
                py_float (row_get r "hour" nan_cell)
                = Ok (F64.of_Z (hour_of t)) /\
                hour_of t = (wall_ns t / NS_PER_HOUR) mod 24 /\
                0 <= hour_of t < 24
            | _ => notnull (row_get r "hour" nan_cell) = false
            end)
    (rows pune_output).
Proof.
  split; [vm_compute; reflexivity|]. split; [discriminate|].
  split; [reflexivity|].
  apply (transform_files_derived [pune_v2_file] pune_output).
  vm_compute; reflexivity.
Defined.

Lemma transform_files_missing_pollutant_witness :
  transform_files [pune_v2_file] = Ok pune_output /\
  Exists (fun r => row_get r "pm10" nan_cell = nan_cell) (rows pune_output) /\
  Forall (fun r =>
            (exists k, In k SEVERITY_KEYS /\
                       row_get r k nan_cell = nan_cell) ->
            row_get r "severity" nan_cell = nan_cell /\
            row_get r "risk" nan_cell = Obj (VStr "Low Risk"))
    (rows pune_output).
Proof.
  split; [vm_compute; reflexivity|].
  split; [apply Exists_cons_hd; vm_compute; reflexivity|].
  apply (transform_files_missing_pollutant [pune_v2_file] pune_output).
  vm_compute; reflexivity.
Defined.

(* ===================================================================== *)
(** ** Parameter names *)

Lemma lookup_found {A} (k : string) (v : A) (l : list (string * A)) :
  lookup k l = Some v -> In (k, v) l.
Proof.
  induction l as [|[k0 v0] l IH]; simpl; [discriminate|].
  destruct (String.eqb_spec k k0) as [->|N].
  - intros [= ->]. left. reflexivity.
  - intros H. right. exact (IH H).
Qed.

Section ParameterNames.
Context {RT : Runtime}.

(** A parameter name that, lower-cased, stripped and with [.] and [-]
    turned into [_], is a key of [POLLUTANT_MAPPING] is normalised to the
    column the mapping gives that key, one of the seven pollutant
    columns. *)
Theorem normalize_parameter_aliases (name k v : string) :
  In (k, v) POLLUTANT_MAPPING ->
  replace_char "-" "_" (replace_char "." "_" (lower (strip name))) = k ->
  normalize_parameter (VStr name) = v /\ In v POLLUTANT_COLS.
Proof.
  unfold normalize_parameter. cbn [py_str].
  remember (lower (strip name)) as p1 eqn:E. clear E name.
  intros Hin Hrep.
  destruct (lookup p1 (map (fun kv => (lower (fst kv), snd kv))
                         POLLUTANT_MAPPING)) as [v'|] eqn:L.
  - apply lookup_found in L. cbv in L.
    repeat (destruct L as [L|L];
            [injection L as <- <-; cbv in Hrep; subst k;
             cbv in Hin;
             repeat (destruct Hin as [Hin|Hin];
                     [first [discriminate Hin
                            |injection Hin as <-;
                             split; [reflexivity|cbv; tauto]]|]);
             contradiction|]).
    contradiction.
  - cbv zeta. rewrite Hrep. clear Hrep L.
    cbv in Hin.
    repeat (destruct Hin as [Hin|Hin];
            [injection Hin as <- <-; split; [reflexivity|cbv; tauto]|]).
    contradiction.
Qed.

End ParameterNames.

Lemma normalize_parameter_aliases_witness :
  In ("pm2_5", "pm2_5") POLLUTANT_MAPPING /\
  replace_char "-" "_" (replace_char "." "_" (lower (strip "  PM2.5 ")))
  = "pm2_5" /\
  normalize_parameter (VStr "  PM2.5 ") = "pm2_5" /\
  In "pm2_5" POLLUTANT_COLS.
Proof.
  split; [cbv; tauto|]. split; [reflexivity|].
  apply (normalize_parameter_aliases "  PM2.5 " "pm2_5" "pm2_5");
    [cbv; tauto|reflexivity].
Defined.


(* ===================================================================== *)
(** * Properties of the load *)

(** ** Batches *)

Lemma firstn_plus {A} (a b : nat) (l : list A) :
  firstn (a + b) l = firstn a l ++ firstn b (skipn a l).
Proof.
  revert l. induction a as [|a IH]; intros [|x l]; simpl; try reflexivity.
  - rewrite firstn_nil. reflexivity.
  - rewrite IH. reflexivity.
Qed.

Lemma chunks_concat {A} (b m : nat) (l : list A) :
  List.concat (map (fun k => firstn b (skipn (k * b) l)) (seq 0 m))
  = firstn (m * b) l.
Proof.
  induction m as [|m IH]; [reflexivity|].
  rewrite seq_S, map_app, concat_app, IH. simpl. rewrite app_nil_r.
  rewrite <- firstn_plus. f_equal. lia.
Qed.

Lemma slice_chunk {A} (size : Z) (k : nat) (l : list A) :
  0 < size ->
  slice (Z.of_nat k * size) (Z.of_nat k * size + size) l
  = firstn (Z.to_nat size) (skipn (k * Z.to_nat size) l).
Proof.
  intros H. unfold slice. f_equal; [f_equal; lia|]. f_equal.
  rewrite Z2Nat.inj_mul by lia. rewrite Nat2Z.id. reflexivity.
Qed.

Lemma slice_incl {A} (i j : Z) (l : list A) (x : A) :
  In x (slice i j l) -> In x l.
Proof.
  unfold slice. intros H.
  set (n := Z.to_nat (j - i)) in *. set (m := Z.to_nat i) in *.
  rewrite <- (firstn_skipn m l). apply in_or_app. right.
  rewrite <- (firstn_skipn n (skipn m l)). apply in_or_app. left. exact H.
Qed.

Section Batches.
Variable BATCH_SIZE : Z.

Lemma batches_cut (records : list record) :
  0 < BATCH_SIZE ->
  exists bs,
    batches BATCH_SIZE records = Ok bs /\
    List.concat bs = records /\
    Forall (fun b => b <> [] /\ Z.of_nat (List.length b) <= BATCH_SIZE) bs.
Proof.
  intros HB. unfold batches, range_from_0.
  destruct (Z.eqb_spec BATCH_SIZE 0) as [E|_]; [lia|].
  destruct (Z.ltb_spec BATCH_SIZE 0) as [E|_]; [lia|]. cbn [orb].
  destruct (Z.leb_spec (Z.of_nat (List.length records)) 0) as [E|E].
  - exists []. destruct records; [|simpl in E; lia].
    repeat split. constructor.
  - cbn [bind]. eexists. split; [reflexivity|].
    rewrite map_map.
    set (n := List.length records) in *.
    set (q := (Z.of_nat n - 1) / BATCH_SIZE).
    assert (Hq : BATCH_SIZE * q <= Z.of_nat n - 1 < BATCH_SIZE * (q + 1)).
    { unfold q.
      pose proof (Z.mul_div_le (Z.of_nat n - 1) BATCH_SIZE HB).
      pose proof (Z.mul_succ_div_gt (Z.of_nat n - 1) BATCH_SIZE HB). lia. }
    assert (Hq0 : 0 <= q) by (unfold q; apply Z.div_pos; lia).
    rewrite (map_ext _ (fun k => firstn (Z.to_nat BATCH_SIZE)
                                   (skipn (k * Z.to_nat BATCH_SIZE) records)))
      by (intros k; apply slice_chunk; exact HB).
    split.
    + rewrite chunks_concat. apply firstn_all2. fold n.
      apply Nat2Z.inj_le. rewrite Nat2Z.inj_mul, !Z2Nat.id by lia. lia.
    + apply Forall_forall. intros b Hb. apply in_map_iff in Hb.
      destruct Hb as (k & <- & Hk). apply in_seq in Hk.
      assert (Hk' : (k * Z.to_nat BATCH_SIZE < n)%nat).
      { apply Nat2Z.inj_lt. rewrite Nat2Z.inj_mul, Z2Nat.id by lia.
        assert (Z.of_nat k <= q) by lia. nia. }
      split.
      * intros C. apply (f_equal (@List.length _)) in C.
        rewrite length_firstn, length_skipn in C. fold n in C.
        simpl in C. lia.
      * pose proof (firstn_le_length (Z.to_nat BATCH_SIZE)
                      (skipn (k * Z.to_nat BATCH_SIZE) records)).
        rewrite length_firstn. lia.
Qed.

(** With a positive batch size the batches are the records cut in order
    into pieces: put end to end they give the records back, none is empty
    and none is longer than the batch size. *)
Theorem batches_partition (records : list record) :
  0 < BATCH_SIZE ->
  exists bs,
    batches BATCH_SIZE records = Ok bs /\
    List.concat bs = records /\
    Forall (fun b => b <> [] /\ Z.of_nat (List.length b) <= BATCH_SIZE) bs.
Proof. exact (batches_cut records). Qed.

End Batches.

(** ** Retries *)

Lemma repeat_snoc {A} (x : A) (n : nat) (l : list A) :
  repeat x n ++ x :: l = x :: repeat x n ++ l.
Proof.
  induction n as [|n IH]; simpl; [reflexivity|]. rewrite IH. reflexivity.
Qed.

Section Retry.
Variable MAX_RETRIES : Z.
Variable RETRY_BACKOFF : float.
Variable execute : nat -> list record -> bool.

(** What the loop does from the attempt counter [attempt] on, when no
    sleep it can reach raises: it makes [k] calls, all with the batch; the
    calls before the last fail, and each is followed by a sleep of
    [RETRY_BACKOFF] times its number. *)
Lemma attempts_spec (fuel : nat) (batch : list record) (attempt : Z)
  (st : Run) :
  0 <= attempt <= MAX_RETRIES ->
  fuel = Z.to_nat (MAX_RETRIES + 1 - attempt) ->
  (forall j, attempt < j <= MAX_RETRIES ->
     sleep (F64.mul RETRY_BACKOFF (F64.of_Z j)) = Ok tt) ->
  exists (k : nat) (st' : Run),
    attempts MAX_RETRIES RETRY_BACKOFF execute fuel batch attempt st = Ok st' /\
    (1 <= k)%nat /\ attempt + Z.of_nat k <= MAX_RETRIES + 1 /\
    total_rows st' = total_rows st /\
    calls st' = repeat batch k ++ calls st /\
    sleeps st'
    = map (fun j => F64.mul RETRY_BACKOFF (F64.of_Z (Z.of_nat j)))
        (rev (seq (Z.to_nat attempt + 1) (k - 1)))
      ++ sleeps st /\
    (forall j, (j < k - 1)%nat ->
       execute (List.length (calls st) + j)%nat batch = false) /\
    (if execute (List.length (calls st) + (k - 1))%nat batch
     then inserted_rows st'
          = inserted_rows st + Z.of_nat (List.length batch) /\
          failed_rows st' = failed_rows st
     else attempt + Z.of_nat k = MAX_RETRIES + 1 /\
          inserted_rows st' = inserted_rows st /\
          failed_rows st' = failed_rows st + Z.of_nat (List.length batch)).
Proof.
  revert attempt st.
  induction fuel as [|fuel IH]; intros attempt st Ha Hf Hs; [lia|].
  cbn [attempts].
  destruct (Z.leb_spec attempt MAX_RETRIES) as [_|C]; [|lia].
  cbn [calls sleeps total_rows inserted_rows failed_rows].
  destruct (execute (List.length (calls st)) batch) eqn:E.
  - exists 1%nat. eexists. split; [reflexivity|].
    cbn [calls sleeps total_rows inserted_rows failed_rows].
    rewrite Nat.add_0_r, E. simpl.
    repeat split; lia.
  - destruct (Z.gtb_spec (attempt + 1) MAX_RETRIES) as [G|G].
    + exists 1%nat. eexists. split; [reflexivity|].
      cbn [calls sleeps total_rows inserted_rows failed_rows].
      rewrite Nat.add_0_r, E. simpl.
      repeat split; lia.
    + rewrite (Hs (attempt + 1)) by lia. cbn [bind].
      match goal with
      | |- context [attempts _ _ _ fuel batch (attempt + 1) ?s] =>
          destruct (IH (attempt + 1) s) as
            (k & st' & Hr & Hk & Hle & Ht & Hc & Hsl & Hfail & Hlast);
          [lia|lia|intros j Hj; apply Hs; lia|]
      end.
      cbn [calls sleeps total_rows inserted_rows failed_rows] in *.
      assert (Hl : forall j, (List.length (batch :: calls st) + j
                              = List.length (calls st) + S j)%nat)
        by (intros j; simpl; lia).
      exists (S k), st'. rewrite Hr, Ht, Hc, Hsl.
      split; [reflexivity|].
      split; [lia|]. split; [lia|]. split; [reflexivity|].
      split; [apply repeat_snoc|]. split; [|split].
      * replace (S k - 1)%nat with (S (k - 1)) by lia.
        cbn [seq rev]. rewrite map_app, <- app_assoc. cbn [map app].
        replace (Z.to_nat (attempt + 1) + 1)%nat
          with (S (Z.to_nat attempt + 1)) by lia.
        replace (Z.of_nat (Z.to_nat attempt + 1)) with (attempt + 1) by lia.
        reflexivity.
      * intros j Hj. destruct j as [|j]; [rewrite Nat.add_0_r; exact E|].
        assert (Hj' : (j < k - 1)%nat) by lia.
        specialize (Hfail j Hj'). rewrite Hl in Hfail. exact Hfail.
      * rewrite Hl in Hlast.
        replace (S k - 1)%nat with (S (k - 1)) by lia.
        destruct (execute (List.length (calls st) + S (k - 1))%nat batch);
          [exact Hlast|].
        destruct Hlast as (H1 & H2 & H3). repeat split; [lia|exact H2|exact H3].
Qed.

(** One batch, with [MAX_RETRIES >= 0] and a back-off whose multiples
    [time.sleep] accepts: the batch is handed to [insert] [k] times, at
    least once and at most [MAX_RETRIES + 1] times; every call but the last
    failed and was followed by a sleep of [RETRY_BACKOFF] times its
    number; the rows of the batch count as inserted when the last call
    went through, and as failed when it did not, which happens only after
    [MAX_RETRIES + 1] calls. *)
Theorem insert_batch_retries (batch : list record) (st : Run) :
  0 <= MAX_RETRIES ->
  (forall j, 1 <= j <= MAX_RETRIES ->
     sleep (F64.mul RETRY_BACKOFF (F64.of_Z j)) = Ok tt) ->
  exists (k : nat) (st' : Run),
    insert_batch MAX_RETRIES RETRY_BACKOFF execute batch st = Ok st' /\
    (1 <= k)%nat /\ Z.of_nat k <= MAX_RETRIES + 1 /\
    total_rows st' = total_rows st /\
    calls st' = repeat batch k ++ calls st /\
    sleeps st'
    = map (fun j => F64.mul RETRY_BACKOFF (F64.of_Z (Z.of_nat j)))
        (rev (seq 1 (k - 1)))
      ++ sleeps st /\
    (forall j, (j < k - 1)%nat ->
       execute (List.length (calls st) + j)%nat batch = false) /\
    (if execute (List.length (calls st) + (k - 1))%nat batch
     then inserted_rows st'
          = inserted_rows st + Z.of_nat (List.length batch) /\
          failed_rows st' = failed_rows st
     else Z.of_nat k = MAX_RETRIES + 1 /\
          inserted_rows st' = inserted_rows st /\
          failed_rows st' = failed_rows st + Z.of_nat (List.length batch)).
Proof.
  intros H Hs. unfold insert_batch.
  destruct (attempts_spec (Z.to_nat (MAX_RETRIES + 1)) batch 0 st)
    as (k & st' & H0 & H1 & H2 & H3 & H4 & H5 & H6 & H7);
    [lia|f_equal; lia|intros j Hj; apply Hs; lia|].
  exists k, st'. change (Z.to_nat 0 + 1)%nat with 1%nat in H5.
  rewrite !Z.add_0_l in *. auto 10.
Qed.

(** The sleep of the handler ends the load when [time.sleep] rejects the
    length: after a first call that fails, with a retry left, the
    exception of the sleep is the outcome. *)
Lemma insert_batch_sleep_raises (batch : list record) (st : Run) (e : exn) :
  1 <= MAX_RETRIES ->
  execute (List.length (calls st)) batch = false ->
  sleep (F64.mul RETRY_BACKOFF (F64.of_Z 1)) = Raise e ->
  insert_batch MAX_RETRIES RETRY_BACKOFF execute batch st = Raise e.
Proof.
  intros HM HE HS. unfold insert_batch.
  replace (Z.to_nat (MAX_RETRIES + 1))
    with (S (Z.to_nat MAX_RETRIES)) by lia.
  cbn [attempts].
  destruct (Z.leb_spec 0 MAX_RETRIES) as [_|C]; [|lia].
  cbn [calls sleeps total_rows inserted_rows failed_rows].
  rewrite HE.
  destruct (Z.gtb_spec (0 + 1) MAX_RETRIES) as [G|_]; [lia|].
  change (0 + 1) with 1. rewrite HS. reflexivity.
Qed.

(** The loop never needs more iterations than [insert_batch] gives it. *)
Lemma attempts_fuel (fuel : nat) (batch : list record) (attempt : Z)
  (st : Run) :
  (Z.to_nat (MAX_RETRIES + 1 - attempt) <= fuel)%nat ->
  attempts MAX_RETRIES RETRY_BACKOFF execute fuel batch attempt st
  = attempts MAX_RETRIES RETRY_BACKOFF execute
      (Z.to_nat (MAX_RETRIES + 1 - attempt)) batch attempt st.
Proof.
  revert attempt st. induction fuel as [|fuel IH]; intros attempt st H.
  - replace (Z.to_nat (MAX_RETRIES + 1 - attempt)) with 0%nat by lia.
    reflexivity.
  - destruct (Z.leb_spec attempt MAX_RETRIES) as [L|L].
    + replace (Z.to_nat (MAX_RETRIES + 1 - attempt))
        with (S (Z.to_nat (MAX_RETRIES + 1 - (attempt + 1)))) by lia.
      cbn [attempts].
      destruct (Z.leb attempt MAX_RETRIES); [|reflexivity].
      destruct (execute _ batch); [reflexivity|].
      destruct (Z.gtb (attempt + 1) MAX_RETRIES); [reflexivity|].
      destruct (sleep _); [|reflexivity]. cbn [bind].
      apply IH. lia.
    + replace (Z.to_nat (MAX_RETRIES + 1 - attempt)) with 0%nat by lia.
      cbn [attempts].
      destruct (Z.leb_spec attempt MAX_RETRIES); [lia|reflexivity].
Qed.

Lemma attempts_calls (fuel : nat) (batch : list record) (attempt : Z)
  (st st' : Run) (b : list record) :
  attempts MAX_RETRIES RETRY_BACKOFF execute fuel batch attempt st = Ok st' ->
  In b (calls st') -> b = batch \/ In b (calls st).
Proof.
  revert attempt st. induction fuel as [|fuel IH]; intros attempt st;
    cbn [attempts]; [intros H; apply Ok_inj in H; subst; auto|].
  destruct (Z.leb attempt MAX_RETRIES);
    [|intros H; apply Ok_inj in H; subst; auto].
  cbn [calls sleeps total_rows inserted_rows failed_rows].
  destruct (execute _ batch);
    [intros H; apply Ok_inj in H; subst; cbn [calls]; intros [<-|H]; auto|].
  destruct (Z.gtb (attempt + 1) MAX_RETRIES);
    [intros H; apply Ok_inj in H; subst; cbn [calls]; intros [<-|H]; auto|].
  destruct (sleep _); cbn [bind]; [|discriminate].
  intros H Hb. destruct (IH _ _ H Hb) as [Hx|Hx]; [auto|].
  cbn [calls] in Hx. destruct Hx as [<-|Hx]; auto.
Qed.

End Retry.

(** ** The whole run *)

Section LoadRun.
Variables BATCH_SIZE MAX_RETRIES : Z.
Variable RETRY_BACKOFF : float.
Variable execute : nat -> list record -> bool.

Lemma insert_all_calls (bs : list (list record)) (st st' : Run)
  (b : list record) :
  insert_all MAX_RETRIES RETRY_BACKOFF execute bs st = Ok st' ->
  In b (calls st') -> In b bs \/ In b (calls st).
Proof.
  revert st. induction bs as [|b0 bs IH]; intros st; cbn [insert_all].
  - intros H. apply Ok_inj in H. subst. auto.
  - destruct (insert_batch MAX_RETRIES RETRY_BACKOFF execute b0 st)
      as [st1|e] eqn:E; cbn [bind]; [|discriminate].
    intros H Hb. destruct (IH _ H Hb) as [Hx|Hx]; [simpl; auto|].
    unfold insert_batch in E.
    destruct (attempts_calls _ _ _ _ _ _ _ _ b E Hx) as [->|Hy];
      simpl; auto.
Qed.

Lemma insert_batch_accounts (batch : list record) (st : Run) :
  0 <= MAX_RETRIES ->
  (forall j, 1 <= j <= MAX_RETRIES ->
     sleep (F64.mul RETRY_BACKOFF (F64.of_Z j)) = Ok tt) ->
  exists st',
    insert_batch MAX_RETRIES RETRY_BACKOFF execute batch st = Ok st' /\
    total_rows st' = total_rows st /\
    inserted_rows st' + failed_rows st'
    = inserted_rows st + failed_rows st + Z.of_nat (List.length batch) /\
    inserted_rows st <= inserted_rows st' /\
    failed_rows st <= failed_rows st' /\
    Z.of_nat (List.length (calls st)) + 1
    <= Z.of_nat (List.length (calls st'))
    <= Z.of_nat (List.length (calls st)) + (MAX_RETRIES + 1) /\
    (forall b, In b (calls st') <-> b = batch \/ In b (calls st)).
Proof.
  intros HM Hs. unfold insert_batch.
  destruct (attempts_spec MAX_RETRIES RETRY_BACKOFF execute
              (Z.to_nat (MAX_RETRIES + 1)) batch 0 st)
    as (k & st' & Hr & K1 & K2 & KT & KC & _ & _ & KL);
    [lia|f_equal; lia|intros j Hj; apply Hs; lia|].
  exists st'. split; [exact Hr|].
  rewrite KC, length_app, repeat_length.
  split; [exact KT|].
  assert (A : forall b, In b (repeat batch k ++ calls st)
                        <-> b = batch \/ In b (calls st)).
  { intros b. rewrite in_app_iff. split.
    - intros [H|H]; [left; exact (repeat_spec _ _ _ H)|right; exact H].
    - intros [->|H]; [left|right; exact H].
      destruct k as [|k]; [lia|]. left. reflexivity. }
  destruct (execute _ batch); repeat split; try lia; apply A.
Qed.

Lemma insert_all_accounts (bs : list (list record)) (st : Run) :
  0 <= MAX_RETRIES ->
  (forall j, 1 <= j <= MAX_RETRIES ->
     sleep (F64.mul RETRY_BACKOFF (F64.of_Z j)) = Ok tt) ->
  exists st',
    insert_all MAX_RETRIES RETRY_BACKOFF execute bs st = Ok st' /\
    total_rows st' = total_rows st /\
    inserted_rows st' + failed_rows st'
    = inserted_rows st + failed_rows st
      + Z.of_nat (List.length (List.concat bs)) /\
    inserted_rows st <= inserted_rows st' /\
    failed_rows st <= failed_rows st' /\
    Z.of_nat (List.length (calls st)) + Z.of_nat (List.length bs)
    <= Z.of_nat (List.length (calls st'))
    <= Z.of_nat (List.length (calls st))
       + (MAX_RETRIES + 1) * Z.of_nat (List.length bs) /\
    (forall b, In b bs \/ In b (calls st) -> In b (calls st')).
Proof.
  intros HM Hs. revert st. induction bs as [|b0 bs IH]; intros st.
  - exists st. simpl. repeat split; try lia. intros b [[]|H]. exact H.
  - cbn [insert_all].
    destruct (insert_batch_accounts b0 st HM Hs)
      as (st1 & E1 & T1 & S1 & I1 & F1 & C1 & M1).
    rewrite E1. cbn [bind].
    destruct (IH st1) as (st' & E & T & S & I & F & C & M).
    exists st'. split; [exact E|].
    cbn [List.concat]. rewrite length_app. cbn [List.length].
    split; [congruence|]. split; [lia|]. split; [lia|]. split; [lia|].
    split; [nia|].
    intros b H. apply M. rewrite M1.
    destruct H as [[<-|H]|H]; auto.
Qed.

Lemma load_records_sound (records : list record) (run : Run) :
  load_records BATCH_SIZE MAX_RETRIES RETRY_BACKOFF execute records = Ok run ->
  forall batch rec, In batch (calls run) -> In rec batch -> In rec records.
Proof.
  unfold load_records, batches.
  destruct (range_from_0 _ BATCH_SIZE) as [starts|e]; cbn [bind];
    [|discriminate].
  intros H batch rec Hb Hr.
  destruct (insert_all_calls _ _ _ _ H Hb) as [Hx|Hx];
    [|cbn [calls] in Hx; destruct Hx].
  apply in_map_iff in Hx.
  destruct Hx as (i & <- & _). exact (slice_incl _ _ _ _ Hr).
Qed.

(** With a positive batch size, [MAX_RETRIES >= 0] and a back-off whose
    multiples [time.sleep] accepts, the run ends and accounts for every
    row: the rows inserted and the rows failed add up to the rows of the
    table; every batch is handed to [insert] at least once and at most
    [MAX_RETRIES + 1] times, and nothing but the batches is. *)
Theorem load_records_accounts (records : list record) :
  0 < BATCH_SIZE -> 0 <= MAX_RETRIES ->
  (forall j, 1 <= j <= MAX_RETRIES ->
     sleep (F64.mul RETRY_BACKOFF (F64.of_Z j)) = Ok tt) ->
  exists run bs,
    load_records BATCH_SIZE MAX_RETRIES RETRY_BACKOFF execute records
    = Ok run /\
    batches BATCH_SIZE records = Ok bs /\
    total_rows run = Z.of_nat (List.length records) /\
    inserted_rows run + failed_rows run = total_rows run /\
    0 <= inserted_rows run /\ 0 <= failed_rows run /\
    (forall b, In b (calls run) <-> In b bs) /\
    Z.of_nat (List.length bs)
    <= Z.of_nat (List.length (calls run))
    <= (MAX_RETRIES + 1) * Z.of_nat (List.length bs).
Proof.
  intros HB HM Hs.
  destruct (batches_cut BATCH_SIZE records HB) as (bs & E & C & _).
  unfold load_records. rewrite E. cbn [bind].
  match goal with
  | |- context [insert_all _ _ _ bs ?st] =>
      destruct (insert_all_accounts bs st HM Hs)
        as (run & R & T & S & I & F & L & M);
      pose proof (insert_all_calls bs st run) as N
  end.
  cbn [total_rows inserted_rows failed_rows calls] in *.
  exists run, bs. split; [exact R|]. split; [reflexivity|].
  rewrite C in S. cbn [List.length] in L.
  split; [exact T|]. split; [lia|]. split; [lia|]. split; [lia|].
  split; [|lia].
  intros b. split; [|intros Hb; apply M; left; exact Hb].
  intros Hb. destruct (N b R Hb) as [H|[]]. exact H.
Qed.

Lemma insert_batch_idle (batch : list record) (st : Run) :
  MAX_RETRIES < 0 ->
  insert_batch MAX_RETRIES RETRY_BACKOFF execute batch st = Ok st.
Proof.
  intros H. unfold insert_batch.
  replace (Z.to_nat (MAX_RETRIES + 1)) with 0%nat by lia. reflexivity.
Qed.

(** The settings that make the run do nothing: a batch size of 0 raises
    [ValueError] before anything is sent; with a negative batch size, or a
    negative [MAX_RETRIES], nothing is ever handed to [insert], and the
    summary shows no row inserted and no row failed, whatever the table
    holds. *)
Theorem load_records_idle (records : list record) :
  (BATCH_SIZE = 0 ->
   load_records BATCH_SIZE MAX_RETRIES RETRY_BACKOFF execute records
   = Raise ValueError) /\
  (BATCH_SIZE <> 0 -> BATCH_SIZE < 0 \/ MAX_RETRIES < 0 ->
   load_records BATCH_SIZE MAX_RETRIES RETRY_BACKOFF execute records
   = Ok {| total_rows := Z.of_nat (List.length records);
           inserted_rows := 0; failed_rows := 0;
           calls := []; sleeps := [] |}).
Proof.
  split.
  - intros ->. reflexivity.
  - intros NZ H. unfold load_records, batches, range_from_0.
    destruct (Z.eqb_spec BATCH_SIZE 0) as [E|_]; [contradiction|].
    destruct (Z.ltb_spec BATCH_SIZE 0) as [N|P]; [reflexivity|].
    destruct H as [H|H]; [lia|].
    cbn [orb]. destruct (Z.leb _ 0); [reflexivity|]. cbn [bind].
    match goal with
    | |- insert_all _ _ _ ?bs ?st = _ => generalize bs as l; generalize st as st0
    end.
    intros st0 l. induction l as [|b l IH]; [reflexivity|].
    cbn [insert_all]. rewrite (insert_batch_idle b st0 H). exact IH.
Qed.

End LoadRun.

(** ** Records *)

Lemma set_item_keys {A} (k : string) (x : A) (d : list (string * A))
  (c : string) :
  In c (map fst (set_item k x d)) <-> c = k \/ In c (map fst d).
Proof.
  induction d as [|[k0 v0] d IH]; simpl.
  - intuition congruence.
  - destruct (String.eqb_spec k k0) as [->|N]; simpl.
    + intuition congruence.
    + rewrite IH. intuition congruence.
Qed.

Lemma set_item_In {A} (k : string) (x : A) (d : list (string * A))
  (c : string) (v : A) :
  In (c, v) (set_item k x d) -> (c = k /\ v = x) \/ In (c, v) d.
Proof.
  induction d as [|[k0 v0] d IH]; simpl.
  - intros [[= <- <-]|[]]. auto.
  - destruct (String.eqb_spec k k0) as [->|N]; simpl.
    + intros [[= <- <-]|H]; auto.
    + intros [H|H]; [auto|]. apply IH in H. tauto.
Qed.

Lemma lookup_absent {A} (k : string) (d : list (string * A)) :
  ~ In k (map fst d) -> lookup k d = None.
Proof.
  induction d as [|[k0 v0] d IH]; simpl; [reflexivity|].
  intros H. destruct (String.eqb_spec k k0) as [->|N]; [tauto|].
  apply IH. tauto.
Qed.

Section Records.
Variable isoformat : Timestamp -> string.

(** One turn of the loop of [_row_to_record] stores, under the column, a
    value that depends on the cell alone. *)
Lemma row_to_record_step (col : string) (val : cell) :
  exists x,
    (isna val = true -> x = Obj VNone) /\
    (isna val = false ->
     match val with
     | Time t => x = Obj (VStr (isoformat t))
     | _ => x = val
     end) /\
    (exists p, x = Obj p /\ forall f, p = VFloat f -> F64.is_nan f = false) /\
    forall rec : record,
      (let col := fst (col, val) in
       let val := snd (col, val) in
       if isna val then set_item col (Obj VNone) rec
       else
         match val with
         | Time t => set_item col (Obj (VStr (isoformat t))) rec
         | NaT => set_item col (Obj (VStr "NaT")) rec
         | Obj (VFloat f) =>
             set_item col (if F64.is_nan f then Obj VNone else val) rec
         | _ => set_item col val rec
         end)
      = set_item col x rec.
Proof.
  cbn [fst snd]. cbv zeta.
  destruct val as [p|t| |].
  - destruct p as [|b|z|f|str|l|d]; cbn [isna];
      try (eexists; split; [discriminate|]; split; [reflexivity|];
           split; [eexists; split; [reflexivity|discriminate]|reflexivity]).
    + exists (Obj VNone). split; [reflexivity|]. split; [discriminate|].
      split; [eexists; split; [reflexivity|discriminate]|reflexivity].
    + destruct (F64.is_nan f) eqn:N.
      * exists (Obj VNone). split; [reflexivity|]. split; [discriminate|].
        split; [eexists; split; [reflexivity|discriminate]|reflexivity].
      * exists (Obj (VFloat f)). split; [discriminate|].
        split; [reflexivity|].
        split; [|reflexivity].
        eexists; split; [reflexivity|]. intros g [= <-]. exact N.
  - exists (Obj (VStr (isoformat t))). cbn [isna].
    split; [discriminate|]. split; [reflexivity|].
    split; [eexists; split; [reflexivity|discriminate]|reflexivity].
  - exists (Obj VNone). cbn [isna]. split; [reflexivity|].
    split; [discriminate|].
    split; [eexists; split; [reflexivity|discriminate]|reflexivity].
  - exists (Obj VNone). cbn [isna]. split; [reflexivity|].
    split; [discriminate|].
    split; [eexists; split; [reflexivity|discriminate]|reflexivity].
Qed.

Lemma row_to_record_fold (row : row) (acc : record) :
  (forall col,
     In col (map fst (fold_left
                        (fun rec item =>
                           let col := fst item in
                           let val := snd item in
                           if isna val then set_item col (Obj VNone) rec
                           else
                             match val with
                             | Time t =>
                                 set_item col (Obj (VStr (isoformat t))) rec
                             | NaT => set_item col (Obj (VStr "NaT")) rec
                             | Obj (VFloat f) =>
                                 set_item col
                                   (if F64.is_nan f then Obj VNone else val)
                                   rec
                             | _ => set_item col val rec
                             end)
                        row acc))
     <-> In col (map fst row) \/ In col (map fst acc)) /\
  (forall col v,
     In (col, v) (fold_left
                    (fun rec item =>
                       let col := fst item in
                       let val := snd item in
                       if isna val then set_item col (Obj VNone) rec
                       else
                         match val with
                         | Time t =>
                             set_item col (Obj (VStr (isoformat t))) rec
                         | NaT => set_item col (Obj (VStr "NaT")) rec
                         | Obj (VFloat f) =>
                             set_item col
                               (if F64.is_nan f then Obj VNone else val) rec
                         | _ => set_item col val rec
                         end)
                    row acc) ->
     In (col, v) acc \/
     exists p, v = Obj p /\ forall f, p = VFloat f -> F64.is_nan f = false) /\
  (forall col val,
     NoDup (map fst row) -> In (col, val) row ->
     exists x,
       lookup col (fold_left
                     (fun rec item =>
                        let col := fst item in
                        let val := snd item in
                        if isna val then set_item col (Obj VNone) rec
                        else
                          match val with
                          | Time t =>
                              set_item col (Obj (VStr (isoformat t))) rec
                          | NaT => set_item col (Obj (VStr "NaT")) rec
                          | Obj (VFloat f) =>
                              set_item col
                                (if F64.is_nan f then Obj VNone else val) rec
                          | _ => set_item col val rec
                          end)
                     row acc)
       = Some x /\
       (isna val = true -> x = Obj VNone) /\
       (isna val = false ->
        match val with
        | Time t => x = Obj (VStr (isoformat t))
        | _ => x = val
        end)).
Proof.
  revert acc. induction row as [|[c0 v0] row IH]; intros acc.
  - cbn [fold_left map]. split; [|split].
    + intros col. simpl. tauto.
    + intros col v H. left. exact H.
    + intros col val _ [].
  - destruct (row_to_record_step c0 v0) as (x & X1 & X2 & X3 & X4).
    match goal with
    | |- context [fold_left ?f ((c0, v0) :: row) acc] =>
        set (step := f) in *
    end.
    assert (X4' : forall rec, step rec (c0, v0) = set_item c0 x rec)
      by exact X4.
    change (fold_left step ((c0, v0) :: row) acc)
      with (fold_left step row (step acc (c0, v0))).
    rewrite X4'.
    destruct (IH (set_item c0 x acc)) as (K & V & L).
    split; [|split].
    + intros col. rewrite K, set_item_keys. simpl. intuition congruence.
    + intros col v H. apply V in H. destruct H as [H|H]; [|right; exact H].
      apply set_item_In in H. destruct H as [[-> ->]|H]; [|left; exact H].
      right. exact X3.
    + intros col val ND [[= <- <-]|H].
      * inversion ND as [|? ? N1 N2]; subst.
        exists x. split; [|split; assumption].
        assert (E : lookup c0 (fold_left step row (set_item c0 x acc))
                    = lookup c0 (set_item c0 x acc)).
        { clear - N1. revert N1. generalize (set_item c0 x acc) as a.
          induction row as [|[c1 v1] row IHr]; intros a N1; [reflexivity|].
          destruct (row_to_record_step c1 v1) as (y & _ & _ & _ & Y).
          assert (Y' : step a (c1, v1) = set_item c1 y a) by exact (Y a).
          change (fold_left step ((c1, v1) :: row) a)
            with (fold_left step row (step a (c1, v1))).
          rewrite Y'.
          rewrite IHr by (simpl in N1; tauto).
          rewrite lookup_set_item.
          destruct (String.eqb_spec c0 c1) as [->|_]; [|reflexivity].
          simpl in N1. tauto. }
        rewrite E, lookup_set_item, String.eqb_refl. reflexivity.
      * inversion ND; subst. apply L; assumption.
Qed.

(** The record of a row has the columns of the row and never holds a NaN,
    a NaT or a timestamp: every value is a plain JSON value.  When the
    columns of the row are distinct, a missing cell (None, NaN, NaT, NA)
    becomes None, a timestamp becomes its [isoformat] string, and any other
    value is passed on as it is. *)
Theorem row_to_record_values (row : row) :
  (forall col, In col (map fst (_row_to_record isoformat row))
               <-> In col (map fst row)) /\
  (forall col v, In (col, v) (_row_to_record isoformat row) ->
     exists p, v = Obj p /\ forall f, p = VFloat f -> F64.is_nan f = false) /\
  (NoDup (map fst row) ->
   forall col val, In (col, val) row ->
     exists x,
       lookup col (_row_to_record isoformat row) = Some x /\
       (isna val = true -> x = Obj VNone) /\
       (isna val = false ->
        match val with
        | Time t => x = Obj (VStr (isoformat t))
        | _ => x = val
        end)).
Proof.
  unfold _row_to_record.
  destruct (row_to_record_fold row []) as (K & V & L).
  split; [|split].
  - intros col. rewrite K. simpl. tauto.
  - intros col v H. destruct (V col v H) as [[]|H']. exact H'.
  - intros ND col val H. apply L; assumption.
Qed.

Lemma row_to_record_keys (row : row) (col : string) :
  In col (map fst (_row_to_record isoformat row)) -> In col (map fst row).
Proof.
  unfold _row_to_record. intros H.
  destruct (row_to_record_fold row []) as (K & _ & _).
  apply K in H. destruct H as [H|[]]. exact H.
Qed.

End Records.

(** ** What reaches the table *)

Lemma select_keys (wanted : list string) (df : DataFrame) (r : row)
  (col : string) :
  In r (rows (select wanted df)) -> In col (map fst r) -> In col wanted.
Proof.
  unfold select. cbn [rows]. intros Hr Hc.
  apply in_map_iff in Hr. destruct Hr as (r0 & <- & _).
  apply in_map_iff in Hc. destruct Hc as ([c v] & <- & Hc).
  apply in_flat_map in Hc. destruct Hc as (w & Hw & Hc).
  apply filter_In in Hc. destruct Hc as [_ Hc]. cbn [fst] in *.
  apply String.eqb_eq in Hc. subst w. exact Hw.
Qed.

Section Loaded.
Context {RT : Runtime}.
Variables BATCH_SIZE MAX_RETRIES : Z.
Variable RETRY_BACKOFF : float.
Variable execute : nat -> list record -> bool.
Variable isoformat : Timestamp -> string.

Lemma transform_files_header (file_paths : list File) (out : DataFrame) :
  transform_files file_paths = Ok out ->
  out = empty_frame EMPTY_HEADER \/ columns out = SPEC_HEADER.
Proof.
  unfold transform_files.
  destruct (for_each _ file_paths) as [frames|e] eqn:E; simpl; [|discriminate].
  destruct (filter _ frames) as [|df rest] eqn:F; simpl.
  - intros H. inversion H. left. reflexivity.
  - intros H. right. apply (derive_columns (merge_frames (df :: rest)));
      [|exact H].
    apply merge_frames_columns. apply concat_canonical; [discriminate|].
    rewrite <- F. apply Forall_forall. intros x Hx.
    apply filter_In in Hx. destruct Hx as [Hx _].
    assert (HF : Forall (fun df => columns df = CANONICAL_COLS) frames).
    { eapply for_each_Forall; [exact E|].
      intros fp y _ Hy. eapply flatten_city_json_columns. exact Hy. }
    rewrite Forall_forall in HF. auto.
Qed.

(** The AQI category never reaches the table.  Let [df] be the table read
    back from the file a run of [transform_files] wrote: the same columns
    and as many rows.  Then every record the load hands to [insert] has
    only keys among the twelve columns other than [aqi_category]; the
    [AQI] column of the transform is dropped, since the load knows it
    under the name [aqi_category] only. *)
Theorem load_never_sends_aqi (file_paths : list File) (out df : DataFrame)
  (run : Run) :
  transform_files file_paths = Ok out ->
  columns df = columns out ->
  List.length (rows df) = List.length (rows out) ->
  load_csv_to_supabase BATCH_SIZE MAX_RETRIES RETRY_BACKOFF execute isoformat
    df = Ok (Some run) ->
  forall batch rec, In batch (calls run) -> In rec batch ->
    (forall col, In col (map fst rec) ->
       In col ["city"; "time"; "pm10"; "pm2_5"; "carbon_monoxide";
               "nitrogen_dioxide"; "sulphur_dioxide"; "ozone"; "uv_index";
               "severity_score"; "risk_flag"; "hour"]) /\
    lookup "AQI" rec = None /\
    lookup "aqi_category" rec = None.
Proof.
  intros Ht Hc Hl. unfold load_csv_to_supabase.
  destruct (transform_files_header _ _ Ht) as [->|Hs].
  - cbn [empty_frame rows List.length] in Hl.
    unfold df_empty. destruct (rows df); [|discriminate Hl].
    cbn [is_nil orb]. discriminate.
  - destruct (df_empty df); [discriminate|]. cbv zeta.
    destruct (load_records _ _ _ _ _) as [run'|e] eqn:L; cbn [bind];
      [|discriminate].
    intros H. apply Ok_inj in H. injection H as ->.
    intros batch rec Hb Hr.
    pose proof (load_records_sound _ _ _ _ _ _ L batch rec Hb Hr) as Hin.
    apply in_map_iff in Hin. destruct Hin as (r & <- & Hin).
    assert (K : forall col,
                In col (map fst (_row_to_record isoformat r)) ->
                In col ["city"; "time"; "pm10"; "pm2_5"; "carbon_monoxide";
                        "nitrogen_dioxide"; "sulphur_dioxide"; "ozone";
                        "uv_index"; "severity_score"; "risk_flag"; "hour"]).
    { intros col H. apply row_to_record_keys in H.
      pose proof (select_keys _ _ _ _ Hin H) as P.
      unfold present_cols, rename in P. cbn [columns] in P.
      rewrite Hc, Hs in P. vm_compute in P. exact P. }
    split; [exact K|].
    split; apply lookup_absent; intros H; apply K in H; simpl in H;
      intuition discriminate.
Qed.

End Loaded.

(* ===================================================================== *)
(** ** The load on the scenarios *)

Lemma batches_partition_witness :
  0 < 2 /\
  exists bs,
    batches 2 three_records = Ok bs /\
    List.concat bs = three_records /\
    Forall (fun b => b <> [] /\ Z.of_nat (List.length b) <= 2) bs.
Proof.
  split; [lia|]. apply (batches_partition 2 three_records). lia.
Defined.

Lemma insert_batch_retries_witness :
  0 <= 2 /\
  (forall j, 1 <= j <= 2 ->
     sleep (F64.mul (F64.of_Z 2) (F64.of_Z j)) = Ok tt) /\
  exists (k : nat) (st' : Run),
    insert_batch 2 (F64.of_Z 2) first_call_fails three_records no_run
    = Ok st' /\
    (1 <= k)%nat /\ Z.of_nat k <= 2 + 1 /\
    total_rows st' = total_rows no_run /\
    calls st' = repeat three_records k ++ calls no_run /\
    sleeps st'
    = map (fun j => F64.mul (F64.of_Z 2) (F64.of_Z (Z.of_nat j)))
        (rev (seq 1 (k - 1)))
      ++ sleeps no_run /\
    (forall j, (j < k - 1)%nat ->
       first_call_fails (List.length (calls no_run) + j)%nat three_records
       = false) /\
    (if first_call_fails (List.length (calls no_run) + (k - 1))%nat
          three_records
     then inserted_rows st'
          = inserted_rows no_run + Z.of_nat (List.length three_records) /\
          failed_rows st' = failed_rows no_run
     else Z.of_nat k = 2 + 1 /\
          inserted_rows st' = inserted_rows no_run /\
          failed_rows st'
          = failed_rows no_run + Z.of_nat (List.length three_records)).
Proof.
  assert (Hs : forall j, 1 <= j <= 2 ->
                 sleep (F64.mul (F64.of_Z 2) (F64.of_Z j)) = Ok tt).
  { intros j Hj. assert (D : j = 1 \/ j = 2) by lia.
    destruct D as [-> | ->]; vm_compute; reflexivity. }
  split; [lia|]. split; [exact Hs|].
  apply (insert_batch_retries 2 (F64.of_Z 2) first_call_fails three_records
           no_run); [lia|exact Hs].
Defined.

Lemma load_records_accounts_witness :
  0 < 2 /\ 0 <= 2 /\
  (forall j, 1 <= j <= 2 ->
     sleep (F64.mul (F64.of_Z 2) (F64.of_Z j)) = Ok tt) /\
  exists run bs,
    load_records 2 2 (F64.of_Z 2) first_call_fails three_records = Ok run /\
    batches 2 three_records = Ok bs /\
    total_rows run = Z.of_nat (List.length three_records) /\
    inserted_rows run + failed_rows run = total_rows run /\
    0 <= inserted_rows run /\ 0 <= failed_rows run /\
    (forall b, In b (calls run) <-> In b bs) /\
    Z.of_nat (List.length bs)
    <= Z.of_nat (List.length (calls run))
    <= (2 + 1) * Z.of_nat (List.length bs).
Proof.
  assert (Hs : forall j, 1 <= j <= 2 ->
                 sleep (F64.mul (F64.of_Z 2) (F64.of_Z j)) = Ok tt).
  { intros j Hj. assert (D : j = 1 \/ j = 2) by lia.
    destruct D as [-> | ->]; vm_compute; reflexivity. }
  split; [lia|]. split; [lia|]. split; [exact Hs|].
  apply (load_records_accounts 2 2 (F64.of_Z 2) first_call_fails
           three_records); [lia|lia|exact Hs].
Defined.

(** With the default [MAX_RETRIES] of 2, a back-off of -1 second and a
    service that rejects the first call, the load ends with the
    [ValueError] of [time.sleep]. *)
Example negative_backoff_aborts :
  load_records 2 2 (F64.of_Z (-1)) first_call_fails three_records
  = Raise ValueError.
Proof. vm_compute. reflexivity. Qed.

Lemma load_never_sends_aqi_witness :
  transform_files [pune_v2_file] = Ok pune_output /\
  load_csv_to_supabase 200 2 (F64.of_Z 2) (fun _ _ => true) epoch_ns
    pune_output = Ok (Some pune_run) /\
  calls pune_run <> [] /\
  forall batch rec, In batch (calls pune_run) -> In rec batch ->
    (forall col, In col (map fst rec) ->
       In col ["city"; "time"; "pm10"; "pm2_5"; "carbon_monoxide";
               "nitrogen_dioxide"; "sulphur_dioxide"; "ozone"; "uv_index";
               "severity_score"; "risk_flag"; "hour"]) /\
    lookup "AQI" rec = None /\
    lookup "aqi_category" rec = None.
Proof.
  split; [vm_compute; reflexivity|].
  split; [vm_compute; reflexivity|].
  split; [discriminate|].
  apply (load_never_sends_aqi 200 2 (F64.of_Z 2) (fun _ _ => true) epoch_ns
           [pune_v2_file] pune_output pune_output pune_run);
    [vm_compute; reflexivity|reflexivity|reflexivity|vm_compute; reflexivity].
Defined.
